(** * Flight schedule parser and query tool: a shallow embedding

    The program under study is [flight_parser.py].  Its functions are
    embedded here as Rocq functions over the following data:

    - a Python [str] is a [string]; the development covers ASCII text
      (code points below 128), for which the code-point sequence and the
      UTF-8 bytes written to the error log coincide.  The arrow of the
      diagnostic line, U+2192, appears as its three UTF-8 bytes;
    - a Python [int] is a [Z];
    - a Python [float] is an IEEE binary64 value, [float] below, with
      NaN, the two infinities and signed finite values [m * 2^e];
    - a Python [dict] is an association list in insertion order;
    - an exception is a value of [exn] carried by [result].

    Library routines the program calls ([str.strip], [str.isalnum],
    [datetime.strptime], [float], [json.dump], [json.load], [str]) are
    embedded from their CPython 3.11 behaviour on ASCII input. *)

From Stdlib Require Import ZArith List String Ascii Bool Lia.
Import ListNotations.

Local Open Scope string_scope.
Local Open Scope Z_scope.

(** ** Python string primitives *)

Module PyStr.

Definition code (c : ascii) : Z := Z.of_N (N_of_ascii c).

Definition in_range (lo hi : ascii) (c : ascii) : bool :=
  (code lo <=? code c) && (code c <=? code hi).

(** ASCII decimal digit: [str.isdigit], regex [\d]. *)
Definition isdigit (c : ascii) : bool := in_range "0" "9" c.

Definition isupper_c (c : ascii) : bool := in_range "A" "Z" c.
Definition islower_c (c : ascii) : bool := in_range "a" "z" c.
Definition isalpha_c (c : ascii) : bool := isupper_c c || islower_c c.
Definition isalnum_c (c : ascii) : bool := isalpha_c c || isdigit c.

(** [Py_UNICODE_ISSPACE] on ASCII: TAB, LF, VT, FF, CR, FS, GS, RS, US and
    SPACE.  This is the set used by [str.strip] and by regex [\s]. *)
Definition isspace (c : ascii) : bool :=
  let n := code c in
  ((9 <=? n) && (n <=? 13)) || ((28 <=? n) && (n <=? 32)).

(** [Py_ISSPACE]: the C-locale set used by [float] on ASCII strings. *)
Definition c_isspace (c : ascii) : bool :=
  let n := code c in
  ((9 <=? n) && (n <=? 13)) || (n =? 32).

Definition digit_val (c : ascii) : Z := code c - 48.

Fixpoint forallb_s (p : ascii -> bool) (s : string) : bool :=
  match s with
  | EmptyString => true
  | String c s' => p c && forallb_s p s'
  end.

Fixpoint existsb_s (p : ascii -> bool) (s : string) : bool :=
  match s with
  | EmptyString => false
  | String c s' => p c || existsb_s p s'
  end.

Definition len (s : string) : Z := Z.of_nat (String.length s).

(** A string is truthy when it is not empty. *)
Definition truthy (s : string) : bool :=
  match s with EmptyString => false | _ => true end.

(** [str.isalnum], [str.isalpha]: every character qualifies and there is
    at least one. *)
Definition isalnum (s : string) : bool := truthy s && forallb_s isalnum_c s.
Definition isalpha (s : string) : bool := truthy s && forallb_s isalpha_c s.

(** [str.isupper]: no lowercase cased character and at least one
    uppercase one. *)
Definition isupper (s : string) : bool :=
  negb (existsb_s islower_c s) && existsb_s isupper_c s.

Fixpoint lstrip_by (sp : ascii -> bool) (s : string) : string :=
  match s with
  | String c s' => if sp c then lstrip_by sp s' else s
  | EmptyString => EmptyString
  end.

Fixpoint rstrip_by (sp : ascii -> bool) (s : string) : string :=
  match s with
  | EmptyString => EmptyString
  | String c s' =>
      match rstrip_by sp s' with
      | EmptyString => if sp c then EmptyString else String c EmptyString
      | r => String c r
      end
  end.

(** [str.strip()] with no argument. *)
Definition strip (s : string) : string := rstrip_by isspace (lstrip_by isspace s).

(** [sep.join(parts)]. *)
Fixpoint join (sep : string) (parts : list string) : string :=
  match parts with
  | [] => ""
  | [p] => p
  | p :: rest => p ++ sep ++ join sep rest
  end.

Definition digit_char (n : Z) : ascii := ascii_of_N (Z.to_N (48 + n)).

(** The decimal digits of [n], most significant first; [fuel] bounds
    their number. *)
Fixpoint digits_fuel (fuel : nat) (n : Z) : string :=
  match fuel with
  | O => EmptyString
  | S fuel' =>
      (if n <? 10 then EmptyString else digits_fuel fuel' (n / 10))
      ++ String (digit_char (n mod 10)) EmptyString
  end.

(** Decimal digits of a natural number: it has no more decimal digits
    than binary ones. *)
Definition digits_of (n : Z) : string :=
  digits_fuel (S (Z.to_nat (Z.log2 n))) n.

(** [str(n)] for an [int]. *)
Definition str_of_int (n : Z) : string :=
  if n <? 0 then "-" ++ digits_of (- n) else digits_of n.

(** Value of a run of decimal digits, most significant first. *)
Fixpoint digits_val_from (acc : Z) (s : string) : Z :=
  match s with
  | EmptyString => acc
  | String c s' => digits_val_from (10 * acc + digit_val c) s'
  end.

Definition digits_val (s : string) : Z := digits_val_from 0 s.

End PyStr.

(** ** Exceptions *)

Inductive exn : Type :=
| TypeError
| ValueError
| KeyError
| OverflowError
| FileNotFoundError.

Inductive result (A : Type) : Type :=
| Ok (a : A)
| Raise (e : exn).

Arguments Ok {A} a.
Arguments Raise {A} e.

Definition bind {A B : Type} (r : result A) (k : A -> result B) : result B :=
  match r with
  | Ok a => k a
  | Raise e => Raise e
  end.

Notation "x <- r ;; k" := (bind r (fun x => k))
  (at level 61, r at next level, right associativity).

(** ** [datetime] and [datetime.strptime] *)

Module PyDatetime.
Import PyStr.

(** A naive [datetime]; the format used by the program never sets seconds
    or microseconds, so they are always zero and are left out. *)
Record datetime : Type := mkdt {
  year : Z; month : Z; day : Z; hour : Z; minute : Z
}.

(** Ordering of naive datetimes: lexicographic on the fields. *)
Definition dt_compare (a b : datetime) : comparison :=
  match year a ?= year b with
  | Eq => match month a ?= month b with
          | Eq => match day a ?= day b with
                  | Eq => match hour a ?= hour b with
                          | Eq => minute a ?= minute b
                          | c => c
                          end
                  | c => c
                  end
          | c => c
          end
  | c => c
  end.

Definition dt_ltb (a b : datetime) : bool :=
  match dt_compare a b with Lt => true | _ => false end.
Definition dt_leb (a b : datetime) : bool :=
  match dt_compare a b with Gt => false | _ => true end.
Definition dt_gtb (a b : datetime) : bool := dt_ltb b a.

Definition is_leap (y : Z) : bool :=
  (y mod 4 =? 0) && (negb (y mod 100 =? 0) || (y mod 400 =? 0)).

Definition days_in_month (y m : Z) : Z :=
  if (m =? 2) then (if is_leap y then 29 else 28)
  else if (m =? 4) || (m =? 6) || (m =? 9) || (m =? 11) then 30
  else 31.

(** The [date] constructor's range check: [MINYEAR = 1], [MAXYEAR = 9999]. *)
Definition valid_date (y m d : Z) : bool :=
  (1 <=? y) && (y <=? 9999) && (1 <=? m) && (m <=? 12) &&
  (1 <=? d) && (d <=? days_in_month y m).

(** *** The regular expression of the format

    [_strptime] turns the format into a regular expression and runs
    [re.match] on the data: the first match in backtracking order is
    taken, and it must end at the end of the data.  A pattern is embedded
    as the list of its matches in that order, each a captured text and the
    unread rest of the data. *)

Definition pattern : Type := string -> list (string * string).

(** One character of a class. *)
Definition cls (p : ascii -> bool) : pattern :=
  fun s => match s with
           | String c r => if p c then [(String c EmptyString, r)] else []
           | EmptyString => []
           end.

Definition chr (c : ascii) : pattern := cls (Ascii.eqb c).

(** Concatenation: every match of [p] continued by every match of [q]. *)
Definition cat (p q : pattern) : pattern :=
  fun s => flat_map (fun '(t1, r1) =>
             map (fun '(t2, r2) => (t1 ++ t2, r2)) (q r1)) (p s).

(** Alternation [p|q]: the matches of [p] come first. *)
Definition alt (p q : pattern) : pattern :=
  fun s => (p s ++ q s)%list.

(** [c+] for a class [c], greedy: longer runs come first. *)
Fixpoint plus_cls (p : ascii -> bool) (s : string) : list (string * string) :=
  match s with
  | String c r =>
      if p c
      then (map (fun '(t, r') => (String c t, r')) (plus_cls p r)
            ++ [(String c EmptyString, r)])%list
      else []
  | EmptyString => []
  end.

Infix ">>>" := cat (at level 41, right associativity).
Infix "<|>" := alt (at level 42, right associativity).

Definition d_ : pattern := cls isdigit.
Definition rng (lo hi : ascii) : pattern := cls (in_range lo hi).

(** [%Y]: [\d\d\d\d] *)
Definition re_Y : pattern := d_ >>> d_ >>> d_ >>> d_.
(** [%m]: [1[0-2]|0[1-9]|[1-9]] *)
Definition re_m : pattern :=
  (chr "1" >>> rng "0" "2") <|> (chr "0" >>> rng "1" "9") <|> rng "1" "9".
(** [%d]: [3[0-1]|[1-2]\d|0[1-9]|[1-9]| [1-9]] *)
Definition re_d : pattern :=
  (chr "3" >>> rng "0" "1") <|> (rng "1" "2" >>> d_) <|>
  (chr "0" >>> rng "1" "9") <|> rng "1" "9" <|> (chr " " >>> rng "1" "9").
(** [%H]: [2[0-3]|[0-1]\d|\d] *)
Definition re_H : pattern :=
  (chr "2" >>> rng "0" "3") <|> (rng "0" "1" >>> d_) <|> d_.
(** [%M]: [[0-5]\d|\d] *)
Definition re_M : pattern := (rng "0" "5" >>> d_) <|> d_.

(** The groups captured by a match of the whole format. *)
Record groups : Type := mkgroups {
  g_Y : string; g_m : string; g_d : string; g_H : string; g_M : string
}.

(** A literal or a run of white space between two groups: its text is not
    captured. *)
Definition skip (p : pattern) (s : string) : list string :=
  map snd (p s).

(** The regular expression of ["%Y-%m-%d %H:%M"]:
    [(?P<Y>..)-(?P<m>..)-(?P<d>..)\s+(?P<H>..):(?P<M>..)].  The blank of
    the format becomes [\s+]. *)
Definition format_regex (s : string) : list (groups * string) :=
  flat_map (fun '(tY, s1) =>
  flat_map (fun s2 =>
  flat_map (fun '(tm, s3) =>
  flat_map (fun s4 =>
  flat_map (fun '(td, s5) =>
  flat_map (fun s6 =>
  flat_map (fun '(tH, s7) =>
  flat_map (fun s8 =>
  map (fun '(tM, s9) => (mkgroups tY tm td tH tM, s9))
    (re_M s8))
    (skip (chr ":") s7))
    (re_H s6))
    (skip (plus_cls isspace) s5))
    (re_d s4))
    (skip (chr "-") s3))
    (re_m s2))
    (skip (chr "-") s1))
    (re_Y s).

(** [int(text)] for a captured group: surrounding blanks are dropped (the
    day group may start with one), the rest is a run of digits. *)
Definition int_of_group (t : string) : Z := digits_val (strip t).

(** [datetime.strptime(value, "%Y-%m-%d %H:%M")] on a [str]: [ValueError]
    when there is no match, when the match leaves data unread, or when
    the date does not exist. *)
Definition strptime (value : string) : result datetime :=
  match format_regex value with
  | [] => Raise ValueError
  | (g, rest) :: _ =>
      if truthy rest then Raise ValueError
      else
        let y := int_of_group (g_Y g) in
        let m := int_of_group (g_m g) in
        let d := int_of_group (g_d g) in
        if valid_date y m d
        then Ok (mkdt y m d (int_of_group (g_H g)) (int_of_group (g_M g)))
        else Raise ValueError
  end.

End PyDatetime.

(** ** Python [float]: IEEE binary64 *)

Module PyFloat.
Import PyStr.

(** A finite value is [(-1)^neg * m * 2^e]; the values produced by
    [round_ratio] are canonical: [m < 2^53], [-1074 <= e <= 971], and
    [2^52 <= m] unless [e = -1074]. *)
Inductive float : Type :=
| Fnan
| Finf (neg : bool)
| Ffin (neg : bool) (m : Z) (e : Z).

Definition emin : Z := -1074.
Definition emax : Z := 971.

(** The finite values of the type that are binary64 numbers. *)
Definition binary64 (x : float) : Prop :=
  match x with
  | Ffin _ m e =>
      0 <= m < 2 ^ 53 /\ emin <= e <= emax /\ (2 ^ 52 <= m \/ e = emin)
  | _ => True
  end.

(** Nearest integer to [a / b], ties to even ([0 <= a], [0 < b]). *)
Definition rne_div (a b : Z) : Z :=
  let q := a / b in
  match 2 * (a mod b) ?= b with
  | Lt => q
  | Gt => q + 1
  | Eq => if Z.even q then q else q + 1
  end.

(** [p / (q * 2^e)] as a fraction of integers. *)
Definition scale (p q e : Z) : Z * Z :=
  if 0 <=? e then (p, q * 2 ^ e) else (p * 2 ^ (- e), q).

(** The exponent [e] with [2^52 <= p / (q * 2^e) < 2^53] ([0 < p], [0 < q]). *)
Definition binade (p q : Z) : Z :=
  let g := Z.log2 p - Z.log2 q in
  let '(a, b) := scale p q (g - 52) in
  if 2 ^ 52 * b <=? a then g - 52 else g - 53.

(** Correct rounding of the rational [p / q] ([0 <= p], [0 < q]) to
    binary64, round-half-even, overflowing to infinity. *)
Definition round_ratio (neg : bool) (p q : Z) : float :=
  if p =? 0 then Ffin neg 0 emin
  else
    let e := Z.max (binade p q) emin in
    let '(a, b) := scale p q e in
    let m := rne_div a b in
    let '(m', e') := if m =? 2 ^ 53 then (2 ^ 52, e + 1) else (m, e) in
    if emax <? e' then Finf neg else Ffin neg m' e'.

(** Correct rounding of [d * 10^k] ([0 <= d]). *)
Definition round_decimal (neg : bool) (d k : Z) : float :=
  if 0 <=? k then round_ratio neg (d * 10 ^ k) 1
  else round_ratio neg d (10 ^ (- k)).

(** *** Comparisons: IEEE, every comparison with NaN is false *)

Definition sval (neg : bool) (m : Z) : Z := if neg then - m else m.

Definition fcompare (x y : float) : option comparison :=
  match x, y with
  | Fnan, _ | _, Fnan => None
  | Finf nx, Finf ny =>
      Some (if nx then (if ny then Eq else Lt) else (if ny then Gt else Eq))
  | Finf nx, Ffin _ _ _ => Some (if nx then Lt else Gt)
  | Ffin _ _ _, Finf ny => Some (if ny then Gt else Lt)
  | Ffin nx mx ex, Ffin ny my ey =>
      let e := Z.min ex ey in
      Some (sval nx mx * 2 ^ (ex - e) ?= sval ny my * 2 ^ (ey - e))
  end.

Definition flt (x y : float) : bool :=
  match fcompare x y with Some Lt => true | _ => false end.
Definition fgt (x y : float) : bool :=
  match fcompare x y with Some Gt => true | _ => false end.
Definition feq (x y : float) : bool :=
  match fcompare x y with Some Eq => true | _ => false end.
Definition fle (x y : float) : bool :=
  match fcompare x y with Some Lt | Some Eq => true | _ => false end.

Definition fzero : float := Ffin false 0 emin.

(** *** [float(n)] for an [int]: [OverflowError] when out of range *)

Definition float_of_int (n : Z) : result float :=
  match round_ratio (n <? 0) (Z.abs n) 1 with
  | Finf _ => Raise OverflowError
  | f => Ok f
  end.

(** *** [float(s)] for a [str] *)

(** Maximal prefix of characters of a class, and the rest. *)
Fixpoint span (p : ascii -> bool) (s : string) : string * string :=
  match s with
  | String c r =>
      if p c then let '(a, b) := span p r in (String c a, b)
      else (EmptyString, s)
  | EmptyString => (EmptyString, EmptyString)
  end.

Definition take_sign (s : string) : bool * string :=
  match s with
  | String c r =>
      if Ascii.eqb c "-" then (true, r)
      else if Ascii.eqb c "+" then (false, r)
      else (false, s)
  | EmptyString => (false, s)
  end.

(** [_Py_string_to_number_with_underscores]: an underscore must stand
    between two digits; the underscores are removed.  [prev] is the
    previous character, NUL at the start. *)
Fixpoint drop_underscores (prev : ascii) (s : string) : option string :=
  match s with
  | EmptyString => if Ascii.eqb prev "_" then None else Some EmptyString
  | String c r =>
      if Ascii.eqb c "_" then
        if isdigit prev then drop_underscores c r else None
      else if Ascii.eqb prev "_" && negb (isdigit c) then None
      else option_map (String c) (drop_underscores c r)
  end.

Definition MAX_ABS_EXP : Z := 1100000000.

(** The exponent part of [_Py_dg_strtod]: [e] or [E], a sign, digits.
    Without a digit the exponent is not read at all.  The value is capped
    at [MAX_ABS_EXP]. *)
Definition read_exponent (s : string) : Z * string :=
  match s with
  | String c r =>
      if Ascii.eqb c "e" || Ascii.eqb c "E" then
        let '(eneg, r1) := take_sign r in
        let '(ds, r2) := span isdigit r1 in
        match ds with
        | EmptyString => (0, s)
        | _ =>
            let sig := lstrip_by (Ascii.eqb "0") ds in
            let v := digits_val sig in
            let a := if (9 <? len sig) || (MAX_ABS_EXP <? v)
                     then MAX_ABS_EXP else v in
            (if eneg then - a else a, r2)
        end
      else (0, s)
  | EmptyString => (0, s)
  end.

(** [_Py_dg_strtod]: sign, digits, an optional point and digits, an
    optional exponent; at least one digit before or after the point.
    Returns the value and the unread rest, or [None] on a parse error. *)
Definition strtod (s : string) : option (float * string) :=
  let '(neg, s1) := take_sign s in
  let '(ip, s2) := span isdigit s1 in
  let '(fp, s3) :=
    match s2 with
    | String c r => if Ascii.eqb c "." then span isdigit r else (EmptyString, s2)
    | EmptyString => (EmptyString, s2)
    end in
  if negb (truthy ip) && negb (truthy fp) then None
  else
    let '(e, s4) := read_exponent s3 in
    Some (round_decimal neg (digits_val (ip ++ fp)) (e - len fp), s4).

Definition tolower (c : ascii) : ascii :=
  if isupper_c c then ascii_of_N (N_of_ascii c + 32) else c.

(** [case_insensitive_match]: [t] is lowercase; the rest of [s] after it. *)
Fixpoint ci_match (t s : string) : option string :=
  match t with
  | EmptyString => Some s
  | String a t' =>
      match s with
      | String c s' => if Ascii.eqb (tolower c) a then ci_match t' s' else None
      | EmptyString => None
      end
  end.

(** [_Py_parse_inf_or_nan]. *)
Definition parse_inf_or_nan (s : string) : option (float * string) :=
  let '(neg, s1) := take_sign s in
  match ci_match "inf" s1 with
  | Some s2 =>
      match ci_match "inity" s2 with
      | Some s3 => Some (Finf neg, s3)
      | None => Some (Finf neg, s2)
      end
  | None =>
      match ci_match "nan" s1 with
      | Some s2 => Some (Fnan, s2)
      | None => None
      end
  end.

(** [float_from_string_inner]: the blanks around the number are dropped,
    the number is read by [strtod], or else as an infinity or a NaN, and
    nothing may be left unread. *)
Definition float_of_stripped (s : string) : option float :=
  let r := match strtod s with
           | Some r => Some r
           | None => parse_inf_or_nan s
           end in
  match r with
  | Some (x, EmptyString) => Some x
  | _ => None
  end.

(** [float(s)]: [None] stands for [ValueError]. *)
Definition float_of_string (s : string) : option float :=
  match drop_underscores "000" s with
  | None => None
  | Some s' =>
      match lstrip_by c_isspace s' with
      | EmptyString => None
      | s1 => float_of_stripped (rstrip_by c_isspace s1)
      end
  end.

(** *** [repr(x)]: the shortest decimal text that reads back as [x] *)

Definition float_eqb (x y : float) : bool :=
  match x, y with
  | Fnan, Fnan => true
  | Finf a, Finf b => Bool.eqb a b
  | Ffin a m e, Ffin b m' e' => Bool.eqb a b && (m =? m') && (e =? e')
  | _, _ => false
  end.

(** [m * 2^e / 10^k] as a fraction of integers. *)
Definition decimal_ratio (m e k : Z) : Z * Z :=
  (m * 2 ^ Z.max e 0 * 10 ^ Z.max (- k) 0, 2 ^ Z.max (- e) 0 * 10 ^ Z.max k 0).

(** The digits [d] and the power of ten [k] of the shortest decimal
    [d * 10^k] that rounds to [m * 2^e]: the coarsest grid [10^k] with a
    point that rounds to the value, and on it the point nearest to the
    value.  The grid is searched downwards from [k]; at [k = -1074] the
    value itself lies on the grid. *)
Fixpoint shortest (fuel : nat) (k : Z) (m e : Z) : Z * Z :=
  match fuel with
  | O => (m * 2 ^ (e + 1074) * 5 ^ 1074, -1074)
  | S fuel' =>
      let '(a, b) := decimal_ratio m e k in
      let lo := a / b in
      let hi := lo + 1 in
      let ok_lo := float_eqb (round_decimal false lo k) (Ffin false m e) in
      let ok_hi := float_eqb (round_decimal false hi k) (Ffin false m e) in
      if ok_lo && ok_hi then (rne_div a b, k)
      else if ok_lo then (lo, k)
      else if ok_hi then (hi, k)
      else shortest fuel' (k - 1) m e
  end.

(** The search starts at a power of ten above the value, which lies below
    [2^b] for [b = log2 m + e + 1]. *)
Definition shortest_digits (m e : Z) : Z * Z :=
  let b := Z.log2 m + e + 1 in
  let k0 := (if 0 <=? b then b / 3 else (3 * b) / 10) + 1 in
  shortest (Z.to_nat (k0 + 1075)) k0 m e.

Fixpoint zeros (n : nat) : string :=
  match n with
  | O => EmptyString
  | S n' => String "0" (zeros n')
  end.

Fixpoint take (n : nat) (s : string) : string :=
  match n, s with
  | S n', String c r => String c (take n' r)
  | _, _ => EmptyString
  end.

Fixpoint drop (n : nat) (s : string) : string :=
  match n, s with
  | S n', String c r => drop n' r
  | _, _ => s
  end.

(** [format_float_short] for the [repr] mode: exponent notation when the
    decimal point lies more than sixteen places right or more than three
    places left of the first digit; the exponent has two digits or more; a
    [.0] is added to an integral value. *)
Definition format_repr (d k : Z) : string :=
  let ds := digits_of d in
  let n := len ds in
  let decpt := n + k in
  if (decpt <=? -4) || (16 <? decpt) then
    let x := decpt - 1 in
    let xs := digits_of (Z.abs x) in
    take 1 ds ++ (if 1 <? n then "." ++ drop 1 ds else "")
      ++ "e" ++ (if x <? 0 then "-" else "+")
      ++ (if len xs <? 2 then "0" ++ xs else xs)
  else if decpt <=? 0 then
    "0." ++ zeros (Z.to_nat (- decpt)) ++ ds
  else if decpt <? n then
    take (Z.to_nat decpt) ds ++ "." ++ drop (Z.to_nat decpt) ds
  else
    ds ++ zeros (Z.to_nat (decpt - n)) ++ ".0".

Definition float_repr (x : float) : string :=
  match x with
  | Fnan => "nan"
  | Finf neg => if neg then "-inf" else "inf"
  | Ffin neg m e =>
      (if neg then "-" else "") ++
      (if m =? 0 then "0.0"
       else let '(d, k) := shortest_digits m e in format_repr d k)
  end.

End PyFloat.

(** ** Python values *)

Module PyVal.
Import PyStr PyFloat.

(** The values that reach the program: text fields of a CSV row and the
    values [json.load] produces.  A [dict] has [str] keys and keeps its
    insertion order. *)
#[warnings="-register-all"]
Inductive pyval : Type :=
| PNone
| PBool (b : bool)
| PInt (n : Z)
| PFloat (x : float)
| PStr (s : string)
| PList (l : list pyval)
| PDict (d : list (string * pyval)).

Definition dict : Type := list (string * pyval).

(** [d.get(k)], as an option. *)
Fixpoint dict_get (k : string) (d : dict) : option pyval :=
  match d with
  | [] => None
  | (k', v) :: d' => if String.eqb k k' then Some v else dict_get k d'
  end.

(** [k in d] *)
Definition dict_in (k : string) (d : dict) : bool :=
  match dict_get k d with Some _ => true | None => false end.

(** [d[k]]: [KeyError] for a missing key. *)
Definition subscript (d : dict) (k : string) : result pyval :=
  match dict_get k d with
  | Some v => Ok v
  | None => Raise KeyError
  end.

(** [d[k] = v]: an existing key keeps its place. *)
Fixpoint dict_set (k : string) (v : pyval) (d : dict) : dict :=
  match d with
  | [] => [(k, v)]
  | (k', v') :: d' =>
      if String.eqb k k' then (k, v) :: d' else (k', v') :: dict_set k v d'
  end.

(** [float(v)] *)
Definition py_float (v : pyval) : result float :=
  match v with
  | PFloat x => Ok x
  | PInt n => float_of_int n
  | PBool b => float_of_int (if b then 1 else 0)
  | PStr s =>
      match float_of_string s with
      | Some x => Ok x
      | None => Raise ValueError
      end
  | PNone | PList _ | PDict _ => Raise TypeError
  end.

Definition hex_digit (n : Z) : ascii :=
  ascii_of_N (Z.to_N (if n <? 10 then 48 + n else 87 + n)).

(** [repr(s)] for a [str]: single quotes unless the text has a single
    quote and no double quote; the quote, the backslash and the control
    characters are escaped. *)
Definition repr_char (quote : ascii) (c : ascii) : string :=
  if Ascii.eqb c quote || Ascii.eqb c "\" then String "\" (String c "")
  else if Ascii.eqb c "009" then "\t"
  else if Ascii.eqb c "010" then "\n"
  else if Ascii.eqb c "013" then "\r"
  else if (code c <? 32) || (code c =? 127) then
    String "\" (String "x" (String (hex_digit (code c / 16))
                              (String (hex_digit (code c mod 16)) "")))
  else String c "".

Fixpoint concat_map (f : ascii -> string) (s : string) : string :=
  match s with
  | EmptyString => EmptyString
  | String c r => f c ++ concat_map f r
  end.

(** The double quote, code 34. *)
Definition dquote : ascii := "034".

Definition repr_str (s : string) : string :=
  let quote : ascii :=
    if existsb_s (Ascii.eqb "'") s && negb (existsb_s (Ascii.eqb dquote) s)
    then dquote else "'"%char in
  String quote (concat_map (repr_char quote) s ++ String quote "").

Fixpoint py_repr (v : pyval) : string :=
  match v with
  | PNone => "None"
  | PBool b => if b then "True" else "False"
  | PInt n => str_of_int n
  | PFloat x => float_repr x
  | PStr s => repr_str s
  | PList l => "[" ++ join ", " (map py_repr l) ++ "]"
  | PDict d =>
      "{" ++ join ", " (map (fun kv => repr_str (fst kv) ++ ": " ++ py_repr (snd kv)) d)
          ++ "}"
  end.

(** [str(v)] *)
Definition py_str (v : pyval) : string :=
  match v with
  | PStr s => s
  | _ => py_repr v
  end.

End PyVal.

Import PyStr PyDatetime PyFloat PyVal.

(** ** Field validators *)

Definition is_valid_flight_id (value : string) : bool :=
  isalnum value && ((2 <=? len value) && (len value <=? 8)).

Definition is_valid_airport_code (value : string) : bool :=
  (len value =? 3) && isalpha value && isupper value.

(** [datetime.strptime(value, DATETIME_FORMAT)]: [TypeError] unless
    [value] is a [str]. *)
Definition py_strptime (value : pyval) : result datetime :=
  match value with
  | PStr s => strptime s
  | _ => Raise TypeError
  end.

(** [None] for a [ValueError]; any other exception goes on to the caller. *)
Definition parse_datetime (value : pyval) : result (option datetime) :=
  match py_strptime value with
  | Ok dt => Ok (Some dt)
  | Raise ValueError => Ok None
  | Raise e => Raise e
  end.

Definition parse_price (value : pyval) : result (option float) :=
  match py_float value with
  | Ok x => Ok (Some x)
  | Raise ValueError => Ok None
  | Raise e => Raise e
  end.

(** On a [str] neither of the two raises: these are the calls of
    [validate_row]. *)
Definition parse_datetime_str (s : string) : option datetime :=
  match parse_datetime (PStr s) with
  | Ok r => r
  | Raise _ => None
  end.

Definition parse_price_str (s : string) : option float :=
  match parse_price (PStr s) with
  | Ok r => r
  | Raise _ => None
  end.

(** ** The row validator *)

(** The line written to the error log. *)
Definition diagnostic (line_no : Z) (original_line : string)
    (reasons : list string) : string :=
  "Line " ++ str_of_int line_no ++ ": " ++ original_line ++ " → "
    ++ join ", " reasons.

Definition mk_flight (flight_id origin destination dep_str arr_str : string)
    (price : pyval) : dict :=
  [ ("flight_id", PStr flight_id);
    ("origin", PStr origin);
    ("destination", PStr destination);
    ("departure_datetime", PStr dep_str);
    ("arrival_datetime", PStr arr_str);
    ("price", price) ].

(** An [Optional[float]] as a value. *)
Definition of_optional (o : option float) : pyval :=
  match o with
  | Some x => PFloat x
  | None => PNone
  end.

(** [reasons.append(r)] *)
Definition append (reasons : list string) (r : string) : list string :=
  (reasons ++ [r])%list.

Definition validate_row (fields : list string) (line_no : Z)
    (original_line : string) : bool * option dict * string :=
  let reasons : list string := [] in
  match fields with
  | [f0; f1; f2; f3; f4; f5] =>
      let flight_id := strip f0 in
      let origin := strip f1 in
      let destination := strip f2 in
      let dep_str := strip f3 in
      let arr_str := strip f4 in
      let price_str := strip f5 in
      (* Flight ID *)
      let reasons :=
        if negb (truthy flight_id) then append reasons "missing flight_id field"
        else if negb (is_valid_flight_id flight_id) then
          if 8 <? len flight_id
          then append reasons "flight_id too long (more than 8 characters)"
          else append reasons "invalid flight_id format"
        else reasons in
      (* Origin *)
      let reasons :=
        if negb (truthy origin) then append reasons "missing origin field"
        else if negb (is_valid_airport_code origin)
        then append reasons "invalid origin code"
        else reasons in
      (* Destination *)
      let reasons :=
        if negb (truthy destination) then append reasons "missing destination field"
        else if negb (is_valid_airport_code destination)
        then append reasons "invalid destination code"
        else reasons in
      (* Datetimes *)
      let dep_dt := parse_datetime_str dep_str in
      let arr_dt := parse_datetime_str arr_str in
      let reasons :=
        match dep_dt, arr_dt with
        | None, None => append reasons "invalid date format"
        | _, _ =>
            let reasons :=
              match dep_dt with
              | None => append reasons "invalid departure datetime"
              | Some _ => reasons
              end in
            match arr_dt with
            | None => append reasons "invalid arrival datetime"
            | Some _ => reasons
            end
        end in
      (* Arrival after departure *)
      let reasons :=
        match dep_dt, arr_dt with
        | Some dep, Some arr =>
            if dt_leb arr dep then append reasons "arrival before departure"
            else reasons
        | _, _ => reasons
        end in
      (* Price *)
      let price := parse_price_str price_str in
      let reasons :=
        match price with
        | None => append reasons "invalid price value"
        | Some p =>
            if flt p fzero then append reasons "negative price value"
            else if feq p fzero then append reasons "price must be positive"
            else reasons
        end in
      match reasons with
      | _ :: _ => (false, None, diagnostic line_no original_line reasons)
      | [] =>
          let flight :=
            mk_flight flight_id origin destination dep_str arr_str
              (of_optional price) in
          (true, Some flight, "")
      end
  | _ =>
      let reasons := append reasons "missing required fields" in
      (false, None, diagnostic line_no original_line reasons)
  end.

(** ** The JSON database *)

Module Json.

Inductive constant : Type := NaN | Infinity | NegInfinity.

(** A JSON document as [json.dump] writes it and [json.load] reads it:
    the tree of its tokens.  A number is kept as its text, because the
    reader chooses [int] or [float] from the way the number is written.
    White space between tokens and the escapes inside a string token are
    not represented. *)
#[warnings="-register-all"]
Inductive doc : Type :=
| JNull
| JBool (b : bool)
| JNumber (text : string)
| JConstant (c : constant)
| JString (s : string)
| JArray (items : list doc)
| JObject (members : list (string * doc)).

(** [floatstr] of [json.encoder], with [allow_nan=True]. *)
Definition floatstr (x : float) : doc :=
  match x with
  | Fnan => JConstant NaN
  | Finf neg => JConstant (if neg then NegInfinity else Infinity)
  | Ffin _ _ _ => JNumber (float_repr x)
  end.

(** [json.dump]: the document written for a value. *)
Fixpoint encode (v : pyval) : doc :=
  match v with
  | PNone => JNull
  | PBool b => JBool b
  | PInt n => JNumber (str_of_int n)
  | PFloat x => floatstr x
  | PStr s => JString s
  | PList l => JArray (map encode l)
  | PDict d => JObject (map (fun kv => (fst kv, encode (snd kv))) d)
  end.

(** [int(text)] for an integer token: a sign and digits, at most 4300 of
    them. *)
Definition int_of_token (text : string) : option Z :=
  let '(neg, ds) :=
    match text with
    | String c r => if Ascii.eqb c "-" then (true, r) else (false, text)
    | EmptyString => (false, text)
    end in
  if truthy ds && forallb_s isdigit ds && (len ds <=? 4300)
  then Some (if neg then - digits_val ds else digits_val ds)
  else None.

(** A number token with a fraction or an exponent is read by [float], any
    other by [int].  [None] stands for [JSONDecodeError], a [ValueError]. *)
Definition decode_number (text : string) : option pyval :=
  if existsb_s (fun c => Ascii.eqb c "." || Ascii.eqb c "e" || Ascii.eqb c "E") text
  then option_map PFloat (float_of_string text)
  else option_map PInt (int_of_token text).

Definition decode_constant (c : constant) : float :=
  match c with
  | NaN => Fnan
  | Infinity => Finf false
  | NegInfinity => Finf true
  end.

(** [json.load]: an object becomes a [dict], a later member with the
    same name replacing the value of the earlier one. *)
Fixpoint decode (j : doc) : option pyval :=
  match j with
  | JNull => Some PNone
  | JBool b => Some (PBool b)
  | JNumber text => decode_number text
  | JConstant c => Some (PFloat (decode_constant c))
  | JString s => Some (PStr s)
  | JArray items =>
      option_map PList
        (fold_right (fun j acc =>
           match decode j, acc with
           | Some v, Some l => Some (v :: l)
           | _, _ => None
           end) (Some []) items)
  | JObject members =>
      option_map PDict
        (fold_left (fun acc kj =>
           match acc, decode (snd kj) with
           | Some d, Some v => Some (dict_set (fst kj) v d)
           | _, _ => None
           end) members (Some []))
  end.

End Json.

(** The files of the program: the content at each path, if any. *)
Definition filesystem : Type := string -> option Json.doc.

Definition write_file (fs : filesystem) (path : string) (content : Json.doc)
  : filesystem :=
  fun p => if String.eqb p path then Some content else fs p.

(** [save_db_json]: the file is opened for writing, which replaces it. *)
Definition save_db_json (flights : list pyval) (output_path : string)
    (fs : filesystem) : filesystem :=
  write_file fs output_path (Json.encode (PList flights)).

Definition load_db_json (path : string) (fs : filesystem) : result (list pyval) :=
  match fs path with
  | None => Raise FileNotFoundError
  | Some content =>
      match Json.decode content with
      | None => Raise ValueError
      | Some data =>
          match data with
          | PList l => Ok l
          | _ => Raise ValueError
          end
      end
  end.

(** ** The query matcher *)

(** A step of the matcher either returns from the function or goes on to
    the next statement. *)
Inductive flow : Type :=
| Return (b : bool)
| Next.

Definition and_then (s1 s2 : result flow) : result flow :=
  match s1 with
  | Ok Next => s2
  | _ => s1
  end.

(** [flight.get(key)] *)
Definition get_or_none (d : dict) (key : string) : pyval :=
  match dict_get key d with
  | Some v => v
  | None => PNone
  end.

(** The loop over the exact-match keys. *)
Fixpoint exact_matches (keys : list string) (flight query : dict) : result flow :=
  match keys with
  | [] => Ok Next
  | key :: keys' =>
      match dict_get key query with
      | Some qv =>
          if negb (String.eqb (py_str (get_or_none flight key)) (py_str qv))
          then Ok (Return false)
          else exact_matches keys' flight query
      | None => exact_matches keys' flight query
      end
  end.

Definition departure_filter (flight query : dict) : result flow :=
  match dict_get "departure_datetime" query with
  | None => Ok Next
  | Some qv =>
      q_dep <- parse_datetime qv ;;
      match q_dep with
      | None => Ok (Return false)
      | Some q_dep =>
          fv <- subscript flight "departure_datetime" ;;
          f_dep <- parse_datetime fv ;;
          match f_dep with
          | None => Ok (Return false)
          | Some f_dep =>
              if dt_ltb f_dep q_dep then Ok (Return false) else Ok Next
          end
      end
  end.

Definition arrival_filter (flight query : dict) : result flow :=
  match dict_get "arrival_datetime" query with
  | None => Ok Next
  | Some qv =>
      q_arr <- parse_datetime qv ;;
      match q_arr with
      | None => Ok (Return false)
      | Some q_arr =>
          fv <- subscript flight "arrival_datetime" ;;
          f_arr <- parse_datetime fv ;;
          match f_arr with
          | None => Ok (Return false)
          | Some f_arr =>
              if dt_gtb f_arr q_arr then Ok (Return false) else Ok Next
          end
      end
  end.

Definition price_filter (flight query : dict) : result flow :=
  match dict_get "price" query with
  | None => Ok Next
  | Some qv =>
      match py_float qv with
      | Raise TypeError | Raise ValueError => Ok (Return false)
      | Raise e => Raise e
      | Ok q_price =>
          fv <- subscript flight "price" ;;
          f_price <- py_float fv ;;
          if fgt f_price q_price then Ok (Return false) else Ok Next
      end
  end.

Definition flight_matches_query (flight query : dict) : result bool :=
  match
    and_then (exact_matches ["flight_id"; "origin"; "destination"] flight query)
   (and_then (departure_filter flight query)
   (and_then (arrival_filter flight query)
             (price_filter flight query)))
  with
  | Ok (Return b) => Ok b
  | Ok Next => Ok true
  | Raise e => Raise e
  end.

(** The list comprehension of [run_queries_on_db]. *)
Fixpoint matching (flights : list dict) (q : dict) : result (list dict) :=
  match flights with
  | [] => Ok []
  | flight :: rest =>
      b <- flight_matches_query flight q ;;
      ms <- matching rest q ;;
      Ok (if b then flight :: ms else ms)
  end.

Fixpoint run_queries_on_db (flights : list dict) (queries : list dict)
  : result (list dict) :=
  match queries with
  | [] => Ok []
  | q :: queries' =>
      matches <- matching flights q ;;
      responses <- run_queries_on_db flights queries' ;;
      Ok ([("query", PDict q); ("matches", PList (map PDict matches))] :: responses)
  end.

(** ** The checks of the row validator, one by one

    Every check of the code is taken on its own and yields the reasons
    it records; the reasons of a row are those of the checks, in the
    order flight_id, origin, destination, departure and arrival
    timestamp, chronology, price. *)

Module RowSpec.

Definition flight_id_reasons (flight_id : string) : list string :=
  if String.eqb flight_id "" then ["missing flight_id field"]
  else if is_valid_flight_id flight_id then []
  else if 8 <? len flight_id
       then ["flight_id too long (more than 8 characters)"]
       else ["invalid flight_id format"].

Definition airport_reasons (name : string) (code : string) : list string :=
  if String.eqb code "" then ["missing " ++ name ++ " field"]
  else if is_valid_airport_code code then []
  else ["invalid " ++ name ++ " code"].

(** Both timestamps unreadable: one combined reason; otherwise the
    unreadable one is named. *)
Definition timestamp_reasons (dep_str arr_str : string) : list string :=
  match parse_datetime_str dep_str, parse_datetime_str arr_str with
  | None, None => ["invalid date format"]
  | None, Some _ => ["invalid departure datetime"]
  | Some _, None => ["invalid arrival datetime"]
  | Some _, Some _ => []
  end.

(** Looked at only when both timestamps were read. *)
Definition chronology_reasons (dep_str arr_str : string) : list string :=
  match parse_datetime_str dep_str, parse_datetime_str arr_str with
  | Some dep, Some arr =>
      if dt_leb arr dep then ["arrival before departure"] else []
  | _, _ => []
  end.

(** The sign is looked at only when the price was read. *)
Definition price_reasons (price_str : string) : list string :=
  match parse_price_str price_str with
  | None => ["invalid price value"]
  | Some p =>
      if flt p fzero then ["negative price value"]
      else if feq p fzero then ["price must be positive"]
      else []
  end.

(** The reasons of a row of six trimmed fields. *)
Definition reasons_of (flight_id origin destination dep_str arr_str price_str : string)
  : list string :=
  (flight_id_reasons flight_id
   ++ airport_reasons "origin" origin
   ++ airport_reasons "destination" destination
   ++ timestamp_reasons dep_str arr_str
   ++ chronology_reasons dep_str arr_str
   ++ price_reasons price_str)%list.

End RowSpec.

(** ** The data model in words *)

(** A valid flight record: the six constraints of the data model, the
    price being a binary64 number. *)
Definition valid_record (v : pyval) : Prop :=
  exists flight_id origin destination dep_str arr_str dep arr price,
    v = PDict (mk_flight flight_id origin destination dep_str arr_str
                 (PFloat price)) /\
    is_valid_flight_id flight_id = true /\
    is_valid_airport_code origin = true /\
    is_valid_airport_code destination = true /\
    parse_datetime_str dep_str = Some dep /\
    parse_datetime_str arr_str = Some arr /\
    dt_ltb dep arr = true /\
    binary64 price /\ fgt price fzero = true.

(** ** The query filters in words *)

Module QuerySpec.

(** A record as the validator builds it: five texts and a price. *)
Definition flight_shaped (flight : dict) : Prop :=
  exists flight_id origin destination dep_str arr_str price,
    flight = mk_flight flight_id origin destination dep_str arr_str
               (PFloat price).

(** An exact-match key, when present, compares equal as text. *)
Definition exact_passes (key : string) (flight query : dict) : Prop :=
  forall qv, dict_get key query = Some qv ->
    py_str (get_or_none flight key) = py_str qv.

(** The departure of the record is at or after the bound. *)
Definition departure_passes (flight query : dict) : Prop :=
  forall qv, dict_get "departure_datetime" query = Some qv ->
    exists q_dep f_text f_dep,
      parse_datetime qv = Ok (Some q_dep) /\
      dict_get "departure_datetime" flight = Some (PStr f_text) /\
      parse_datetime (PStr f_text) = Ok (Some f_dep) /\
      dt_leb q_dep f_dep = true.

(** The arrival of the record is at or before the bound. *)
Definition arrival_passes (flight query : dict) : Prop :=
  forall qv, dict_get "arrival_datetime" query = Some qv ->
    exists q_arr f_text f_arr,
      parse_datetime qv = Ok (Some q_arr) /\
      dict_get "arrival_datetime" flight = Some (PStr f_text) /\
      parse_datetime (PStr f_text) = Ok (Some f_arr) /\
      dt_leb f_arr q_arr = true.

(** The price of the record is at most the bound. *)
Definition price_passes (flight query : dict) : Prop :=
  forall qv, dict_get "price" query = Some qv ->
    exists q_price f_price,
      py_float qv = Ok q_price /\
      dict_get "price" flight = Some (PFloat f_price) /\
      fle f_price q_price = true.

Definition passes (flight query : dict) : Prop :=
  exact_passes "flight_id" flight query /\
  exact_passes "origin" flight query /\
  exact_passes "destination" flight query /\
  departure_passes flight query /\
  arrival_passes flight query /\
  price_passes flight query.

(** The date bounds of the query, if any, are texts. *)
Definition text_date_bounds (query : dict) : Prop :=
  forall key qv,
    key = "departure_datetime" \/ key = "arrival_datetime" ->
    dict_get key query = Some qv -> exists s, qv = PStr s.

(** A bound of the query cannot be read: a date text that does not parse
    or a price that is not numeric. *)
Definition unreadable_bound (query : dict) : Prop :=
  (exists s, dict_get "departure_datetime" query = Some (PStr s) /\
             parse_datetime (PStr s) = Ok None) \/
  (exists s, dict_get "arrival_datetime" query = Some (PStr s) /\
             parse_datetime (PStr s) = Ok None) \/
  (exists qv, dict_get "price" query = Some qv /\
              (py_float qv = Raise TypeError \/ py_float qv = Raise ValueError)).

End QuerySpec.

(** ** Sample data *)

Definition sample_flight : dict :=
  mk_flight "AB12" "JFK" "LAX" "2024-05-01 10:00" "2024-05-01 12:00"
    (PFloat (Ffin false 7036874417766400 (-46))).

Definition sample_fs : filesystem :=
  write_file (write_file (fun _ => None) "object.json"
                (Json.JObject [("flight_id", Json.JString "AB12")]))
    "db.json" (Json.JArray [Json.JNumber "1"; Json.JString "two"]).

(** ** The timestamp formats in words *)

Module TimestampSpec.

Definition digits (t : string) : Prop := forallb_s isdigit t = true.

(** The strict format [YYYY-MM-DD HH:MM]: sixteen characters, digits
    everywhere but for the two hyphens, the blank and the colon. *)
Definition strict (s : string) : bool :=
  match s with
  | String y1 (String y2 (String y3 (String y4 (String "-"
    (String m1 (String m2 (String "-"
    (String d1 (String d2 (String " "
    (String h1 (String h2 (String ":"
    (String n1 (String n2 EmptyString))))))))))))))) =>
      forallb isdigit [y1; y2; y3; y4; m1; m2; d1; d2; h1; h2; n1; n2]
  | _ => false
  end.

Definition one_or_two_digits (t : string) : Prop :=
  digits t /\ (String.length t = 1 \/ String.length t = 2)%nat.

Definition year_text (t : string) : Prop :=
  digits t /\ String.length t = 4%nat.

Definition month_text (t : string) : Prop :=
  one_or_two_digits t /\ 1 <= digits_val t <= 12.

(** A day is also accepted as a blank and one digit. *)
Definition day_text (t : string) : Prop :=
  (one_or_two_digits t /\ 1 <= digits_val t <= 31) \/
  (exists c, t = String " " (String c EmptyString) /\ in_range "1" "9" c = true).

Definition blanks (w : string) : Prop :=
  w <> EmptyString /\ forallb_s isspace w = true.

Definition hour_text (t : string) : Prop :=
  one_or_two_digits t /\ digits_val t <= 23.

Definition minute_text (t : string) : Prop :=
  one_or_two_digits t /\ digits_val t <= 59.

(** The number a field text stands for. *)
Definition number (t : string) : Z := digits_val (strip t).

(** The texts [strptime] reads with the format of the program: the
    fields may have one digit, any run of white space separates the date
    from the time, and the date must exist. *)
Definition lenient (s : string) (dt : datetime) : Prop :=
  exists tY tm td w tH tM,
    s = tY ++ "-" ++ tm ++ "-" ++ td ++ w ++ tH ++ ":" ++ tM /\
    year_text tY /\ month_text tm /\ day_text td /\ blanks w /\
    hour_text tH /\ minute_text tM /\
    1 <= number tY /\
    number td <= days_in_month (number tY) (number tm) /\
    dt = mkdt (number tY) (number tm) (number td) (number tH) (number tM).

End TimestampSpec.

(** ** The price formats in words *)

Module PriceSpec.

Definition all_digits (t : string) : Prop := forallb_s isdigit t = true.

Definition digit_run (t : string) : Prop := t <> EmptyString /\ all_digits t.

Definition is_sign (t : string) : Prop := t = "" \/ t = "+" \/ t = "-".

(** The strict literal of the claim: an integer or a decimal with an
    optional sign. *)
Definition strict (s : string) : Prop :=
  exists sg ip,
    is_sign sg /\ digit_run ip /\
    (s = sg ++ ip \/ exists fp, digit_run fp /\ s = sg ++ ip ++ "." ++ fp).

Definition c_blanks (w : string) : Prop := forallb_s c_isspace w = true.

(** Digits with an optional point, at least one digit. *)
Definition mantissa (t : string) : Prop :=
  digit_run t \/
  exists ip fp,
    t = ip ++ "." ++ fp /\ all_digits ip /\ all_digits fp /\
    (ip <> EmptyString \/ fp <> EmptyString).

Definition exponent (t : string) : Prop :=
  t = EmptyString \/
  exists c sg ds,
    t = String c (sg ++ ds) /\ (c = "e"%char \/ c = "E"%char) /\
    is_sign sg /\ digit_run ds.

Definition decimal_literal (body : string) : Prop :=
  exists sg m ex,
    body = sg ++ m ++ ex /\ is_sign sg /\ mantissa m /\ exponent ex.

Fixpoint lowercase (s : string) : string :=
  match s with
  | EmptyString => EmptyString
  | String c r => String (tolower c) (lowercase r)
  end.

(** [inf], [infinity] or [nan], in any letter case. *)
Definition special_literal (body : string) : Prop :=
  exists sg word,
    body = sg ++ word /\ is_sign sg /\
    (lowercase word = "inf" \/ lowercase word = "infinity" \/
     lowercase word = "nan").

(** Every underscore stands between two digits. *)
Definition underscores_between_digits (s : string) : Prop :=
  forall l r, s = l ++ String "_" r ->
    (exists l' c, l = l' ++ String c "" /\ isdigit c = true) /\
    (exists c r', r = String c r' /\ isdigit c = true).

Fixpoint without_underscores (s : string) : string :=
  match s with
  | EmptyString => EmptyString
  | String c r =>
      if Ascii.eqb c "_" then without_underscores r
      else String c (without_underscores r)
  end.

(** The texts [float] reads: a decimal literal, with an exponent if any,
    or an infinity or a NaN, between blanks, with underscores allowed
    between digits. *)
Definition float_text (s : string) : Prop :=
  underscores_between_digits s /\
  exists w1 body w2,
    without_underscores s = w1 ++ body ++ w2 /\
    c_blanks w1 /\ c_blanks w2 /\
    (decimal_literal body \/ special_literal body).

End PriceSpec.

(** ** Vocabulary of the proofs *)

Module Aux.

(** A field of the format followed by a literal character, then by the
    rest of the format [F]. *)
Definition then_chr {X : Type} (p : pattern) (c : ascii)
    (F : string -> string -> list X) (s : string) : list X :=
  flat_map (fun '(t, s1) => flat_map (F t) (skip (chr c) s1)) (p s).

Definition then_blanks {X : Type} (p : pattern)
    (F : string -> string -> list X) (s : string) : list X :=
  flat_map (fun '(t, s1) => flat_map (F t) (skip (plus_cls isspace) s1)) (p s).

(** A list that begins with [x]. *)
Definition begins {X : Type} (x : X) (l : list X) : Prop :=
  exists tl, l = x :: tl.

(** The first character of a text, if any, fails the test. *)
Definition stops (p : ascii -> bool) (s : string) : Prop :=
  match s with
  | String c _ => p c = false
  | EmptyString => True
  end.

(** A text that ends with a character of a class. *)
Definition ends_in (p : ascii -> bool) (s : string) : Prop :=
  exists b c, s = b ++ String c "" /\ p c = true.

Definition nonblank (c : ascii) : bool := negb (c_isspace c).

(** The rule on underscores for a text that follows the character
    [prev]. *)
Definition underscores_after (prev : ascii) (s : string) : Prop :=
  forall l r, String prev s = l ++ String "_" r ->
    (l <> "" -> exists l' c, l = l' ++ String c "" /\ isdigit c = true) /\
    (exists c r', r = String c r' /\ isdigit c = true).

(** [e] is the exponent of the binade of [p / q]. *)
Definition in_binade (p q e : Z) : Prop :=
  2 ^ 52 * snd (scale p q e) <= fst (scale p q e) < 2 ^ 53 * snd (scale p q e).

(** The exponent as [repr] writes it: a sign and two digits or more. *)
Definition exponent_text (x : Z) : string :=
  "e" ++ (if x <? 0 then "-" else "+")
      ++ (if len (digits_of (Z.abs x)) <? 2
          then "0" ++ digits_of (Z.abs x) else digits_of (Z.abs x)).

(** A bound on the digits [repr] writes. *)
Definition digit_bound : Z := 10 ^ 3200.

(** The sign as [repr] writes it. *)
Definition sign_text (neg : bool) : string := if neg then "-" else "".

Definition no_underscore (c : ascii) : bool := negb (Ascii.eqb c "_").

Definition is_marker (c : ascii) : bool :=
  Ascii.eqb c "." || Ascii.eqb c "e" || Ascii.eqb c "E".

End Aux.

From Stdlib Require Import Permutation Sorted.

(** * The CSV side of the program *)

(** ** More string primitives *)

Module PyText.

Definition LF : ascii := "010".
Definition CR : ascii := "013".

(** [s.isascii()]: every code point is below 128.  On such a text the
    character classes of [PyStr] are those of Python, and the text of a
    file is its bytes, which always decode. *)
Definition isascii (s : string) : bool := forallb_s (fun c => code c <? 128) s.

(** The text of one line feed. *)
Definition newline : string := String LF "".

(** [s.startswith(prefix)] *)
Fixpoint startswith (prefix s : string) : bool :=
  match prefix with
  | EmptyString => true
  | String a prefix' =>
      match s with
      | String c s' => Ascii.eqb c a && startswith prefix' s'
      | EmptyString => false
      end
  end.

(** [s.endswith(suffix)] *)
Definition endswith (suffix s : string) : bool :=
  (String.length suffix <=? String.length s)%nat
  && String.eqb (drop (String.length s - String.length suffix) s) suffix.

(** [s.lower()] on ASCII text. *)
Fixpoint lower (s : string) : string :=
  match s with
  | EmptyString => EmptyString
  | String c r => String (tolower c) (lower r)
  end.

(** [s.rstrip(chars)] for the one character [LF]. *)
Definition rstrip_newline (s : string) : string := rstrip_by (Ascii.eqb LF) s.

(** Universal newlines on input: [CR LF] and a lone [CR] are read as
    [LF]. *)
Fixpoint translate_newlines (s : string) : string :=
  match s with
  | EmptyString => EmptyString
  | String c r =>
      if Ascii.eqb c CR then
        match r with
        | String c' r' =>
            if Ascii.eqb c' LF then String LF (translate_newlines r')
            else String LF (translate_newlines r)
        | EmptyString => String LF EmptyString
        end
      else String c (translate_newlines r)
  end.

(** The lines of a text, each with its line feed; a last line without
    one is kept as it is. *)
Fixpoint split_lines (s : string) : list string :=
  match s with
  | EmptyString => []
  | String c r =>
      if Ascii.eqb c LF then String c "" :: split_lines r
      else
        match split_lines r with
        | [] => [String c ""]
        | l :: ls => String c l :: ls
        end
  end.

(** [f.readlines()] for a file opened in text mode. *)
Definition readlines (content : string) : list string :=
  split_lines (translate_newlines content).

(** [posixpath.join(a, b)] *)
Definition path_join (a b : string) : string :=
  if startswith "/" b then b
  else if negb (truthy a) || endswith "/" a then a ++ b
  else a ++ "/" ++ b.

(** [list.sort()] on texts: a stable insertion by [<], the order of the
    code points. *)
Fixpoint insert (x : string) (l : list string) : list string :=
  match l with
  | [] => [x]
  | y :: l' => if String.ltb y x then y :: insert x l' else x :: l
  end.

Fixpoint sort (l : list string) : list string :=
  match l with
  | [] => []
  | x :: l' => insert x (sort l')
  end.

End PyText.

(** ** [csv.reader] with the default dialect

    The state machine of the reader: the delimiter is the comma, the
    quote character the double quote, a doubled quote inside a quoted
    field stands for one quote, there is no escape character, initial
    spaces are kept and the reader is not strict. *)

Module PyCsv.
Import PyText.

Inductive state : Type :=
| START_RECORD
| START_FIELD
| IN_FIELD
| IN_QUOTED_FIELD
| QUOTE_IN_QUOTED_FIELD
| EAT_CRNL.

Definition field_limit : Z := 131072.

Definition delimiter : ascii := ",".

Definition quotechar : ascii := dquote.

(** The reader: its state, the fields saved for the record and the
    characters of the field being read. *)
Record reader : Type := mkreader {
  state_of : state;
  fields : list string;
  field : string
}.

Definition parse_reset : reader := mkreader START_RECORD [] "".

Definition set_state (r : reader) (s : state) : reader :=
  mkreader s (fields r) (field r).

(** [None] stands for [csv.Error]. *)
Definition parse_add_char (r : reader) (c : ascii) : option reader :=
  if field_limit <=? len (field r) then None
  else Some (mkreader (state_of r) (fields r) (field r ++ String c "")).

Definition parse_save_field (r : reader) : reader :=
  mkreader (state_of r) (fields r ++ [field r])%list "".

Definition is_newline (c : ascii) : bool := Ascii.eqb c LF || Ascii.eqb c CR.

(** The case [START_FIELD]; [None] for the character is the end of the
    line. *)
Definition start_field (r : reader) (c : option ascii) : option reader :=
  match c with
  | None => Some (set_state (parse_save_field r) START_RECORD)
  | Some ch =>
      if is_newline ch then Some (set_state (parse_save_field r) EAT_CRNL)
      else if Ascii.eqb ch quotechar then Some (set_state r IN_QUOTED_FIELD)
      else if Ascii.eqb ch delimiter then Some (parse_save_field r)
      else option_map (fun r' => set_state r' IN_FIELD) (parse_add_char r ch)
  end.

Definition parse_process_char (r : reader) (c : option ascii) : option reader :=
  match state_of r with
  | START_RECORD =>
      match c with
      | None => Some r
      | Some ch =>
          if is_newline ch then Some (set_state r EAT_CRNL)
          else start_field (set_state r START_FIELD) c
      end
  | START_FIELD => start_field r c
  | IN_FIELD =>
      match c with
      | None => Some (set_state (parse_save_field r) START_RECORD)
      | Some ch =>
          if is_newline ch then Some (set_state (parse_save_field r) EAT_CRNL)
          else if Ascii.eqb ch delimiter
          then Some (set_state (parse_save_field r) START_FIELD)
          else parse_add_char r ch
      end
  | IN_QUOTED_FIELD =>
      match c with
      | None => Some r
      | Some ch =>
          if Ascii.eqb ch quotechar then Some (set_state r QUOTE_IN_QUOTED_FIELD)
          else parse_add_char r ch
      end
  | QUOTE_IN_QUOTED_FIELD =>
      match c with
      | None => Some (set_state (parse_save_field r) START_RECORD)
      | Some ch =>
          if Ascii.eqb ch quotechar
          then option_map (fun r' => set_state r' IN_QUOTED_FIELD)
                 (parse_add_char r ch)
          else if Ascii.eqb ch delimiter
          then Some (set_state (parse_save_field r) START_FIELD)
          else if is_newline ch
          then Some (set_state (parse_save_field r) EAT_CRNL)
          else option_map (fun r' => set_state r' IN_FIELD) (parse_add_char r ch)
      end
  | EAT_CRNL =>
      match c with
      | None => Some (set_state r START_RECORD)
      | Some ch => if is_newline ch then Some r else None
      end
  end.

(** The characters of a line, then the end of the line. *)
Fixpoint feed (r : reader) (line : string) : option reader :=
  match line with
  | EmptyString => parse_process_char r None
  | String c rest =>
      match parse_process_char r (Some c) with
      | Some r' => feed r' rest
      | None => None
      end
  end.

(** What asking the reader for a row gives. *)
Inductive answer : Type :=
| Record_ (row : list string) (rest : list string)
| StopIteration
| Error.

Definition in_quoted_field (s : state) : bool :=
  match s with IN_QUOTED_FIELD => true | _ => false end.

(** Lines are taken from the input until a record is complete; at the
    end of the input a field left open is saved. *)
Fixpoint next_from (r : reader) (lines : list string) : answer :=
  match lines with
  | [] =>
      if truthy (field r) || in_quoted_field (state_of r)
      then Record_ (fields (parse_save_field r)) []
      else StopIteration
  | line :: rest =>
      match feed r line with
      | None => Error
      | Some r' =>
          match state_of r' with
          | START_RECORD => Record_ (fields r') rest
          | _ => next_from r' rest
          end
      end
  end.

Definition next (lines : list string) : answer := next_from parse_reset lines.

(** The rows a loop over [csv.reader(lines)] sees, one after the other,
    and how the iteration ends. *)
Inductive rows : Type :=
| Row (row : list string) (more : rows)
| Stop
| Fail.

Fixpoint reader_fuel (fuel : nat) (lines : list string) : rows :=
  match fuel with
  | O => Stop
  | S fuel' =>
      match next lines with
      | Record_ row rest => Row row (reader_fuel fuel' rest)
      | StopIteration => Stop
      | Error => Fail
      end
  end.

(** A row takes a line or more, so the reader is asked at most once more
    than there are lines. *)
Definition csv_reader (lines : list string) : rows :=
  reader_fuel (S (List.length lines)) lines.

End PyCsv.

(** ** Files

    The files the CSV side reads and writes are texts, and a folder is
    the list of the names in it, in the order the system gives them.
    A path is looked up as it is written.  A file is held as the text
    that reading it gives: a file whose bytes are not UTF-8, on which
    [readlines] raises [UnicodeDecodeError], is not among the entries,
    and what is stated of every content is stated of ASCII text. *)

Module Os.

Inductive errno : Type :=
| ENOENT     (* FileNotFoundError *)
| EISDIR     (* IsADirectoryError *)
| ENOTDIR.   (* NotADirectoryError *)

Inductive entry : Type :=
| File (content : string)
| Dir (names : list string).

Definition disk : Type := string -> option entry.

Definition set_entry (d : disk) (path : string) (e : option entry) : disk :=
  fun p => if String.eqb p path then e else d p.

End Os.

Import PyText Os.

(** What stops the CSV side: an [OSError] or a [csv.Error]. *)
Inductive failure : Type :=
| OSError (e : errno)
| CsvError.

Inductive outcome (A : Type) : Type :=
| Done (a : A)
| Failed (f : failure).

Arguments Done {A} a.
Arguments Failed {A} f.

(** A computation on the disk. *)
Definition io (A : Type) : Type := disk -> disk * outcome A.

Definition ret {A : Type} (a : A) : io A := fun d => (d, Done a).

Definition raise {A : Type} (f : failure) : io A := fun d => (d, Failed f).

Definition io_bind {A B : Type} (m : io A) (k : A -> io B) : io B :=
  fun d =>
    match m d with
    | (d', Done a) => k a d'
    | (d', Failed f) => (d', Failed f)
    end.

Notation "'let*' x ':=' m 'in' k" := (io_bind m (fun x => k))
  (at level 10, x binder, m at level 100, k at level 200).

(** [open(path, "r")] and the text read from it. *)
Definition open_read (path : string) : io string :=
  fun d =>
    match d path with
    | Some (File content) => (d, Done content)
    | Some (Dir _) => (d, Failed (OSError EISDIR))
    | None => (d, Failed (OSError ENOENT))
    end.

(** [open(path, "a")]: a file that is not there is created empty. *)
Definition open_append (path : string) : io unit :=
  fun d =>
    match d path with
    | Some (File _) => (d, Done tt)
    | Some (Dir _) => (d, Failed (OSError EISDIR))
    | None => (set_entry d path (Some (File "")), Done tt)
    end.

Definition content_of (d : disk) (path : string) : string :=
  match d path with
  | Some (File content) => content
  | _ => ""
  end.

(** [f.write(text)] on a file opened for appending. *)
Definition write (path : string) (text : string) : io unit :=
  fun d =>
    (set_entry d path (Some (File (content_of d path ++ text))), Done tt).

(** [os.path.exists(path)] *)
Definition path_exists (path : string) : io bool :=
  fun d => (d, Done (match d path with Some _ => true | None => false end)).

(** [os.remove(path)] *)
Definition remove (path : string) : io unit :=
  fun d =>
    match d path with
    | Some (File _) => (set_entry d path None, Done tt)
    | Some (Dir _) => (d, Failed (OSError EISDIR))
    | None => (d, Failed (OSError ENOENT))
    end.

(** [os.listdir(path)] *)
Definition listdir (path : string) : io (list string) :=
  fun d =>
    match d path with
    | Some (Dir names) => (d, Done names)
    | Some (File _) => (d, Failed (OSError ENOTDIR))
    | None => (d, Failed (OSError ENOENT))
    end.

(** ** Parsing a CSV file *)

Definition ERRORS_TXT : string := "errors.txt".

(** The line logged for a comment. *)
Definition comment_message (line_no : Z) (original_line : string) : string :=
  "Line " ++ str_of_int line_no ++ ": " ++ original_line
    ++ " → comment line, ignored for data parsing".

(** The body of the loop over the rows of a line. *)
Definition handle_row (fields : list string) (line_no : Z)
    (original_line : string) (valid_flights : list dict) : io (list dict) :=
  let '(is_valid, flight, error_msg) :=
    validate_row fields line_no original_line in
  match is_valid, flight with
  | true, Some flight => ret (valid_flights ++ [flight])%list
  | _, _ =>
      let* _ := write ERRORS_TXT (error_msg ++ newline) in
      ret valid_flights
  end.

Fixpoint for_rows (rs : PyCsv.rows) (line_no : Z) (original_line : string)
    (valid_flights : list dict) : io (list dict) :=
  match rs with
  | PyCsv.Stop => ret valid_flights
  | PyCsv.Fail => raise CsvError
  | PyCsv.Row fields more =>
      let* valid_flights := handle_row fields line_no original_line valid_flights in
      for_rows more line_no original_line valid_flights
  end.

(** The loop over the numbered lines. *)
Fixpoint for_lines (lines : list string) (line_no : Z) (header_skipped : bool)
    (valid_flights : list dict) : io (list dict) :=
  match lines with
  | [] => ret valid_flights
  | raw_line :: rest =>
      let original_line := rstrip_newline raw_line in
      let stripped := strip original_line in
      if negb (truthy stripped) then
        for_lines rest (line_no + 1) header_skipped valid_flights
      else if negb header_skipped
              && startswith "flight_id,origin,destination" (lower stripped) then
        for_lines rest (line_no + 1) true valid_flights
      else if startswith "#" stripped then
        let* _ := write ERRORS_TXT
                    (comment_message line_no original_line ++ newline) in
        for_lines rest (line_no + 1) header_skipped valid_flights
      else
        let* valid_flights :=
          for_rows (PyCsv.csv_reader [original_line]) line_no original_line
            valid_flights in
        for_lines rest (line_no + 1) header_skipped valid_flights
  end.

Definition parse_csv_file (path : string) : io (list dict) :=
  let* content := open_read path in
  let* _ := open_append ERRORS_TXT in
  for_lines (readlines content) 1 false [].

(** The loop over the files of a folder. *)
Fixpoint for_paths (paths : list string) (all_flights : list dict)
  : io (list dict) :=
  match paths with
  | [] => ret all_flights
  | path :: rest =>
      let* flights := parse_csv_file path in
      for_paths rest (all_flights ++ flights)%list
  end.

(** The previous error log is removed. *)
Definition clear_errors : io unit :=
  let* there := path_exists ERRORS_TXT in
  if there then remove ERRORS_TXT else ret tt.

Definition parse_csv_folder (folder_path : string) : io (list dict) :=
  let* _ := clear_errors in
  let* names := listdir folder_path in
  let csv_files :=
    sort (map (path_join folder_path)
            (filter (fun name => endswith ".csv" (lower name)) names)) in
  for_paths csv_files [].

Definition parse_single_csv (path : string) : io (list dict) :=
  let* _ := clear_errors in
  parse_csv_file path.

(** ** Query files *)

Definition load_queries (path : string) (fs : filesystem) : result (list pyval) :=
  match fs path with
  | None => Raise FileNotFoundError
  | Some content =>
      match Json.decode content with
      | None => Raise ValueError
      | Some data =>
          match data with
          | PDict _ => Ok [data]
          | PList l => Ok l
          | _ => Raise ValueError
          end
      end
  end.

(** ** The CSV side in words *)

Module CsvSpec.

(** The pieces of a text between the commas. *)
Fixpoint pieces (s : string) : list string :=
  match s with
  | EmptyString => [""]
  | String c r =>
      if Ascii.eqb c "," then "" :: pieces r
      else
        match pieces r with
        | [] => [String c ""]
        | p :: ps => String c p :: ps
        end
  end.

(** A text without quotes and line ends. *)
Definition plain (s : string) : Prop :=
  forallb_s (fun c => negb (Ascii.eqb c dquote || PyCsv.is_newline c)) s = true.

(** No piece is longer than the reader allows. *)
Definition short_pieces (s : string) : Prop :=
  Forall (fun p => len p <= PyCsv.field_limit) (pieces s).

(** A line that is data: not blank and not a comment. *)
Definition blank (raw_line : string) : bool :=
  negb (truthy (strip (rstrip_newline raw_line))).

Definition header_like (raw_line : string) : bool :=
  startswith "flight_id,origin,destination"
    (lower (strip (rstrip_newline raw_line))).

Definition comment (raw_line : string) : bool :=
  startswith "#" (strip (rstrip_newline raw_line)).

(** The number of line feeds of a text. *)
Fixpoint line_feeds (s : string) : nat :=
  match s with
  | EmptyString => O
  | String c r => ((if Ascii.eqb c LF then 1 else 0) + line_feeds r)%nat
  end.

(** The lines of a file that the parser handles: those that are not
    blank, less the first one that looks like the header. *)
Fixpoint handled (lines : list string) (header_skipped : bool) : nat :=
  match lines with
  | [] => O
  | raw_line :: rest =>
      if blank raw_line then handled rest header_skipped
      else if negb header_skipped && header_like raw_line then handled rest true
      else S (handled rest header_skipped)
  end.

(** What the validator says of a line that is read as data, at the
    number the line has. *)
Definition verdict (line_no : Z) (raw_line : string)
  : option (bool * option dict * string) :=
  if comment raw_line then None
  else
    match PyCsv.csv_reader [rstrip_newline raw_line] with
    | PyCsv.Row fields _ =>
        Some (validate_row fields line_no (rstrip_newline raw_line))
    | _ => None
    end.

(** The message logged for a line: that of a comment, or that of a row
    the validator rejects. *)
Definition logged (line_no : Z) (raw_line : string) (msg : string) : Prop :=
  (comment raw_line = true /\
   msg = comment_message line_no (rstrip_newline raw_line)) \/
  (exists flight, verdict line_no raw_line = Some (false, flight, msg)).

(** The text of messages written one per line, each followed by a line
    feed. *)
Fixpoint lines_text (msgs : list string) : string :=
  match msgs with
  | [] => ""
  | msg :: rest => msg ++ newline ++ lines_text rest
  end.

(** One of the lines is taken as the header: it is not blank and looks
    like the header. *)
Definition seen_header (lines : list string) : bool :=
  existsb (fun l => negb (blank l) && header_like l) lines.

(** The line is the header that the parser skips: it looks like the
    header and no line before it was taken as the header. *)
Definition skipped_header (before : list string) (raw_line : string) : bool :=
  header_like raw_line && negb (seen_header before).

(** A field as it is written in quotes: the quotes inside are
    doubled. *)
Fixpoint double_quotes (f : string) : string :=
  match f with
  | EmptyString => EmptyString
  | String c r =>
      if Ascii.eqb c dquote then String dquote (String dquote (double_quotes r))
      else String c (double_quotes r)
  end.

Definition quoted (f : string) : string :=
  String dquote (double_quotes f ++ String dquote "").

(** A record as the parser returns it: the constraints on the six
    fields, with a price that is a binary64 value above zero or not a
    number at all. *)
Definition accepted_record (flight : dict) : Prop :=
  exists flight_id origin destination dep_str arr_str dep arr price,
    flight = mk_flight flight_id origin destination dep_str arr_str
               (PFloat price) /\
    is_valid_flight_id flight_id = true /\
    is_valid_airport_code origin = true /\
    is_valid_airport_code destination = true /\
    parse_datetime_str dep_str = Some dep /\
    parse_datetime_str arr_str = Some arr /\
    dt_ltb dep arr = true /\
    binary64 price /\
    (fgt price fzero = true \/ price = Fnan).

(** The three ways to parse: a file, a file after the log is cleared, a
    folder. *)
Definition parsed (path : string) (d d' : disk) (flights : list dict) : Prop :=
  parse_csv_file path d = (d', Done flights) \/
  parse_single_csv path d = (d', Done flights) \/
  parse_csv_folder path d = (d', Done flights).

End CsvSpec.

(** ** The run of the queries in words *)

Module RunSpec.

(** The flight is a match of the query. *)
Definition is_match (q flight : dict) : bool :=
  match flight_matches_query flight q with
  | Ok true => true
  | _ => false
  end.

(** The response to a query: the query and its matches, in the order of
    the database. *)
Definition response (flights : list dict) (q : dict) : dict :=
  [("query", PDict q);
   ("matches", PList (map PDict (filter (is_match q) flights)))].

(** The matcher gives an answer for the flight and the query. *)
Definition answers (flight q : dict) : Prop :=
  exists b, flight_matches_query flight q = Ok b.

(** The price bound of the query, if any, is not an integer too large
    for a float. *)
Definition price_in_range (query : dict) : Prop :=
  forall qv, dict_get "price" query = Some qv ->
    py_float qv <> Raise OverflowError.

(** The keys compared as texts. *)
Definition exact_keys : list string := ["flight_id"; "origin"; "destination"].

(** A value that [str] turns into a text without fail: [None], a
    boolean, a float, a text, or an integer of at most 4300 digits
    ([str] raises [ValueError] on a longer one). *)
Definition plain_value (v : pyval) : Prop :=
  match v with
  | PNone | PBool _ | PFloat _ | PStr _ => True
  | PInt n => Z.abs n < 10 ^ 4300
  | PList _ | PDict _ => False
  end.

(** The values of the query that the matcher compares as texts are
    plain. *)
Definition plain_exact_query (query : dict) : Prop :=
  forall key qv,
    In key exact_keys -> dict_get key query = Some qv -> plain_value qv.

(** So are those of the flight, [None] standing for a key it lacks. *)
Definition plain_exact_values (flight query : dict) : Prop :=
  (forall key, In key exact_keys -> plain_value (get_or_none flight key)) /\
  plain_exact_query query.

(** The six keys the matcher looks at. *)
Definition recognized : list string :=
  ["flight_id"; "origin"; "destination"; "departure_datetime";
   "arrival_datetime"; "price"].

(** Three capital letters. *)
Definition three_capitals (value : string) : Prop :=
  exists a b c,
    value = String a (String b (String c "")) /\
    isupper_c a = true /\ isupper_c b = true /\ isupper_c c = true.

End RunSpec.

(** ** Vocabulary of the proofs on files *)

Module FileAux.

(** A text without commas. *)
Definition comma_free (s : string) : Prop :=
  forallb_s (fun c => negb (Ascii.eqb c ",")) s = true.

(** A character that is no line end. *)
Definition no_newline (c : ascii) : bool := negb (PyCsv.is_newline c).

(** A character that is no line feed. *)
Definition no_lf (c : ascii) : bool := negb (Ascii.eqb c LF).

(** A character that is no carriage return. *)
Definition no_cr (c : ascii) : bool := negb (Ascii.eqb c CR).

(** The second disk is the first one with text added to the error log,
    if anything. *)
Definition extends (d d' : disk) : Prop :=
  (forall p, p <> ERRORS_TXT -> d' p = d p) /\
  (forall old, d ERRORS_TXT = Some (File old) ->
     exists added, d' ERRORS_TXT = Some (File (old ++ added))).

(** Two entries that the parser cannot tell apart at a path where [P]
    holds: the names of a folder at such a path may differ. *)
Definition alike (P : string -> Prop) (d1 d2 : disk) : Prop :=
  forall p,
    d1 p = d2 p \/
    (P p /\ exists n1 n2, d1 p = Some (Dir n1) /\ d2 p = Some (Dir n2)).

(** A computation that cannot tell such disks apart. *)
Definition blind {A : Type} (P : string -> Prop) (m : io A) : Prop :=
  forall d1 d2, alike P d1 d2 ->
    alike P (fst (m d1)) (fst (m d2)) /\ snd (m d1) = snd (m d2).

(** A computation that only adds to the error log. *)
Definition logging {A : Type} (m : io A) : Prop :=
  forall d, extends d (fst (m d)).

End FileAux.

(** ** Sample files *)

Definition sample_csv : string :=
  "flight_id,origin,destination,departure_datetime,arrival_datetime,price"
    ++ newline ++ "# note" ++ newline ++ newline
    ++ "AB12,JFK,LAX,2024-05-01 10:00,2024-05-01 12:00,100" ++ String CR newline
    ++ "AB12,JFK" ++ newline
    ++ String dquote "CD34,LHR" ++ newline.

Definition sample_disk : disk :=
  set_entry
    (set_entry
       (set_entry (fun _ => None) "data/in.csv" (Some (File sample_csv)))
       "errors.txt" (Some (File ("old line" ++ newline))))
    "data" (Some (Dir ["notes.txt"; "in.csv"])).

(** A file in which the header line comes twice. *)
Definition sample_headers : string :=
  "flight_id,origin,destination,departure_datetime,arrival_datetime,price"
    ++ newline
    ++ "Flight_ID,Origin,Destination,Departure,Arrival,Price" ++ newline.

Definition sample_disk_headers : disk :=
  set_entry sample_disk "data/twice.csv" (Some (File sample_headers)).

(** * Test vectors

    The values below are those CPython 3.11 returns for the same calls. *)

Example strip_ex : strip "  a b	 " = "a b".
Proof. reflexivity. Qed.

Example str_of_int_ex : (str_of_int 12, str_of_int 0, str_of_int (-7)) = ("12", "0", "-7").
Proof. reflexivity. Qed.

Example strptime_ex1 : strptime "2024-05-01 10:00" = Ok (mkdt 2024 5 1 10 0).
Proof. reflexivity. Qed.
Example strptime_ex2 : strptime "2024-5-1 9:5" = Ok (mkdt 2024 5 1 9 5).
Proof. reflexivity. Qed.
Example strptime_ex3 : strptime "2024-05- 1 10:00" = Ok (mkdt 2024 5 1 10 0).
Proof. reflexivity. Qed.
Example strptime_ex4 : strptime "2024-05-01	 10:00" = Ok (mkdt 2024 5 1 10 0).
Proof. reflexivity. Qed.
Example strptime_ex5 : strptime "2024-02-30 10:00" = Raise ValueError.
Proof. reflexivity. Qed.
Example strptime_ex6 : strptime "2024-02-29 10:00" = Ok (mkdt 2024 2 29 10 0).
Proof. reflexivity. Qed.
Example strptime_ex7 : strptime "2024-05-01 10:75" = Raise ValueError.
Proof. reflexivity. Qed.
Example strptime_ex8 : strptime "2024-05-01 24:00" = Raise ValueError.
Proof. reflexivity. Qed.
Example strptime_ex9 : strptime "0000-01-01 00:00" = Raise ValueError.
Proof. reflexivity. Qed.
Example strptime_ex10 : strptime " 2024-05-01 10:07" = Raise ValueError.
Proof. reflexivity. Qed.
Example strptime_ex11 : strptime "2024-05-01 10:07 " = Raise ValueError.
Proof. reflexivity. Qed.

Example float_ex1 : float_of_string "100" = Some (Ffin false 7036874417766400 (-46)).
Proof. vm_compute. reflexivity. Qed.
Example float_ex2 : float_of_string "0.1" = Some (Ffin false 7205759403792794 (-56)).
Proof. vm_compute. reflexivity. Qed.
Example float_ex3 : float_of_string "1e23" = Some (Ffin false 5960464477539062 24).
Proof. vm_compute. reflexivity. Qed.
Example float_ex4 : float_of_string " 1_0e1_0 " = Some (Ffin false 6553600000000000 (-16)).
Proof. vm_compute. reflexivity. Qed.
Example float_ex5 : float_of_string "5e-324" = Some (Ffin false 1 (-1074)).
Proof. vm_compute. reflexivity. Qed.
Example float_ex6 :
  float_of_string "2.4703282292062327e-324" = Some (Ffin false 0 (-1074)).
Proof. vm_compute. reflexivity. Qed.
Example float_ex7 :
  float_of_string "1.7976931348623157e308" = Some (Ffin false 9007199254740991 971).
Proof. vm_compute. reflexivity. Qed.
Example float_ex8 : float_of_string "1.7976931348623159e308" = Some (Finf false).
Proof. vm_compute. reflexivity. Qed.
Example float_ex9 : float_of_string "9007199254740993" = Some (Ffin false 4503599627370496 1).
Proof. vm_compute. reflexivity. Qed.
Example float_ex10 : float_of_string "-0" = Some (Ffin true 0 (-1074)).
Proof. vm_compute. reflexivity. Qed.
Example float_ex11 :
  map float_of_string ["-iNf"; "Infinity"; "+nan"] = [Some (Finf true); Some (Finf false); Some Fnan].
Proof. vm_compute. reflexivity. Qed.
Example float_ex12 :
  map float_of_string
    [""; "  "; "1__0"; "_1"; "1_"; "1_.5"; "1e_5"; "."; "1e"; "0x10"; "1 0";
     "infinit"; "--1"; "1.5."; "in_f"]
  = repeat None 15.
Proof. vm_compute. reflexivity. Qed.
Example float_ex13 :
  float_of_string (String "028" "5") = None /\
  float_of_string (String "009" "5") = Some (Ffin false 5629499534213120 (-50)).
Proof. split; vm_compute; reflexivity. Qed.

Example float_of_int_ex :
  float_of_int (2 ^ 1024 - 2 ^ 970 - 1) = Ok (Ffin false 9007199254740991 971) /\
  float_of_int (2 ^ 1024 - 2 ^ 970) = Raise OverflowError.
Proof. split; vm_compute; reflexivity. Qed.

Example float_repr_ex :
  map (fun s => option_map float_repr (float_of_string s))
    ["100"; "0.1"; "1e23"; "5e-324"; "1e22"; "1e16"; "1e15"; "0.0001";
     "0.00001"; "123456789012345678"; "99.99"; "-0"; "1.5e-5"]
  = map Some
    ["100.0"; "0.1"; "1e+23"; "5e-324"; "1e+22"; "1e+16"; "1000000000000000.0";
     "0.0001"; "1e-05"; "1.2345678901234568e+17"; "99.99"; "-0.0"; "1.5e-05"].
Proof. vm_compute. reflexivity. Qed.

Example py_str_ex :
  map py_str [PNone; PBool true; PInt 12; PStr "AB12";
              PList [PInt 1; PStr "a"]; PDict [("a", PInt 1)]]
  = ["None"; "True"; "12"; "AB12"; "[1, 'a']"; "{'a': 1}"].
Proof. vm_compute. reflexivity. Qed.

Example validate_row_ok :
  validate_row ["AB12"; "JFK"; "LAX"; "2024-05-01 10:00"; "2024-05-01 12:00"; "100"]
    1 "AB12,JFK,LAX,2024-05-01 10:00,2024-05-01 12:00,100"
  = (true,
     Some (mk_flight "AB12" "JFK" "LAX" "2024-05-01 10:00" "2024-05-01 12:00"
             (PFloat (Ffin false 7036874417766400 (-46)))),
     "").
Proof. vm_compute. reflexivity. Qed.

Example validate_row_spec_sample_1 :
  validate_row ["XY1"; "JFK"; "LAX"; "2024-05-01 10:00"; "2024-05-01 09:00"; "100"]
    7 "XY1,JFK,LAX,2024-05-01 10:00,2024-05-01 09:00,100"
  = (false, None,
     "Line 7: XY1,JFK,LAX,2024-05-01 10:00,2024-05-01 09:00,100 → arrival before departure").
Proof. vm_compute. reflexivity. Qed.

Example validate_row_spec_sample_2 :
  validate_row ["AB12"; "jfk"; "LAX"; "2024-05-01 10:00"; "2024-05-01 12:00"; "0"]
    3 "AB12,jfk,LAX,2024-05-01 10:00,2024-05-01 12:00,0"
  = (false, None,
     "Line 3: AB12,jfk,LAX,2024-05-01 10:00,2024-05-01 12:00,0 → invalid origin code, price must be positive").
Proof. vm_compute. reflexivity. Qed.

(** * Characters as code points *)

Lemma code_inj (a b : ascii) : code a = code b -> a = b.
Proof.
  unfold code. intros H. apply N2Z.inj in H.
  rewrite <- (ascii_N_embedding a), <- (ascii_N_embedding b). now rewrite H.
Qed.

Lemma eqb_code (a b : ascii) : Ascii.eqb a b = (code a =? code b).
Proof.
  destruct (Ascii.eqb_spec a b) as [->|Hne].
  - now rewrite Z.eqb_refl.
  - symmetry. apply Z.eqb_neq. intros H. now apply Hne, code_inj.
Qed.

Lemma code_range (c : ascii) : 0 <= code c < 256.
Proof.
  unfold code. pose proof (N_ascii_bounded c). lia.
Qed.

(** Tests on characters become comparisons of code points. *)
Ltac codes :=
  unfold chr, d_, rng, isdigit, isupper_c, islower_c, isalpha_c, isalnum_c,
    isspace, c_isspace, in_range, digit_val in *;
  rewrite ?eqb_code in *;
  change (code "0") with 48 in *; change (code "1") with 49 in *;
  change (code "2") with 50 in *; change (code "3") with 51 in *;
  change (code "5") with 53 in *; change (code "9") with 57 in *;
  change (code "-") with 45 in *; change (code ":") with 58 in *;
  change (code " ") with 32 in *; change (code ".") with 46 in *;
  change (code "+") with 43 in *; change (code "_") with 95 in *;
  change (code "e") with 101 in *; change (code "E") with 69 in *;
  change (code "A") with 65 in *; change (code "Z") with 90 in *;
  change (code "a") with 97 in *; change (code "z") with 122 in *.

Ltac bools :=
  repeat match goal with
    | H : _ && _ = true |- _ => apply andb_true_iff in H; destruct H
    | H : _ || _ = false |- _ => apply orb_false_iff in H; destruct H
    | H : negb _ = true |- _ => apply negb_true_iff in H
    | H : negb _ = false |- _ => apply negb_false_iff in H
    | H : (_ <=? _) = true |- _ => apply Z.leb_le in H
    | H : (_ <=? _) = false |- _ => apply Z.leb_gt in H
    | H : (_ <? _) = true |- _ => apply Z.ltb_lt in H
    | H : (_ <? _) = false |- _ => apply Z.ltb_ge in H
    | H : (_ =? _) = true |- _ => apply Z.eqb_eq in H
    | H : (_ =? _) = false |- _ => apply Z.eqb_neq in H
    end.

Lemma isspace_not_digit (c : ascii) : isspace c = true -> isdigit c = false.
Proof.
  codes. intros H.
  destruct (48 <=? code c) eqn:E1, (code c <=? 57) eqn:E2; try reflexivity.
  apply orb_true_iff in H. destruct H; bools; lia.
Qed.

Lemma isdigit_val (c : ascii) : isdigit c = true -> 0 <= digit_val c <= 9.
Proof. codes. intros H. bools. lia. Qed.

(** * Properties of the row validator *)

Section RowValidator.

Lemma truthy_eqb_empty (s : string) : negb (truthy s) = String.eqb s "".
Proof. destruct s; reflexivity. Qed.

Lemma flight_id_step (rs : list string) (flight_id : string) :
  (if negb (truthy flight_id) then append rs "missing flight_id field"
   else if negb (is_valid_flight_id flight_id) then
     if 8 <? len flight_id
     then append rs "flight_id too long (more than 8 characters)"
     else append rs "invalid flight_id format"
   else rs)
  = (rs ++ RowSpec.flight_id_reasons flight_id)%list.
Proof.
  unfold RowSpec.flight_id_reasons, append.
  rewrite truthy_eqb_empty.
  destruct (String.eqb flight_id ""); [reflexivity|].
  destruct (is_valid_flight_id flight_id); cbn [negb].
  - now rewrite app_nil_r.
  - destruct (8 <? len flight_id); reflexivity.
Qed.

Lemma origin_step (rs : list string) (origin : string) :
  (if negb (truthy origin) then append rs "missing origin field"
   else if negb (is_valid_airport_code origin)
        then append rs "invalid origin code"
        else rs)
  = (rs ++ RowSpec.airport_reasons "origin" origin)%list.
Proof.
  unfold RowSpec.airport_reasons, append.
  rewrite truthy_eqb_empty.
  destruct (String.eqb origin ""); [reflexivity|].
  destruct (is_valid_airport_code origin); cbn [negb]; [|reflexivity].
  now rewrite app_nil_r.
Qed.

Lemma destination_step (rs : list string) (destination : string) :
  (if negb (truthy destination) then append rs "missing destination field"
   else if negb (is_valid_airport_code destination)
        then append rs "invalid destination code"
        else rs)
  = (rs ++ RowSpec.airport_reasons "destination" destination)%list.
Proof.
  unfold RowSpec.airport_reasons, append.
  rewrite truthy_eqb_empty.
  destruct (String.eqb destination ""); [reflexivity|].
  destruct (is_valid_airport_code destination); cbn [negb]; [|reflexivity].
  now rewrite app_nil_r.
Qed.

Lemma timestamp_step (rs : list string) (dep_str arr_str : string) :
  match parse_datetime_str dep_str, parse_datetime_str arr_str with
  | None, None => append rs "invalid date format"
  | _, _ =>
      let rs' :=
        match parse_datetime_str dep_str with
        | None => append rs "invalid departure datetime"
        | Some _ => rs
        end in
      match parse_datetime_str arr_str with
      | None => append rs' "invalid arrival datetime"
      | Some _ => rs'
      end
  end
  = (rs ++ RowSpec.timestamp_reasons dep_str arr_str)%list.
Proof.
  unfold RowSpec.timestamp_reasons, append.
  destruct (parse_datetime_str dep_str), (parse_datetime_str arr_str);
    cbn; now rewrite ?app_nil_r.
Qed.

Lemma chronology_step (rs : list string) (dep_str arr_str : string) :
  match parse_datetime_str dep_str, parse_datetime_str arr_str with
  | Some dep, Some arr =>
      if dt_leb arr dep then append rs "arrival before departure" else rs
  | _, _ => rs
  end
  = (rs ++ RowSpec.chronology_reasons dep_str arr_str)%list.
Proof.
  unfold RowSpec.chronology_reasons, append.
  destruct (parse_datetime_str dep_str) as [dep|],
           (parse_datetime_str arr_str) as [arr|];
    rewrite ?app_nil_r; try reflexivity.
  destruct (dt_leb arr dep); now rewrite ?app_nil_r.
Qed.

Lemma price_step (rs : list string) (price_str : string) :
  match parse_price_str price_str with
  | None => append rs "invalid price value"
  | Some p =>
      if flt p fzero then append rs "negative price value"
      else if feq p fzero then append rs "price must be positive"
      else rs
  end
  = (rs ++ RowSpec.price_reasons price_str)%list.
Proof.
  unfold RowSpec.price_reasons, append.
  destruct (parse_price_str price_str) as [p|]; [|reflexivity].
  destruct (flt p fzero); [reflexivity|].
  destruct (feq p fzero); now rewrite ?app_nil_r.
Qed.

(** The validator records exactly the reasons of the six checks. *)
Lemma validate_row_reasons (f0 f1 f2 f3 f4 f5 : string) (line_no : Z)
    (original_line : string) :
  validate_row [f0; f1; f2; f3; f4; f5] line_no original_line =
  let reasons := RowSpec.reasons_of (strip f0) (strip f1) (strip f2) (strip f3)
                   (strip f4) (strip f5) in
  match reasons with
  | _ :: _ => (false, None, diagnostic line_no original_line reasons)
  | [] =>
      (true,
       Some (mk_flight (strip f0) (strip f1) (strip f2) (strip f3) (strip f4)
               (of_optional (parse_price_str (strip f5)))),
       "")
  end.
Proof.
  unfold validate_row.
  cbv zeta.
  rewrite flight_id_step, origin_step, destination_step.
  rewrite timestamp_step, chronology_step, price_step.
  unfold RowSpec.reasons_of.
  rewrite <- !app_assoc. cbn [app].
  reflexivity.
Qed.

End RowValidator.

(** C5: a row whose number of fields is not six is rejected at once with
    the single reason "missing required fields": no flight record is
    built and no field is looked at. *)
Theorem validate_row_wrong_field_count
    (fields : list string) (line_no : Z) (original_line : string) :
  List.length fields <> 6%nat ->
  validate_row fields line_no original_line =
  (false, None,
   "Line " ++ str_of_int line_no ++ ": " ++ original_line
     ++ " → missing required fields").
Proof.
  intros Hlen.
  destruct fields as [|f0 [|f1 [|f2 [|f3 [|f4 [|f5 [|f6 rest]]]]]]];
    try reflexivity.
  now elim Hlen.
Qed.

Lemma validate_row_wrong_field_count_witness :
  List.length ["AB12"; "JFK"; "LAX"; "2024-05-01 10:00"; "100"] <> 6%nat /\
  validate_row ["AB12"; "JFK"; "LAX"; "2024-05-01 10:00"; "100"] 4
    "AB12,JFK,LAX,2024-05-01 10:00,100"
  = (false, None,
     "Line 4: AB12,JFK,LAX,2024-05-01 10:00,100 → missing required fields").
Proof.
  split.
  - simpl. lia.
  - apply (validate_row_wrong_field_count
             ["AB12"; "JFK"; "LAX"; "2024-05-01 10:00"; "100"] 4
             "AB12,JFK,LAX,2024-05-01 10:00,100").
    simpl. lia.
Defined.

(** The diagnostic of a rejected row of six fields names the reasons of
    all the checks that the validator makes, joined by a comma and a
    blank, in the order flight_id, origin, destination, timestamps,
    chronology, price: no check is skipped because an earlier one
    failed. *)
Lemma validate_row_joins_reasons
    (f0 f1 f2 f3 f4 f5 : string) (line_no : Z) (original_line : string) :
  let reasons :=
    RowSpec.reasons_of (strip f0) (strip f1) (strip f2) (strip f3)
      (strip f4) (strip f5) in
  reasons <> [] ->
  validate_row [f0; f1; f2; f3; f4; f5] line_no original_line =
  (false, None,
   "Line " ++ str_of_int line_no ++ ": " ++ original_line ++ " → "
     ++ join ", " reasons).
Proof.
  intros reasons Hne.
  rewrite validate_row_reasons.
  fold reasons. cbv zeta.
  destruct reasons as [|r rs]; [now elim Hne|].
  reflexivity.
Qed.

(** C2, the claim fails on a price that reads as NaN: the row below
    breaks two constraints, its flight_id has one character and its
    price is a number that is not above zero, and the diagnostic names
    the first only.  The sign checks of the validator ask whether the
    price is below zero and whether it equals zero; NaN is neither, so
    no reason is recorded for it. *)
Theorem validate_row_omits_nan_price_reason :
  validate_row ["A"; "JFK"; "LAX"; "2024-05-01 10:00"; "2024-05-01 12:00"; "nan"]
    2 "A,JFK,LAX,2024-05-01 10:00,2024-05-01 12:00,nan"
  = (false, None,
     "Line 2: A,JFK,LAX,2024-05-01 10:00,2024-05-01 12:00,nan → invalid flight_id format")
  /\ parse_price (PStr "nan") = Ok (Some Fnan)
  /\ fgt Fnan fzero = false.
Proof. repeat split; vm_compute; reflexivity. Qed.

(** On a [str], [strptime] raises nothing but [ValueError], so
    [parse_datetime] returns. *)
Lemma parse_datetime_str_total (s : string) :
  parse_datetime (PStr s) = Ok (parse_datetime_str s).
Proof.
  unfold parse_datetime_str, parse_datetime, py_strptime, strptime.
  destruct (format_regex s) as [|[g rest] tl]; [reflexivity|].
  destruct (truthy rest); [reflexivity|].
  destruct (valid_date _ _ _); reflexivity.
Qed.

Lemma parse_price_str_total (s : string) :
  parse_price (PStr s) = Ok (parse_price_str s).
Proof.
  unfold parse_price_str, parse_price, py_float.
  destruct (float_of_string s); reflexivity.
Qed.

Lemma parse_price_str_float (s : string) :
  parse_price_str s = float_of_string s.
Proof.
  unfold parse_price_str, parse_price, py_float.
  destruct (float_of_string s); reflexivity.
Qed.

(** What an accepted row looks like. *)
Lemma validate_row_accepted (fields : list string) (line_no : Z)
    (original_line : string) (flight : dict) (msg : string) :
  validate_row fields line_no original_line = (true, Some flight, msg) ->
  exists f0 f1 f2 f3 f4 f5,
    fields = [f0; f1; f2; f3; f4; f5] /\
    RowSpec.reasons_of (strip f0) (strip f1) (strip f2) (strip f3)
      (strip f4) (strip f5) = [] /\
    flight = mk_flight (strip f0) (strip f1) (strip f2) (strip f3) (strip f4)
               (of_optional (parse_price_str (strip f5))).
Proof.
  intros H.
  destruct fields as [|f0 [|f1 [|f2 [|f3 [|f4 [|f5 [|f6 rest]]]]]]];
    try discriminate H.
  exists f0, f1, f2, f3, f4, f5.
  rewrite validate_row_reasons in H. cbv zeta in H.
  destruct (RowSpec.reasons_of _ _ _ _ _ _); [|discriminate H].
  injection H as H _. now subst flight.
Qed.

Lemma reasons_of_nil (a b c d e f : string) :
  RowSpec.reasons_of a b c d e f = [] ->
  RowSpec.flight_id_reasons a = [] /\
  RowSpec.airport_reasons "origin" b = [] /\
  RowSpec.airport_reasons "destination" c = [] /\
  RowSpec.timestamp_reasons d e = [] /\
  RowSpec.chronology_reasons d e = [] /\
  RowSpec.price_reasons f = [].
Proof.
  unfold RowSpec.reasons_of. intros H.
  repeat (apply app_eq_nil in H; destruct H as [? H]).
  repeat split; assumption.
Qed.

Lemma timestamp_reasons_nil (d e : string) :
  RowSpec.timestamp_reasons d e = [] ->
  exists dep arr, parse_datetime_str d = Some dep /\ parse_datetime_str e = Some arr.
Proof.
  unfold RowSpec.timestamp_reasons.
  destruct (parse_datetime_str d) as [dep|], (parse_datetime_str e) as [arr|];
    try discriminate.
  intros _. now exists dep, arr.
Qed.

(** C10: the departure and arrival texts stored in a record built by the
    validator read back as timestamps, so for such a record the matcher
    never takes the branch of an unreadable stored timestamp: with a
    readable bound, each date filter is decided by the comparison alone. *)
Theorem validated_timestamps_reparse
    (fields : list string) (line_no : Z) (original_line : string)
    (flight : dict) (msg : string) :
  validate_row fields line_no original_line = (true, Some flight, msg) ->
  exists dep_str arr_str dep arr,
    dict_get "departure_datetime" flight = Some (PStr dep_str) /\
    dict_get "arrival_datetime" flight = Some (PStr arr_str) /\
    parse_datetime (PStr dep_str) = Ok (Some dep) /\
    parse_datetime (PStr arr_str) = Ok (Some arr) /\
    (forall query qv q_dep,
        dict_get "departure_datetime" query = Some qv ->
        parse_datetime qv = Ok (Some q_dep) ->
        departure_filter flight query =
        Ok (if dt_ltb dep q_dep then Return false else Next)) /\
    (forall query qv q_arr,
        dict_get "arrival_datetime" query = Some qv ->
        parse_datetime qv = Ok (Some q_arr) ->
        arrival_filter flight query =
        Ok (if dt_gtb arr q_arr then Return false else Next)).
Proof.
  intros H.
  apply validate_row_accepted in H.
  destruct H as (f0 & f1 & f2 & f3 & f4 & f5 & _ & Hnil & ->).
  apply reasons_of_nil in Hnil.
  destruct Hnil as (_ & _ & _ & Hts & _ & _).
  apply timestamp_reasons_nil in Hts.
  destruct Hts as (dep & arr & Hdep & Harr).
  exists (strip f3), (strip f4), dep, arr.
  assert (Hd : parse_datetime (PStr (strip f3)) = Ok (Some dep))
    by now rewrite parse_datetime_str_total, Hdep.
  assert (Ha : parse_datetime (PStr (strip f4)) = Ok (Some arr))
    by now rewrite parse_datetime_str_total, Harr.
  repeat split; try assumption; try reflexivity.
  - intros query qv q_dep Hq Hp.
    unfold departure_filter. rewrite Hq, Hp. cbn [bind].
    unfold subscript, mk_flight. cbn [dict_get String.eqb Ascii.eqb Bool.eqb].
    cbn [bind]. rewrite Hd. cbn [bind]. now destruct (dt_ltb dep q_dep).
  - intros query qv q_arr Hq Hp.
    unfold arrival_filter. rewrite Hq, Hp. cbn [bind].
    unfold subscript, mk_flight. cbn [dict_get String.eqb Ascii.eqb Bool.eqb].
    cbn [bind]. rewrite Ha. cbn [bind]. now destruct (dt_gtb arr q_arr).
Qed.

Lemma validated_timestamps_reparse_witness :
  exists dep_str arr_str dep arr,
    dict_get "departure_datetime" sample_flight = Some (PStr dep_str) /\
    dict_get "arrival_datetime" sample_flight = Some (PStr arr_str) /\
    parse_datetime (PStr dep_str) = Ok (Some dep) /\
    parse_datetime (PStr arr_str) = Ok (Some arr) /\
    (forall query qv q_dep,
        dict_get "departure_datetime" query = Some qv ->
        parse_datetime qv = Ok (Some q_dep) ->
        departure_filter sample_flight query =
        Ok (if dt_ltb dep q_dep then Return false else Next)) /\
    (forall query qv q_arr,
        dict_get "arrival_datetime" query = Some qv ->
        parse_datetime qv = Ok (Some q_arr) ->
        arrival_filter sample_flight query =
        Ok (if dt_gtb arr q_arr then Return false else Next)).
Proof.
  apply (validated_timestamps_reparse
           ["AB12"; "JFK"; "LAX"; "2024-05-01 10:00"; "2024-05-01 12:00"; "100"]
           1 "AB12,JFK,LAX,2024-05-01 10:00,2024-05-01 12:00,100"
           sample_flight "").
  vm_compute. reflexivity.
Defined.

Lemma not_lt_not_eq_zero (p : float) :
  flt p fzero = false -> feq p fzero = false ->
  fgt p fzero = true \/ p = Fnan.
Proof.
  unfold flt, feq, fgt.
  destruct p as [|neg|neg m e]; [now right| |].
  - destruct neg; cbn; [discriminate|now left].
  - destruct (fcompare (Ffin neg m e) fzero) as [[]|] eqn:E;
      try discriminate.
    now left.
Qed.

(** Every constraint of an accepted row holds, except that a price that
    is neither negative nor zero may be NaN. *)
Lemma validate_row_accepted_constraints (fields : list string) (line_no : Z)
    (original_line : string) (flight : dict) (msg : string) :
  validate_row fields line_no original_line = (true, Some flight, msg) ->
  exists flight_id origin destination dep_str arr_str dep arr price,
    flight = mk_flight flight_id origin destination dep_str arr_str (PFloat price) /\
    is_valid_flight_id flight_id = true /\
    is_valid_airport_code origin = true /\
    is_valid_airport_code destination = true /\
    parse_datetime_str dep_str = Some dep /\
    parse_datetime_str arr_str = Some arr /\
    dt_ltb dep arr = true /\
    (fgt price fzero = true \/ price = Fnan).
Proof.
  intros H.
  apply validate_row_accepted in H.
  destruct H as (f0 & f1 & f2 & f3 & f4 & f5 & _ & Hnil & ->).
  apply reasons_of_nil in Hnil.
  destruct Hnil as (Hid & Ho & Hd & Hts & Hch & Hp).
  apply timestamp_reasons_nil in Hts.
  destruct Hts as (dep & arr & Hdep & Harr).
  unfold RowSpec.price_reasons in Hp.
  destruct (parse_price_str (strip f5)) as [p|] eqn:Ep; [|discriminate Hp].
  exists (strip f0), (strip f1), (strip f2), (strip f3), (strip f4), dep, arr, p.
  split; [reflexivity|].
  split.
  { unfold RowSpec.flight_id_reasons in Hid.
    destruct (String.eqb (strip f0) ""); [discriminate|].
    destruct (is_valid_flight_id (strip f0)); [reflexivity|].
    destruct (8 <? len (strip f0)); discriminate. }
  split.
  { unfold RowSpec.airport_reasons in Ho.
    destruct (String.eqb (strip f1) ""); [discriminate|].
    destruct (is_valid_airport_code (strip f1)); [reflexivity|discriminate]. }
  split.
  { unfold RowSpec.airport_reasons in Hd.
    destruct (String.eqb (strip f2) ""); [discriminate|].
    destruct (is_valid_airport_code (strip f2)); [reflexivity|discriminate]. }
  split; [assumption|]. split; [assumption|].
  split.
  { unfold RowSpec.chronology_reasons in Hch. rewrite Hdep, Harr in Hch.
    unfold dt_leb in Hch. unfold dt_ltb.
    assert (Hsym : dt_compare arr dep = CompOpp (dt_compare dep arr)).
    { unfold dt_compare.
      rewrite (Z.compare_antisym (year arr) (year dep)).
      rewrite (Z.compare_antisym (month arr) (month dep)).
      rewrite (Z.compare_antisym (day arr) (day dep)).
      rewrite (Z.compare_antisym (hour arr) (hour dep)).
      rewrite (Z.compare_antisym (minute arr) (minute dep)).
      destruct (year arr ?= year dep), (month arr ?= month dep),
        (day arr ?= day dep), (hour arr ?= hour dep),
        (minute arr ?= minute dep); reflexivity. }
    rewrite Hsym in Hch.
    destruct (dt_compare dep arr); cbn in Hch; try discriminate; reflexivity. }
  destruct (flt p fzero) eqn:E1; [discriminate|].
  destruct (feq p fzero) eqn:E2; [discriminate|].
  now apply not_lt_not_eq_zero.
Qed.

(** C1: a row whose price field is the text [nan] passes every check of
    the validator, which builds a record whose price is not greater than
    zero. *)
Theorem validate_row_accepts_nan_price :
  validate_row ["AB12"; "JFK"; "LAX"; "2024-05-01 10:00"; "2024-05-01 12:00"; "nan"]
    2 "AB12,JFK,LAX,2024-05-01 10:00,2024-05-01 12:00,nan"
  = (true,
     Some (mk_flight "AB12" "JFK" "LAX" "2024-05-01 10:00" "2024-05-01 12:00"
             (PFloat Fnan)),
     "")
  /\ fgt Fnan fzero = false.
Proof. split; vm_compute; reflexivity. Qed.

(** * The database store *)

Lemma decode_list_is_array (content : Json.doc) (l : list pyval) :
  Json.decode content = Some (PList l) -> exists items, content = Json.JArray items.
Proof.
  destruct content as [|b|text|c|s|items|members]; cbn; try discriminate.
  - unfold Json.decode_number.
    destruct (existsb_s _ text).
    + destruct (float_of_string text); discriminate.
    + destruct (Json.int_of_token text); discriminate.
  - intros _. now exists items.
  - match goal with
    | |- option_map _ ?x = _ -> _ => destruct x; discriminate
    end.
Qed.

Lemma decode_array_is_list (items : list Json.doc) (data : pyval) :
  Json.decode (Json.JArray items) = Some data -> exists l, data = PList l.
Proof.
  cbn.
  match goal with
  | |- option_map _ ?x = _ -> _ => destruct x as [l|]; cbn; [|discriminate]
  end.
  intros [= <-]. now exists l.
Qed.

(** C9: for a database file that [json.load] can read, [load_db_json]
    returns the list when the top level of the document is an array,
    whatever its items are, and raises [ValueError] when the top level is
    anything else. *)
Theorem load_db_json_top_level
    (path : string) (fs : filesystem) (content : Json.doc) (data : pyval) :
  fs path = Some content ->
  Json.decode content = Some data ->
  (forall items, content = Json.JArray items ->
     exists l, data = PList l /\ load_db_json path fs = Ok l) /\
  ((forall items, content <> Json.JArray items) ->
     load_db_json path fs = Raise ValueError).
Proof.
  intros Hfs Hdec. unfold load_db_json. rewrite Hfs, Hdec.
  split.
  - intros items ->.
    destruct (decode_array_is_list items data Hdec) as [l ->].
    now exists l.
  - intros Hnot.
    destruct data; try reflexivity.
    destruct (decode_list_is_array content l Hdec) as [items ->].
    now elim (Hnot items).
Qed.

Lemma load_db_json_top_level_witness :
  (forall items, Json.JArray [Json.JNumber "1"; Json.JString "two"] = Json.JArray items ->
     exists l, PList [PInt 1; PStr "two"] = PList l /\
               load_db_json "db.json" sample_fs = Ok l) /\
  ((forall items, Json.JArray [Json.JNumber "1"; Json.JString "two"] <> Json.JArray items) ->
     load_db_json "db.json" sample_fs = Raise ValueError).
Proof.
  apply (load_db_json_top_level "db.json" sample_fs
           (Json.JArray [Json.JNumber "1"; Json.JString "two"])
           (PList [PInt 1; PStr "two"])).
  - reflexivity.
  - vm_compute. reflexivity.
Defined.

Example load_db_json_object :
  load_db_json "object.json" sample_fs = Raise ValueError.
Proof. vm_compute. reflexivity. Qed.

(** * The query matcher *)

(** C6: a departure bound that is a number raises [TypeError] in
    [strptime]; [parse_datetime] lets it through, and so do the matcher
    and the query run. *)
Theorem non_text_departure_bound_raises :
  flight_matches_query sample_flight [("departure_datetime", PInt 20240501)]
    = Raise TypeError /\
  run_queries_on_db [sample_flight] [[("departure_datetime", PInt 20240501)]]
    = Raise TypeError.
Proof. split; vm_compute; reflexivity. Qed.

(** C3: with the price bound [nan] the matcher returns true for a flight
    priced 100.0, although 100.0 is not less than or equal to NaN. *)
Theorem nan_price_bound_matches :
  flight_matches_query sample_flight [("price", PStr "nan")] = Ok true /\
  py_float (PStr "nan") = Ok Fnan /\
  fle (Ffin false 7036874417766400 (-46)) Fnan = false.
Proof. repeat split; vm_compute; reflexivity. Qed.

Import QuerySpec.
Local Open Scope string_scope.
Local Open Scope Z_scope.

(** * The query matcher and the filters in words *)

Lemma dt_compare_antisym (a b : datetime) :
  dt_compare b a = CompOpp (dt_compare a b).
Proof.
  unfold dt_compare.
  rewrite (Z.compare_antisym (year a) (year b)).
  rewrite (Z.compare_antisym (month a) (month b)).
  rewrite (Z.compare_antisym (day a) (day b)).
  rewrite (Z.compare_antisym (hour a) (hour b)).
  rewrite (Z.compare_antisym (minute a) (minute b)).
  destruct (year a ?= year b), (month a ?= month b),
    (day a ?= day b), (hour a ?= hour b),
    (minute a ?= minute b); reflexivity.
Qed.

Lemma dt_leb_ltb (a b : datetime) : dt_leb a b = negb (dt_ltb b a).
Proof.
  unfold dt_leb, dt_ltb. rewrite (dt_compare_antisym a b).
  now destruct (dt_compare a b).
Qed.

Lemma fle_fgt (x y : float) :
  x <> Fnan -> y <> Fnan -> fle x y = negb (fgt x y).
Proof.
  intros Hx Hy. unfold fle, fgt.
  destruct x as [|nx|nx mx ex]; [now elim Hx| |];
    (destruct y as [|ny|ny my ey]; [now elim Hy| |]); cbn.
  - now destruct nx, ny.
  - now destruct nx.
  - now destruct ny.
  - now destruct (_ ?= _).
Qed.

Section Matcher.

Variables (flight_id origin destination dep_str arr_str : string) (price : float).

Let flight : dict :=
  mk_flight flight_id origin destination dep_str arr_str (PFloat price).

Variable query : dict.

Lemma exact_matches_spec (keys : list string) :
  (exact_matches keys flight query = Ok Next /\
   Forall (fun key => exact_passes key flight query) keys) \/
  (exact_matches keys flight query = Ok (Return false) /\
   ~ Forall (fun key => exact_passes key flight query) keys).
Proof.
  induction keys as [|key keys IH]; cbn [exact_matches].
  - left. split; [reflexivity|constructor].
  - destruct (dict_get key query) as [qv|] eqn:Eq.
    + destruct (String.eqb_spec (py_str (get_or_none flight key)) (py_str qv))
        as [Heq|Hne]; cbn [negb].
      * destruct IH as [[-> Hall]|[-> Hnot]]; [left|right]; split;
          try reflexivity.
        -- constructor; [|assumption]. intros qv' Hq'.
           rewrite Eq in Hq'. now injection Hq' as <-.
        -- intros H. inversion H. contradiction.
      * right. split; [reflexivity|]. intros H. inversion H as [|? ? Hk _].
        now apply Hne, Hk.
    + destruct IH as [[-> Hall]|[-> Hnot]]; [left|right]; split;
        try reflexivity.
      * constructor; [|assumption]. intros qv' Hq'. rewrite Eq in Hq'.
        discriminate Hq'.
      * intros H. inversion H. contradiction.
Qed.

(** A date filter never returns true, and goes on exactly when the
    filter passes. *)
Lemma departure_filter_spec :
  departure_filter flight query <> Ok (Return true) /\
  (departure_filter flight query = Ok Next <-> departure_passes flight query).
Proof.
  unfold departure_filter, departure_passes.
  destruct (dict_get "departure_datetime" query) as [qv|].
  - destruct (parse_datetime qv) as [[q_dep|]|err] eqn:Eq; cbn [bind].
    + change (subscript flight "departure_datetime") with (Ok (PStr dep_str)).
      cbn [bind].
      destruct (parse_datetime (PStr dep_str)) as [[f_dep|]|err] eqn:Ef;
        cbn [bind].
      * rewrite <- (negb_involutive (dt_ltb f_dep q_dep)), <- dt_leb_ltb.
        destruct (dt_leb q_dep f_dep) eqn:El; cbn [negb].
        -- split; [discriminate|]. split; [|reflexivity].
           intros _ qv' [= <-]. exists q_dep, dep_str, f_dep. now repeat split.
        -- split; [discriminate|]. split; [discriminate|].
           intros H. destruct (H qv eq_refl)
             as (q' & t' & f' & Hq' & Ht' & Hf' & Hl').
           injection Ht' as <-. congruence.
      * split; [discriminate|]. split; [discriminate|].
        intros H. destruct (H qv eq_refl)
          as (q' & t' & f' & Hq' & Ht' & Hf' & Hl').
        injection Ht' as <-. congruence.
      * split; [discriminate|]. split; [discriminate|].
        intros H. destruct (H qv eq_refl)
          as (q' & t' & f' & Hq' & Ht' & Hf' & Hl').
        injection Ht' as <-. congruence.
    + split; [discriminate|]. split; [discriminate|].
      intros H. destruct (H qv eq_refl) as (q' & t' & f' & Hq' & _).
      congruence.
    + split; [discriminate|]. split; [discriminate|].
      intros H. destruct (H qv eq_refl) as (q' & t' & f' & Hq' & _).
      congruence.
  - split; [discriminate|]. split; [|reflexivity]. intros _ qv H.
    discriminate H.
Qed.

Lemma arrival_filter_spec :
  arrival_filter flight query <> Ok (Return true) /\
  (arrival_filter flight query = Ok Next <-> arrival_passes flight query).
Proof.
  unfold arrival_filter, arrival_passes.
  destruct (dict_get "arrival_datetime" query) as [qv|].
  - destruct (parse_datetime qv) as [[q_arr|]|err] eqn:Eq; cbn [bind].
    + change (subscript flight "arrival_datetime") with (Ok (PStr arr_str)).
      cbn [bind].
      destruct (parse_datetime (PStr arr_str)) as [[f_arr|]|err] eqn:Ef;
        cbn [bind].
      * unfold dt_gtb.
        rewrite <- (negb_involutive (dt_ltb q_arr f_arr)), <- dt_leb_ltb.
        destruct (dt_leb f_arr q_arr) eqn:El; cbn [negb].
        -- split; [discriminate|]. split; [|reflexivity].
           intros _ qv' [= <-]. exists q_arr, arr_str, f_arr. now repeat split.
        -- split; [discriminate|]. split; [discriminate|].
           intros H. destruct (H qv eq_refl)
             as (q' & t' & f' & Hq' & Ht' & Hf' & Hl').
           injection Ht' as <-. congruence.
      * split; [discriminate|]. split; [discriminate|].
        intros H. destruct (H qv eq_refl)
          as (q' & t' & f' & Hq' & Ht' & Hf' & Hl').
        injection Ht' as <-. congruence.
      * split; [discriminate|]. split; [discriminate|].
        intros H. destruct (H qv eq_refl)
          as (q' & t' & f' & Hq' & Ht' & Hf' & Hl').
        injection Ht' as <-. congruence.
    + split; [discriminate|]. split; [discriminate|].
      intros H. destruct (H qv eq_refl) as (q' & t' & f' & Hq' & _).
      congruence.
    + split; [discriminate|]. split; [discriminate|].
      intros H. destruct (H qv eq_refl) as (q' & t' & f' & Hq' & _).
      congruence.
  - split; [discriminate|]. split; [|reflexivity]. intros _ qv H.
    discriminate H.
Qed.

Hypothesis price_number : price <> Fnan.
Hypothesis bound_number :
  forall qv, dict_get "price" query = Some qv -> py_float qv <> Ok Fnan.

Lemma price_filter_spec :
  price_filter flight query <> Ok (Return true) /\
  (price_filter flight query = Ok Next <-> price_passes flight query).
Proof.
  unfold price_filter, price_passes.
  destruct (dict_get "price" query) as [qv|] eqn:Eq.
  - specialize (bound_number qv eq_refl).
    destruct (py_float qv) as [q_price|err] eqn:Ep.
    + change (subscript flight "price") with (Ok (PFloat price)).
      cbn [bind py_float].
      assert (Hq : q_price <> Fnan) by congruence.
      rewrite <- (negb_involutive (fgt price q_price)),
        <- (fle_fgt price q_price price_number Hq).
      destruct (fle price q_price) eqn:El; cbn [negb].
      * split; [discriminate|]. split; [|reflexivity].
        intros _ qv' [= <-]. exists q_price, price. now repeat split.
      * split; [discriminate|]. split; [discriminate|].
        intros H. destruct (H qv eq_refl) as (q' & f' & Hq' & Hf' & Hl').
        rewrite Ep in Hq'. injection Hq' as <-.
        change (dict_get "price" flight) with (Some (PFloat price)) in Hf'.
        injection Hf' as <-. congruence.
    + assert (Hno : ~ (forall qv0, Some qv = Some qv0 ->
                 exists q_price f_price,
                   py_float qv0 = Ok q_price /\
                   dict_get "price" flight = Some (PFloat f_price) /\
                   fle f_price q_price = true)).
      { intros H. destruct (H qv eq_refl) as (q' & f' & Hq' & _).
        rewrite Ep in Hq'. discriminate Hq'. }
      destruct err; (split; [discriminate|]);
        (split; [discriminate|intros H; now elim Hno]).
  - split; [discriminate|]. split; [|reflexivity]. intros _ qv H.
    discriminate H.
Qed.

(** For a record shaped by the validator and prices that are numbers, the
    matcher returns true exactly when every filter passes. *)
Lemma flight_matches_query_passes :
  flight_matches_query flight query = Ok true <-> passes flight query.
Proof.
  unfold flight_matches_query, passes.
  destruct departure_filter_spec as [D0 D].
  destruct arrival_filter_spec as [A0 A].
  destruct price_filter_spec as [P0 P].
  destruct (exact_matches_spec ["flight_id"; "origin"; "destination"])
    as [[-> Hall]|[-> Hnot]]; cbn [and_then].
  - apply Forall_cons_iff in Hall. destruct Hall as [E1 Hall].
    apply Forall_cons_iff in Hall. destruct Hall as [E2 Hall].
    apply Forall_cons_iff in Hall. destruct Hall as [E3 _].
    rewrite <- D, <- A, <- P.
    destruct (departure_filter flight query) as [[[]|]|]; cbn [and_then];
      try (now elim D0);
      try (split; [discriminate|intros (_ & _ & _ & H & _); discriminate H]).
    destruct (arrival_filter flight query) as [[[]|]|]; cbn [and_then];
      try (now elim A0);
      try (split; [discriminate|intros (_ & _ & _ & _ & H & _); discriminate H]).
    destruct (price_filter flight query) as [[[]|]|]; cbn [and_then];
      try (now elim P0);
      try (split; [discriminate|intros (_ & _ & _ & _ & _ & H); discriminate H]).
    split; [|reflexivity]. intros _. now repeat split.
  - split; [discriminate|]. intros (H1 & H2 & H3 & _). elim Hnot.
    now repeat constructor.
Qed.

End Matcher.

Import QuerySpec.
Local Open Scope string_scope.
Local Open Scope Z_scope.

(** * Bounds that cannot be read *)

Section Unreadable.

Variables (flight_id origin destination dep_str arr_str : string) (price : float).

Let flight : dict :=
  mk_flight flight_id origin destination dep_str arr_str (PFloat price).

Variable query : dict.
Hypothesis text_bounds : text_date_bounds query.

(** With text bounds the date filters do not raise. *)
Lemma departure_filter_text :
  departure_filter flight query = Ok Next \/
  departure_filter flight query = Ok (Return false).
Proof.
  unfold departure_filter.
  destruct (dict_get "departure_datetime" query) as [qv|] eqn:Eq; [|now left].
  destruct (text_bounds "departure_datetime" qv (or_introl eq_refl) Eq) as [s ->].
  rewrite parse_datetime_str_total. cbn [bind].
  destruct (parse_datetime_str s); [|now right].
  change (subscript flight "departure_datetime") with (Ok (PStr dep_str)).
  cbn [bind]. rewrite parse_datetime_str_total. cbn [bind].
  destruct (parse_datetime_str dep_str); [|now right].
  destruct (dt_ltb _ _); auto.
Qed.

Lemma arrival_filter_text :
  arrival_filter flight query = Ok Next \/
  arrival_filter flight query = Ok (Return false).
Proof.
  unfold arrival_filter.
  destruct (dict_get "arrival_datetime" query) as [qv|] eqn:Eq; [|now left].
  destruct (text_bounds "arrival_datetime" qv (or_intror eq_refl) Eq) as [s ->].
  rewrite parse_datetime_str_total. cbn [bind].
  destruct (parse_datetime_str s); [|now right].
  change (subscript flight "arrival_datetime") with (Ok (PStr arr_str)).
  cbn [bind]. rewrite parse_datetime_str_total. cbn [bind].
  destruct (parse_datetime_str arr_str); [|now right].
  destruct (dt_gtb _ _); auto.
Qed.

Lemma unreadable_bound_no_match :
  unreadable_bound query -> flight_matches_query flight query = Ok false.
Proof.
  intros Hu. unfold flight_matches_query.
  destruct (exact_matches_spec flight_id origin destination dep_str arr_str
              price query ["flight_id"; "origin"; "destination"])
    as [[HE _]|[HE _]]; fold flight in HE; rewrite HE; cbn [and_then];
    [|reflexivity].
  destruct Hu as [(s & Hq & Hp)|[(s & Hq & Hp)|(qv & Hq & Hp)]].
  - unfold departure_filter. rewrite Hq, Hp. reflexivity.
  - destruct departure_filter_text as [-> | ->]; cbn [and_then]; [|reflexivity].
    unfold arrival_filter. rewrite Hq, Hp. reflexivity.
  - destruct departure_filter_text as [-> | ->]; cbn [and_then]; [|reflexivity].
    destruct arrival_filter_text as [-> | ->]; cbn [and_then]; [|reflexivity].
    unfold price_filter. rewrite Hq. now destruct Hp as [-> | ->].
Qed.

End Unreadable.

(** A query with text date bounds and a bound that cannot be read matches
    none of the records the validator builds, and the run of the query
    returns an empty match list without raising. *)
Lemma unreadable_bound_matches_nothing (flights : list dict) (query : dict) :
  Forall flight_shaped flights ->
  text_date_bounds query -> unreadable_bound query ->
  matching flights query = Ok [] /\
  run_queries_on_db flights [query]
  = Ok [[("query", PDict query); ("matches", PList [])]].
Proof.
  intros Hf Ht Hu.
  assert (Hm : matching flights query = Ok []).
  { induction Hf as [|flight rest Hs _ IH]; [reflexivity|].
    destruct Hs as (a & b & c & d & e & p & ->).
    cbn [matching].
    rewrite (unreadable_bound_no_match a b c d e p query Ht Hu).
    cbn [bind]. rewrite IH. reflexivity. }
  split; [assumption|].
  cbn [run_queries_on_db]. rewrite Hm. reflexivity.
Qed.

(** * The regular expression of the timestamp format *)

Section PatternInversion.

Variables p q : pattern.

Lemma cls_inv (f : ascii -> bool) (s t r : string) :
  In (t, r) (cls f s) ->
  exists c, f c = true /\ t = String c "" /\ s = String c r.
Proof.
  unfold cls. destruct s as [|c s']; [intros []|].
  destruct (f c) eqn:E; [|intros []].
  intros [[= <- <-]|[]]. now exists c.
Qed.

Lemma cat_inv (s t r : string) :
  In (t, r) ((p >>> q) s) ->
  exists t1 r1 t2, In (t1, r1) (p s) /\ In (t2, r) (q r1) /\ t = t1 ++ t2.
Proof.
  unfold cat. rewrite in_flat_map.
  intros ([t1 r1] & H1 & H2).
  apply in_map_iff in H2. destruct H2 as ([t2 r2] & [= <- <-] & H2).
  now exists t1, r1, t2.
Qed.

Lemma alt_inv (s : string) (x : string * string) :
  In x ((p <|> q) s) -> In x (p s) \/ In x (q s).
Proof. unfold alt. apply in_app_or. Qed.

End PatternInversion.

Lemma plus_cls_inv (f : ascii -> bool) (s t r : string) :
  In (t, r) (plus_cls f s) ->
  s = t ++ r /\ t <> "" /\ forallb_s f t = true.
Proof.
  revert t r. induction s as [|c s IH]; intros t r; cbn; [intros []|].
  destruct (f c) eqn:E; [|intros []].
  rewrite in_app_iff. intros [H|[[= <- <-]|[]]].
  - apply in_map_iff in H. destruct H as ([t' r'] & [= <- <-] & H).
    destruct (IH _ _ H) as (-> & _ & Hall).
    cbn. rewrite E, Hall. repeat split; discriminate.
  - cbn. rewrite E. repeat split; discriminate.
Qed.

(** Takes apart a hypothesis that a text matches a pattern. *)
Ltac invert_match :=
  repeat match goal with
    | H : In _ ((_ <|> _) _) |- _ => apply alt_inv in H; destruct H as [H|H]
    | H : In (_, _) ((_ >>> _) _) |- _ =>
        apply cat_inv in H; destruct H as (? & ? & ? & ? & H & ->)
    | H : In (_, _) (cls _ _) |- _ =>
        apply cls_inv in H; destruct H as (? & ? & -> & ->)
    end.

Ltac digits_goal :=
  unfold TimestampSpec.digits; cbn [forallb_s];
  codes; bools;
  repeat (apply andb_true_iff; split); try reflexivity;
  try (apply Z.leb_le; lia).

Import TimestampSpec.

Lemma re_Y_sound (s t r : string) :
  In (t, r) (re_Y s) -> s = t ++ r /\ year_text t.
Proof.
  unfold re_Y, d_. intros H. invert_match.
  split; [reflexivity|]. split; [|reflexivity].
  digits_goal.
Qed.

Lemma re_m_sound (s t r : string) :
  In (t, r) (re_m s) -> s = t ++ r /\ month_text t.
Proof.
  unfold re_m, rng, chr. intros H. invert_match;
    (split; [reflexivity|]);
    (split; [split; [digits_goal | cbn; auto] |]);
    unfold digits_val; cbn [digits_val_from String.append];
    codes; bools; lia.
Qed.

Lemma re_d_sound (s t r : string) :
  In (t, r) (re_d s) -> s = t ++ r /\ day_text t.
Proof.
  unfold re_d, rng, chr, d_. intros H. invert_match;
    (split; [reflexivity|]).
  1-4: left; (split; [split; [digits_goal | cbn; auto] |]);
    unfold digits_val; cbn [digits_val_from String.append];
    codes; bools; lia.
  right. cbn [String.append].
  match goal with H : Ascii.eqb " " ?c = true |- _ =>
    apply Ascii.eqb_eq in H; subst c end.
  eexists. split; [reflexivity|assumption].
Qed.

Lemma re_H_sound (s t r : string) :
  In (t, r) (re_H s) -> s = t ++ r /\ hour_text t.
Proof.
  unfold re_H, rng, chr, d_. intros H. invert_match;
    (split; [reflexivity|]);
    (split; [split; [digits_goal | cbn; auto] |]);
    unfold digits_val; cbn [digits_val_from String.append];
    codes; bools; lia.
Qed.

Lemma re_M_sound (s t r : string) :
  In (t, r) (re_M s) -> s = t ++ r /\ minute_text t.
Proof.
  unfold re_M, rng, chr, d_. intros H. invert_match;
    (split; [reflexivity|]);
    (split; [split; [digits_goal | cbn; auto] |]);
    unfold digits_val; cbn [digits_val_from String.append];
    codes; bools; lia.
Qed.

Lemma skip_chr_inv (c : ascii) (s r : string) :
  In r (skip (chr c) s) -> s = String c r.
Proof.
  unfold skip, chr. intros H.
  apply in_map_iff in H. destruct H as ([t r'] & Hr & H). cbn in Hr. subst r'.
  apply cls_inv in H. destruct H as (c' & Hc & _ & ->).
  apply Ascii.eqb_eq in Hc. now subst.
Qed.

Lemma skip_blanks_inv (s r : string) :
  In r (skip (plus_cls isspace) s) -> exists w, s = w ++ r /\ blanks w.
Proof.
  unfold skip. intros H.
  apply in_map_iff in H. destruct H as ([t r'] & Hr & H). cbn in Hr. subst r'.
  apply plus_cls_inv in H. destruct H as (-> & Hne & Hall).
  exists t. now repeat split.
Qed.

(** Every match of the format splits the data into the six texts. *)
Lemma format_regex_sound (s : string) (g : groups) (r : string) :
  In (g, r) (format_regex s) ->
  exists w,
    s = g_Y g ++ "-" ++ g_m g ++ "-" ++ g_d g ++ w ++ g_H g ++ ":" ++ g_M g ++ r /\
    year_text (g_Y g) /\ month_text (g_m g) /\ day_text (g_d g) /\ blanks w /\
    hour_text (g_H g) /\ minute_text (g_M g).
Proof.
  unfold format_regex. intros H.
  apply in_flat_map in H. destruct H as ([tY s1] & HY & H).
  apply in_flat_map in H. destruct H as (s2 & H1 & H).
  apply in_flat_map in H. destruct H as ([tm s3] & Hm & H).
  apply in_flat_map in H. destruct H as (s4 & H3 & H).
  apply in_flat_map in H. destruct H as ([td s5] & Hd & H).
  apply in_flat_map in H. destruct H as (s6 & H5 & H).
  apply in_flat_map in H. destruct H as ([tH s7] & HH & H).
  apply in_flat_map in H. destruct H as (s8 & H7 & H).
  apply in_map_iff in H. destruct H as ([tM s9] & [= <- <-] & HM).
  apply re_Y_sound in HY. destruct HY as (-> & HY).
  apply skip_chr_inv in H1. subst s1.
  apply re_m_sound in Hm. destruct Hm as (-> & Hm).
  apply skip_chr_inv in H3. subst s3.
  apply re_d_sound in Hd. destruct Hd as (-> & Hd).
  apply skip_blanks_inv in H5. destruct H5 as (w & -> & Hw).
  apply re_H_sound in HH. destruct HH as (-> & HH).
  apply skip_chr_inv in H7. subst s7.
  apply re_M_sound in HM. destruct HM as (-> & HM).
  exists w. cbn [g_Y g_m g_d g_H g_M].
  repeat split; try assumption; try apply HY; try apply Hm; try apply Hw;
    try apply HH; try apply HM.
Qed.

Import Aux.
Import TimestampSpec.
Local Open Scope string_scope.
Local Open Scope Z_scope.

(** * First matches of the timestamp format *)

Lemma format_regex_unfold (s : string) :
  format_regex s =
  then_chr re_Y "-" (fun tY =>
  then_chr re_m "-" (fun tm =>
  then_blanks re_d (fun td =>
  then_chr re_H ":" (fun tH s8 =>
    map (fun '(tM, s9) => (mkgroups tY tm td tH tM, s9)) (re_M s8))))) s.
Proof. reflexivity. Qed.

(** Splits on every test in the goal, simplifying between the splits. *)
Ltac split_tests :=
  repeat (cbn [flat_map map app fst snd String.append];
          match goal with
          | |- context [if ?b then _ else _] => destruct b eqn:?
          end);
  cbn [flat_map map app fst snd String.append].

Ltac absurd_tests := exfalso; codes; bools; lia.

Ltac text_cases t :=
  let c1 := fresh "c" in let c2 := fresh "c" in let c3 := fresh "c" in
  destruct t as [|c1 [|c2 [|c3 t]]]; cbn [String.length] in *; try lia;
  try discriminate.

Lemma one_or_two_cases (t : string) :
  one_or_two_digits t ->
  (exists c, t = String c "" /\ isdigit c = true) \/
  (exists c1 c2, t = String c1 (String c2 "") /\
                 isdigit c1 = true /\ isdigit c2 = true).
Proof.
  intros [Hd Hl]. unfold digits in Hd.
  destruct t as [|c1 [|c2 [|c3 t]]]; cbn in Hl, Hd.
  - destruct Hl; discriminate.
  - left. exists c1. rewrite andb_true_r in Hd. now split.
  - right. exists c1, c2. rewrite andb_true_r in Hd.
    apply andb_true_iff in Hd. now split.
  - destruct Hl; discriminate.
Qed.

Lemma month_then (X : Type) (F : string -> string -> list X) (t r : string) :
  month_text t ->
  then_chr re_m "-" F (t ++ "-" ++ r) = F t r.
Proof.
  intros [H12 Hv].
  destruct (one_or_two_cases t H12) as [(c & -> & Hc)|(c1 & c2 & -> & Hc1 & Hc2)];
    unfold digits_val in Hv; cbn [digits_val_from] in Hv;
    unfold then_chr, re_m, skip, chr, rng, cat, alt, cls;
    split_tests; rewrite ?app_nil_r; try reflexivity; absurd_tests.
Qed.

Lemma year_then (X : Type) (F : string -> string -> list X) (t r : string) :
  year_text t ->
  then_chr re_Y "-" F (t ++ "-" ++ r) = F t r.
Proof.
  intros [Hd Hl]. unfold digits in Hd.
  destruct t as [|c1 [|c2 [|c3 [|c4 [|c5 t]]]]]; try discriminate Hl.
  cbn [forallb_s] in Hd.
  unfold then_chr, re_Y, d_, skip, chr, cat, cls.
  split_tests; rewrite ?app_nil_r; try reflexivity;
    try (bools; congruence).
  all: absurd_tests.
Qed.

Lemma hour_then (X : Type) (F : string -> string -> list X) (t r : string) :
  hour_text t ->
  then_chr re_H ":" F (t ++ ":" ++ r) = F t r.
Proof.
  intros [H12 Hv].
  destruct (one_or_two_cases t H12) as [(c & -> & Hc)|(c1 & c2 & -> & Hc1 & Hc2)];
    unfold digits_val in Hv; cbn [digits_val_from] in Hv;
    unfold then_chr, re_H, d_, skip, chr, rng, cat, alt, cls;
    split_tests; rewrite ?app_nil_r; try reflexivity; absurd_tests.
Qed.

Lemma begins_app {X : Type} (x : X) (l l' : list X) :
  begins x l -> begins x (l ++ l').
Proof. intros [tl ->]. now exists (tl ++ l')%list. Qed.

Lemma minute_first (t : string) :
  minute_text t -> begins (t, "") (re_M t).
Proof.
  intros [H12 Hv].
  destruct (one_or_two_cases t H12) as [(c & -> & Hc)|(c1 & c2 & -> & Hc1 & Hc2)];
    unfold digits_val in Hv; cbn [digits_val_from] in Hv;
    unfold re_M, d_, rng, cat, alt, cls;
    split_tests; try (eexists; reflexivity); absurd_tests.
Qed.

(** The longest run of blanks is tried first. *)
Lemma blanks_first (w r : string) :
  blanks w ->
  match r with String c _ => isspace c = false | EmptyString => True end ->
  begins r (skip (plus_cls isspace) (w ++ r)).
Proof.
  intros [Hne Hall] Hr. unfold skip.
  induction w as [|c w IH]; [now elim Hne|].
  cbn in Hall. apply andb_true_iff in Hall. destruct Hall as [Hc Hall].
  cbn. rewrite Hc.
  destruct w as [|c' w'].
  - cbn. destruct r as [|c0 r0]; cbn; [now eexists|].
    rewrite Hr. cbn. now eexists.
  - destruct IH as [tl IH]; [discriminate|assumption|].
    rewrite map_app, map_map.
    apply begins_app.
    set (l := plus_cls isspace (String c' w' ++ r)) in *.
    replace (map (fun x => snd (let '(t, r') := x in (String c t, r'))) l)
      with (map snd l).
    + now exists tl.
    + apply map_ext. now intros [? ?].
Qed.

Lemma day_then (X : Type) (F : string -> string -> list X)
    (t w r : string) (x : X) :
  day_text t -> blanks w ->
  match r with String c _ => isspace c = false | EmptyString => True end ->
  begins x (F t r) ->
  begins x (then_blanks re_d F (t ++ w ++ r)).
Proof.
  intros Ht Hw Hr Hx.
  assert (Hfirst : begins (t, w ++ r) (re_d (t ++ w ++ r))).
  { destruct Hw as [Hne Hall].
    destruct w as [|b w]; [now elim Hne|].
    cbn in Hall. apply andb_true_iff in Hall. destruct Hall as [Hb _].
    destruct Ht as [[H12 Hv]|(c & -> & Hc)].
    - destruct (one_or_two_cases t H12)
        as [(c & -> & Hc)|(c1 & c2 & -> & Hc1 & Hc2)];
        unfold digits_val in Hv; cbn [digits_val_from] in Hv;
        unfold re_d, d_, chr, rng, cat, alt, cls;
        split_tests; try (eexists; reflexivity); absurd_tests.
    - unfold re_d, d_, chr, rng, cat, alt, cls;
        split_tests; try (eexists; reflexivity); absurd_tests. }
  destruct Hfirst as [tl1 E1].
  destruct (blanks_first w r Hw Hr) as [tl2 E2].
  unfold then_blanks. rewrite E1. cbn [flat_map]. rewrite E2. cbn [flat_map].
  rewrite <- app_assoc. now apply begins_app.
Qed.

Lemma append_empty_r (s : string) : s ++ "" = s.
Proof. induction s as [|c s IH]; cbn; [reflexivity|now rewrite IH]. Qed.

Lemma rstrip_digits (t : string) :
  digits t -> rstrip_by isspace t = t.
Proof.
  unfold digits. induction t as [|c t IH]; [reflexivity|].
  cbn. intros H. apply andb_true_iff in H. destruct H as [Hc Ht].
  rewrite (IH Ht).
  destruct t; [|reflexivity].
  destruct (isspace c) eqn:E; [|reflexivity].
  apply isspace_not_digit in E. congruence.
Qed.

Lemma strip_digits (t : string) : digits t -> strip t = t.
Proof.
  intros H. unfold strip.
  assert (Hl : lstrip_by isspace t = t).
  { destruct t as [|c t]; [reflexivity|]. cbn.
    unfold digits in H. cbn in H. apply andb_true_iff in H. destruct H as [Hc _].
    destruct (isspace c) eqn:E; [|reflexivity].
    apply isspace_not_digit in E. congruence. }
  rewrite Hl. now apply rstrip_digits.
Qed.

Lemma number_digits (t : string) : digits t -> number t = digits_val t.
Proof. intros H. unfold number. now rewrite strip_digits. Qed.

Lemma number_year (t : string) : year_text t -> 0 <= number t <= 9999.
Proof.
  intros [Hd Hl]. rewrite (number_digits t Hd).
  unfold digits in Hd.
  destruct t as [|c1 [|c2 [|c3 [|c4 [|c5 t]]]]]; try discriminate Hl.
  cbn [forallb_s] in Hd. unfold digits_val. cbn [digits_val_from].
  codes. bools. lia.
Qed.

Lemma number_day (t : string) : day_text t -> 1 <= number t.
Proof.
  intros [[[Hd _] Hv]|(c & -> & Hc)].
  - rewrite (number_digits t Hd). lia.
  - unfold number, strip. cbn [lstrip_by].
    change (isspace " ") with true. cbn iota.
    assert (Hsp : isspace c = false) by (codes; bools;
      destruct (9 <=? code c) eqn:?, (code c <=? 13) eqn:?,
        (28 <=? code c) eqn:?, (code c <=? 32) eqn:?; try reflexivity;
      bools; lia).
    cbn. rewrite Hsp. cbn. rewrite Hsp.
    unfold digits_val. cbn. codes. bools. lia.
Qed.

Lemma first_is_digit (t r : string) :
  one_or_two_digits t ->
  match t ++ r with String c _ => isspace c = false | EmptyString => True end.
Proof.
  intros H.
  destruct (one_or_two_cases t H) as [(c & -> & Hc)|(c1 & c2 & -> & Hc1 & _)];
    cbn.
  - destruct (isspace c) eqn:E; [|reflexivity].
    apply isspace_not_digit in E. congruence.
  - destruct (isspace c1) eqn:E; [|reflexivity].
    apply isspace_not_digit in E. congruence.
Qed.

(** The texts of the lenient format are what [strptime] reads. *)
Lemma strptime_lenient (s : string) (dt : datetime) :
  strptime s = Ok dt <-> lenient s dt.
Proof.
  split.
  - unfold strptime.
    destruct (format_regex s) as [|[g rest] tl] eqn:E; [discriminate|].
    destruct rest; cbn [truthy]; [|discriminate].
    destruct (valid_date _ _ _) eqn:V; [|discriminate].
    intros [= <-].
    assert (Hin : In (g, "") (format_regex s)) by (rewrite E; now left).
    apply format_regex_sound in Hin.
    destruct Hin as (w & Hs & HY & Hm & Hd & Hw & HH & HM).
    rewrite append_empty_r in Hs.
    exists (g_Y g), (g_m g), (g_d g), w, (g_H g), (g_M g).
    unfold valid_date in V. bools.
    repeat split; try assumption; try apply HY; try apply Hm; try apply Hw;
      try apply HH; try apply HM.
  - intros (tY & tm & td & w & tH & tM & -> & HY & Hm & Hd & Hw & HH & HM
            & Hy1 & Hdim & ->).
    assert (Hb : begins (mkgroups tY tm td tH tM, "")
                   (format_regex
                      (tY ++ "-" ++ tm ++ "-" ++ td ++ w ++ tH ++ ":" ++ tM))).
    { rewrite format_regex_unfold.
      rewrite (year_then _ _ _ _ HY), (month_then _ _ _ _ Hm).
      apply day_then; try assumption.
      - apply first_is_digit, HH.
      - rewrite (hour_then _ _ _ _ HH).
        destruct (minute_first tM HM) as [tl ->]. cbn. now eexists. }
    destruct Hb as [tl E]. unfold strptime. rewrite E. cbn [truthy g_Y g_m g_d g_H g_M].
    fold (number tY) (number tm) (number td) (number tH) (number tM).
    assert (V : valid_date (number tY) (number tm) (number td) = true).
    { unfold valid_date.
      pose proof (number_year tY HY). pose proof (number_day td Hd).
      destruct Hm as [[Hmd _] Hmv]. rewrite (number_digits tm Hmd) in *.
      repeat (apply andb_true_iff; split); apply Z.leb_le; lia. }
    unfold int_of_group. fold (number tY) (number tm) (number td) (number tH) (number tM).
    now rewrite V.
Qed.

Import Aux.
Import PriceSpec.
Local Open Scope string_scope.
Local Open Scope Z_scope.

(** * The texts [float] reads *)

Lemma forallb_s_app (p : ascii -> bool) (a b : string) :
  forallb_s p (a ++ b) = forallb_s p a && forallb_s p b.
Proof.
  induction a as [|c a IH]; cbn; [reflexivity|].
  now rewrite IH, andb_assoc.
Qed.

Lemma append_assoc (a b c : string) : (a ++ b) ++ c = a ++ b ++ c.
Proof. induction a as [|x a IH]; cbn; [reflexivity|now rewrite IH]. Qed.

Section Span.

Variable p : ascii -> bool.

Lemma span_spec (s a b : string) :
  span p s = (a, b) ->
  s = a ++ b /\ forallb_s p a = true /\ stops p b.
Proof.
  revert a b. induction s as [|c s IH]; intros a b; cbn.
  - intros [= <- <-]. now repeat split.
  - destruct (p c) eqn:E.
    + destruct (span p s) as [a' b'].
      intros [= <- <-].
      destruct (IH a' b' eq_refl) as (-> & Ha & Hb).
      cbn. rewrite E, Ha. now repeat split.
    + intros [= <- <-]. cbn. now repeat split.
Qed.

Lemma span_complete (a b : string) :
  forallb_s p a = true -> stops p b -> span p (a ++ b) = (a, b).
Proof.
  intros Ha Hb. induction a as [|c a IH]; cbn.
  - destruct b as [|c b]; [reflexivity|]. cbn in Hb. cbn. now rewrite Hb.
  - cbn in Ha. apply andb_true_iff in Ha. destruct Ha as [Hc Ha].
    now rewrite Hc, (IH Ha).
Qed.

Lemma span_all (a : string) :
  forallb_s p a = true -> span p a = (a, "").
Proof.
  intros Ha. rewrite <- (append_empty_r a) at 1.
  now apply span_complete.
Qed.

End Span.

Lemma take_sign_spec (s r : string) (neg : bool) :
  take_sign s = (neg, r) -> exists sg, s = sg ++ r /\ is_sign sg.
Proof.
  unfold take_sign, is_sign. destruct s as [|c s'].
  - intros [= <- <-]. exists "". auto.
  - destruct (Ascii.eqb_spec c "-") as [->|].
    + intros [= <- <-]. exists "-". auto.
    + destruct (Ascii.eqb_spec c "+") as [->|].
      * intros [= <- <-]. exists "+". auto.
      * intros [= <- <-]. exists "". auto.
Qed.

(** After a sign, a text that does not begin with a sign is read
    untouched. *)
Lemma take_sign_complete (sg r : string) :
  is_sign sg ->
  match r with
  | String c _ => c <> "-"%char /\ c <> "+"%char
  | EmptyString => True
  end ->
  exists neg, take_sign (sg ++ r) = (neg, r).
Proof.
  intros [-> | [-> | ->]] Hr; cbn; try (now eexists).
  destruct r as [|c r]; [now eexists|].
  destruct Hr as [H1 H2].
  apply Ascii.eqb_neq in H1, H2. unfold take_sign. rewrite H1, H2. now eexists.
Qed.

Lemma digit_not_sign (c : ascii) :
  isdigit c = true -> c <> "-"%char /\ c <> "+"%char.
Proof.
  intros H. split; intros ->; discriminate H.
Qed.

Lemma digit_run_first (t r : string) :
  digit_run t -> exists c t', t = String c t' /\ isdigit c = true.
Proof.
  intros [Hne Hall]. destruct t as [|c t]; [now elim Hne|].
  cbn in Hall. apply andb_true_iff in Hall. now exists c, t.
Qed.

Lemma read_exponent_sound (s : string) (e : Z) :
  read_exponent s = (e, "") -> exponent s.
Proof.
  unfold read_exponent, exponent. destruct s as [|c s]; [now left|].
  destruct (Ascii.eqb c "e" || Ascii.eqb c "E") eqn:Ec; [|discriminate].
  destruct (take_sign s) as [eneg r1] eqn:Es.
  destruct (span isdigit r1) as [ds r2] eqn:Ed.
  destruct ds as [|d ds]; [discriminate|].
  intros [= _ ->].
  apply take_sign_spec in Es. destruct Es as (sg & -> & Hsg).
  apply span_spec in Ed. destruct Ed as (-> & Hall & _).
  right. exists c, sg, (String d ds).
  rewrite append_empty_r. repeat split; try assumption; try discriminate.
  apply orb_true_iff in Ec.
  destruct Ec as [E|E]; apply Ascii.eqb_eq in E; auto.
Qed.

Lemma read_exponent_complete (s : string) :
  exponent s -> exists e, read_exponent s = (e, "").
Proof.
  intros [-> | (c & sg & ds & -> & Hc & Hsg & Hds)]; [now exists 0|].
  unfold read_exponent.
  assert (Ec : Ascii.eqb c "e" || Ascii.eqb c "E" = true)
    by (destruct Hc as [-> | ->]; reflexivity).
  rewrite Ec.
  destruct (digit_run_first ds "" Hds) as (d & ds' & -> & Hd).
  destruct (take_sign_complete sg (String d ds') Hsg) as [neg ->].
  { now apply digit_not_sign. }
  destruct Hds as [_ Hall].
  rewrite (span_all isdigit _ Hall). now eexists.
Qed.

Lemma exponent_stops (ex : string) : exponent ex -> stops isdigit ex.
Proof.
  intros [-> | (c & sg & ds & -> & Hc & _)]; cbn; [exact I|].
  destruct Hc as [-> | ->]; reflexivity.
Qed.

Lemma exponent_no_point (ex : string) :
  exponent ex ->
  match ex with String c _ => Ascii.eqb c "." = false | EmptyString => True end.
Proof.
  intros [-> | (c & sg & ds & -> & Hc & _)]; cbn; [exact I|].
  destruct Hc as [-> | ->]; reflexivity.
Qed.

Lemma truthy_false (s : string) : truthy s = false -> s = "".
Proof. destruct s; [reflexivity|discriminate]. Qed.

Lemma strtod_sound (body : string) (x : float) :
  strtod body = Some (x, "") -> decimal_literal body.
Proof.
  unfold strtod.
  destruct (take_sign body) as [neg s1] eqn:Es.
  destruct (span isdigit s1) as [ip s2] eqn:Ei.
  apply take_sign_spec in Es. destruct Es as (sg & -> & Hsg).
  apply span_spec in Ei. destruct Ei as (-> & Hip & Hstop).
  destruct s2 as [|c r].
  - (* no point, nothing after the digits *)
    destruct (negb (truthy ip) && negb (truthy "")) eqn:Eb; [discriminate|].
    destruct (read_exponent "") as [e s4] eqn:Ee. intros [= _ ->].
    exists sg, ip, "". repeat split; try assumption; [|now left].
    left. split; [|assumption].
    destruct ip; [discriminate Eb|discriminate].
  - destruct (Ascii.eqb_spec c ".") as [->|Hc].
    + destruct (span isdigit r) as [fp s3] eqn:Ef.
      apply span_spec in Ef. destruct Ef as (-> & Hfp & _).
      destruct (negb (truthy ip) && negb (truthy fp)) eqn:Eb; [discriminate|].
      destruct (read_exponent s3) as [e s4] eqn:Ee. intros [= _ ->].
      apply read_exponent_sound in Ee.
      exists sg, (ip ++ "." ++ fp), s3.
      split; [now rewrite !append_assoc|].
      repeat split; try assumption.
      right. exists ip, fp. repeat split; try assumption.
      destruct ip; [right|left]; try discriminate.
      destruct fp; [discriminate Eb|discriminate].
    + destruct (negb (truthy ip) && negb (truthy "")) eqn:Eb; [discriminate|].
      destruct (read_exponent (String c r)) as [e s4] eqn:Ee. intros [= _ ->].
      apply read_exponent_sound in Ee.
      exists sg, ip, (String c r). repeat split; try assumption.
      left. split; [|assumption].
      destruct ip; [discriminate Eb|discriminate].
Qed.

Lemma mantissa_first (m r : string) :
  mantissa m ->
  match m ++ r with
  | String c _ => c <> "-"%char /\ c <> "+"%char
  | EmptyString => True
  end.
Proof.
  intros [Hd|(ip & fp & -> & Hip & Hfp & Hne)].
  - destruct (digit_run_first m r Hd) as (c & t & -> & Hc).
    cbn. now apply digit_not_sign.
  - destruct ip as [|c ip]; cbn.
    + split; discriminate.
    + unfold all_digits in Hip. cbn in Hip.
      apply andb_true_iff in Hip. now apply digit_not_sign.
Qed.

Lemma strtod_complete (body : string) :
  decimal_literal body -> exists x, strtod body = Some (x, "").
Proof.
  intros (sg & m & ex & -> & Hsg & Hm & Hex).
  unfold strtod.
  destruct (take_sign_complete sg (m ++ ex) Hsg (mantissa_first m ex Hm))
    as [neg ->].
  destruct (read_exponent_complete ex Hex) as [e He].
  destruct Hm as [[Hne Hall]|(ip & fp & -> & Hip & Hfp & Hne)].
  - rewrite (span_complete isdigit m ex Hall (exponent_stops ex Hex)).
    assert (Hp : match ex with
                 | String c r =>
                     if Ascii.eqb c "." then span isdigit r else ("", ex)
                 | "" => ("", ex)
                 end = ("", ex)).
    { pose proof (exponent_no_point ex Hex) as Hn.
      destruct ex as [|c r]; [reflexivity|]. now rewrite Hn. }
    rewrite Hp.
    destruct m; [now elim Hne|]. cbn [truthy negb andb].
    rewrite He. now eexists.
  - rewrite !append_assoc.
    rewrite (span_complete isdigit ip ("." ++ fp ++ ex) Hip) by reflexivity.
    cbn [String.append]. change (Ascii.eqb "." ".") with true. cbn iota.
    rewrite (span_complete isdigit fp ex Hfp (exponent_stops ex Hex)).
    assert (Hb : negb (truthy ip) && negb (truthy fp) = false).
    { destruct Hne as [H|H]; [destruct ip|destruct fp];
        try (now elim H); cbn; now rewrite ?andb_false_r. }
    rewrite Hb, He. now eexists.
Qed.

Import Aux.
Import PriceSpec.
Local Open Scope string_scope.
Local Open Scope Z_scope.

(** ** Infinities and NaN *)

Lemma code_tolower (c : ascii) :
  code (tolower c) = if isupper_c c then code c + 32 else code c.
Proof.
  unfold tolower. destruct (isupper_c c) eqn:E; [|reflexivity].
  unfold code. rewrite N_ascii_embedding.
  - lia.
  - codes. unfold code in E. bools. lia.
Qed.

Lemma lowercase_app (a b : string) :
  lowercase (a ++ b) = lowercase a ++ lowercase b.
Proof. induction a as [|c a IH]; cbn; [reflexivity|now rewrite IH]. Qed.

Lemma ci_match_sound (t s r : string) :
  ci_match t s = Some r -> exists w, s = w ++ r /\ lowercase w = t.
Proof.
  revert s. induction t as [|a t IH]; intros s; cbn.
  - intros [= <-]. now exists "".
  - destruct s as [|c s]; [discriminate|].
    destruct (Ascii.eqb_spec (tolower c) a) as [<-|]; [|discriminate].
    intros H. destruct (IH s H) as (w & -> & <-).
    now exists (String c w).
Qed.

Lemma ci_match_complete (w r : string) :
  ci_match (lowercase w) (w ++ r) = Some r.
Proof.
  induction w as [|c w IH]; cbn; [reflexivity|].
  now rewrite Ascii.eqb_refl.
Qed.

Lemma parse_inf_or_nan_sound (body : string) (x : float) :
  parse_inf_or_nan body = Some (x, "") -> special_literal body.
Proof.
  unfold parse_inf_or_nan.
  destruct (take_sign body) as [neg s1] eqn:Es.
  apply take_sign_spec in Es. destruct Es as (sg & -> & Hsg).
  destruct (ci_match "inf" s1) as [s2|] eqn:E1.
  - apply ci_match_sound in E1. destruct E1 as (w & -> & Hw).
    destruct (ci_match "inity" s2) as [s3|] eqn:E2.
    + intros [= _ ->].
      apply ci_match_sound in E2. destruct E2 as (w' & -> & Hw').
      exists sg, (w ++ w'). rewrite append_empty_r.
      repeat split; try assumption.
      right. left. now rewrite lowercase_app, Hw, Hw'.
    + intros [= _ ->].
      exists sg, w. rewrite append_empty_r. repeat split; auto.
  - destruct (ci_match "nan" s1) as [s2|] eqn:E2; [|discriminate].
    intros [= _ ->].
    apply ci_match_sound in E2. destruct E2 as (w & -> & Hw).
    exists sg, w. rewrite append_empty_r. repeat split; auto.
Qed.

(** A letter is no sign, no digit, no point and no blank. *)
Lemma letter_facts (c : ascii) :
  97 <= code (tolower c) <= 122 ->
  (c <> "-"%char /\ c <> "+"%char) /\ isdigit c = false /\
  Ascii.eqb c "." = false /\ c_isspace c = false.
Proof.
  rewrite code_tolower. intros H.
  assert (Hc : 65 <= code c) by (destruct (isupper_c c) eqn:E; codes; bools; lia).
  repeat split.
  - intros ->. cbn in Hc. lia.
  - intros ->. cbn in Hc. lia.
  - codes. destruct (48 <=? code c) eqn:?, (code c <=? 57) eqn:?;
      try reflexivity; bools; lia.
  - codes. apply Z.eqb_neq. lia.
  - codes. destruct (9 <=? code c) eqn:?, (code c <=? 13) eqn:?,
      (code c =? 32) eqn:?; try reflexivity; bools; lia.
Qed.

Lemma special_word (word : string) :
  lowercase word = "inf" \/ lowercase word = "infinity" \/ lowercase word = "nan" ->
  exists c w, word = String c w /\ 97 <= code (tolower c) <= 122.
Proof.
  destruct word as [|c w]; [intros [H|[H|H]]; discriminate H|].
  intros H. exists c, w. split; [reflexivity|].
  cbn in H. destruct H as [H|[H|H]]; injection H as -> _; cbn; lia.
Qed.

Lemma strtod_special (body : string) :
  special_literal body -> strtod body = None.
Proof.
  intros (sg & word & -> & Hsg & Hw).
  destruct (special_word word Hw) as (c & w & -> & Hc).
  destruct (letter_facts c Hc) as (Hs & Hd & Hp & _).
  unfold strtod.
  destruct (take_sign_complete sg (String c w) Hsg Hs) as [neg ->].
  cbn [span]. rewrite Hd, Hp. reflexivity.
Qed.

Lemma parse_inf_or_nan_complete (body : string) :
  special_literal body -> exists x, parse_inf_or_nan body = Some (x, "").
Proof.
  intros (sg & word & -> & Hsg & Hw).
  destruct (special_word word Hw) as (c & w & Ew & Hc).
  destruct (letter_facts c Hc) as (Hs & _).
  unfold parse_inf_or_nan.
  destruct (take_sign_complete sg word Hsg) as [neg ->].
  { now rewrite Ew. }
  clear Ew Hc Hs c w.
  destruct Hw as [H|[H|H]].
  - assert (E : ci_match "inf" word = Some "").
    { rewrite <- H. rewrite <- (append_empty_r word) at 2.
      apply ci_match_complete. }
    rewrite E. cbn. now eexists.
  - destruct word as [|c1 [|c2 [|c3 w5]]]; try discriminate H.
    cbn in H. injection H as H1 H2 H3 H5.
    assert (E : ci_match "inity" w5 = Some "").
    { rewrite <- H5. rewrite <- (append_empty_r w5) at 2.
      apply ci_match_complete. }
    change (ci_match "inf" (String c1 (String c2 (String c3 w5))))
      with (if Ascii.eqb (tolower c1) "i" then
              if Ascii.eqb (tolower c2) "n" then
                if Ascii.eqb (tolower c3) "f" then Some w5 else None
              else None
            else None).
    rewrite H1, H2, H3, !Ascii.eqb_refl, E. now eexists.
  - destruct word as [|c1 [|c2 [|c3 [|c4 w]]]]; try discriminate H.
    cbn in H. injection H as H1 H2 H3.
    assert (E1 : ci_match "inf" (String c1 (String c2 (String c3 ""))) = None).
    { cbn [ci_match]. now rewrite H1. }
    assert (E2 : ci_match "nan" (String c1 (String c2 (String c3 ""))) = Some "").
    { cbn [ci_match]. now rewrite H1, H2, H3, !Ascii.eqb_refl. }
    rewrite E1, E2. now eexists.
Qed.

(** ** Blanks around the literal *)

Section Strip.

Variable p : ascii -> bool.

Lemma lstrip_by_spec (s : string) :
  exists w, s = w ++ lstrip_by p s /\ forallb_s p w = true.
Proof.
  induction s as [|c s (w & E & Hw)]; cbn.
  - now exists "".
  - destruct (p c) eqn:Ec.
    + exists (String c w). cbn. rewrite Ec, Hw. split; [now f_equal|reflexivity].
    + now exists "".
Qed.

Lemma lstrip_by_blanks (w r : string) :
  forallb_s p w = true -> stops p r -> lstrip_by p (w ++ r) = r.
Proof.
  intros Hw Hr. induction w as [|c w IH]; cbn.
  - destruct r as [|c r]; [reflexivity|]. cbn in Hr. cbn. now rewrite Hr.
  - cbn in Hw. apply andb_true_iff in Hw. destruct Hw as [Hc Hw].
    rewrite Hc. now apply IH.
Qed.

Lemma rstrip_by_spec (s : string) :
  exists w, s = rstrip_by p s ++ w /\ forallb_s p w = true.
Proof.
  induction s as [|c s (w & E & Hw)]; cbn.
  - now exists "".
  - destruct (rstrip_by p s) as [|c' r'] eqn:Er.
    + destruct (p c) eqn:Ec.
      * exists (String c w). cbn in E. cbn. rewrite Ec, Hw.
        split; [now f_equal|reflexivity].
      * exists w. cbn in E. cbn. split; [now f_equal|assumption].
    + exists w. cbn. split; [now rewrite E|assumption].
Qed.

Lemma rstrip_by_all (w : string) :
  forallb_s p w = true -> rstrip_by p w = "".
Proof.
  induction w as [|c w IH]; cbn; [reflexivity|].
  intros H. apply andb_true_iff in H. destruct H as [Hc Hw].
  now rewrite (IH Hw), Hc.
Qed.

Lemma rstrip_by_blanks (b w : string) :
  forallb_s p w = true -> rstrip_by p (b ++ w) = rstrip_by p b.
Proof.
  intros Hw. induction b as [|c b IH]; cbn.
  - now apply rstrip_by_all.
  - now rewrite IH.
Qed.

Lemma rstrip_by_end (b : string) (c : ascii) :
  p c = false -> rstrip_by p (b ++ String c "") = b ++ String c "".
Proof.
  intros Hc. induction b as [|a b IH]; cbn.
  - now rewrite Hc.
  - rewrite IH. destruct b; reflexivity.
Qed.

End Strip.

Lemma ends_in_app (p : ascii -> bool) (a t : string) :
  ends_in p t -> ends_in p (a ++ t).
Proof.
  intros (b & c & -> & Hc). exists (a ++ b), c.
  now rewrite append_assoc.
Qed.

Lemma ends_in_all (p : ascii -> bool) (t : string) :
  t <> "" -> forallb_s p t = true -> ends_in p t.
Proof.
  induction t as [|c t IH]; [now intros H|].
  intros _ H. cbn in H. apply andb_true_iff in H. destruct H as [Hc Ht].
  destruct t as [|c' t'].
  - now exists "", c.
  - apply (ends_in_app p (String c "")). apply IH; [discriminate|assumption].
Qed.

Lemma ends_in_weaken (p q : ascii -> bool) (t : string) :
  (forall c, p c = true -> q c = true) -> ends_in p t -> ends_in q t.
Proof. intros H (b & c & -> & Hc). exists b, c. auto. Qed.

Lemma digit_nonblank (c : ascii) : isdigit c = true -> nonblank c = true.
Proof.
  unfold nonblank. codes. intros H. bools. apply negb_true_iff.
  destruct (9 <=? code c) eqn:?, (code c <=? 13) eqn:?, (code c =? 32) eqn:?;
    try reflexivity; bools; lia.
Qed.

Lemma is_sign_nonblank (sg : string) :
  is_sign sg -> forallb_s nonblank sg = true.
Proof. intros [-> | [-> | ->]]; reflexivity. Qed.

Lemma digit_run_ends (t : string) : digit_run t -> ends_in nonblank t.
Proof.
  intros [Hne Hall].
  apply (ends_in_weaken isdigit); [apply digit_nonblank|].
  now apply ends_in_all.
Qed.

Lemma mantissa_ends (m : string) : mantissa m -> ends_in nonblank m.
Proof.
  intros [Hd|(ip & fp & -> & Hip & Hfp & Hne)].
  - now apply digit_run_ends.
  - apply ends_in_app.
    destruct fp as [|c fp].
    + now exists "", "."%char.
    + apply (ends_in_app nonblank "."). apply digit_run_ends.
      split; [discriminate|assumption].
Qed.

Lemma decimal_literal_ends (body : string) :
  decimal_literal body -> ends_in nonblank body.
Proof.
  intros (sg & m & ex & -> & Hsg & Hm & Hex).
  apply ends_in_app.
  destruct Hex as [-> | (c & sg' & ds & -> & Hc & Hsg' & Hds)].
  - rewrite append_empty_r. now apply mantissa_ends.
  - apply ends_in_app. apply (ends_in_app nonblank (String c "")).
    apply ends_in_app. now apply digit_run_ends.
Qed.

Lemma lowercase_letters (word target : string) :
  lowercase word = target ->
  forallb_s (fun c => (97 <=? code c) && (code c <=? 122)) target = true ->
  forallb_s nonblank word = true.
Proof.
  revert target. induction word as [|c w IH]; intros target; [reflexivity|].
  cbn. intros <-. cbn. intros H.
  apply andb_true_iff in H. destruct H as [Hc Hw].
  rewrite (IH _ eq_refl Hw), andb_true_r.
  bools. destruct (letter_facts c (conj H H0)) as (_ & _ & _ & Hb).
  unfold nonblank. now rewrite Hb.
Qed.

Lemma special_literal_ends (body : string) :
  special_literal body -> ends_in nonblank body.
Proof.
  intros (sg & word & -> & Hsg & Hw).
  apply ends_in_app. apply ends_in_all.
  - destruct word; [destruct Hw as [H|[H|H]]; discriminate H|discriminate].
  - destruct Hw as [H|[H|H]];
      apply (lowercase_letters _ _ H); reflexivity.
Qed.

Lemma literal_begins (body : string) :
  decimal_literal body \/ special_literal body ->
  exists c r, body = String c r /\ c_isspace c = false.
Proof.
  intros [(sg & m & ex & -> & Hsg & Hm & Hex)|(sg & word & -> & Hsg & Hw)].
  - destruct Hsg as [-> | [-> | ->]]; try (eexists; eexists; split; reflexivity).
    cbn [String.append].
    destruct Hm as [Hd|(ip & fp & -> & Hip & Hfp & Hne)].
    + destruct (digit_run_first m "" Hd) as (c & t & -> & Hc).
      exists c, (t ++ ex). split; [reflexivity|].
      apply digit_nonblank in Hc. unfold nonblank in Hc.
      now apply negb_true_iff in Hc.
    + destruct ip as [|c ip].
      * eexists; eexists; split; reflexivity.
      * unfold all_digits in Hip. cbn in Hip.
        apply andb_true_iff in Hip. destruct Hip as [Hc _].
        eexists; eexists; split; [reflexivity|].
        apply digit_nonblank in Hc. unfold nonblank in Hc.
        now apply negb_true_iff in Hc.
  - destruct Hsg as [-> | [-> | ->]]; try (eexists; eexists; split; reflexivity).
    cbn [String.append].
    destruct (special_word word Hw) as (c & w & -> & Hc).
    exists c, w. split; [reflexivity|].
    now destruct (letter_facts c Hc) as (_ & _ & _ & Hb).
Qed.

Import Aux.
Import PriceSpec.
Local Open Scope string_scope.
Local Open Scope Z_scope.

(** ** Underscores *)

Lemma split_cons (a b : ascii) (x l r : string) :
  String a x = l ++ String b r ->
  (l = "" /\ a = b /\ x = r) \/
  (exists l1, l = String a l1 /\ x = l1 ++ String b r).
Proof.
  destruct l as [|a' l1]; cbn.
  - intros [= -> ->]. now left.
  - intros [= -> ->]. right. now exists l1.
Qed.

Lemma underscores_after_nil (prev : ascii) :
  underscores_after prev "" <-> prev <> "_"%char.
Proof.
  split.
  - intros H ->. destruct (H "" "" eq_refl) as (_ & c & r' & E & _).
    discriminate E.
  - intros Hne l r E.
    apply split_cons in E. destruct E as [(_ & E & _)|(l1 & _ & E)].
    + now elim Hne.
    + destruct l1; discriminate E.
Qed.

Lemma underscores_after_cons (prev c : ascii) (s : string) :
  underscores_after prev (String c s) <->
  (c = "_"%char -> isdigit prev = true) /\
  (prev = "_"%char -> isdigit c = true) /\
  underscores_after c s.
Proof.
  split.
  - intros H. split; [|split].
    + intros ->.
      destruct (H (String prev "") s eq_refl) as (Hl & _).
      destruct Hl as (l' & c & E & Hc); [discriminate|].
      destruct l' as [|a l'].
      * cbn in E. injection E as ->. assumption.
      * cbn in E. injection E as _ E. destruct l'; discriminate E.
    + intros ->.
      destruct (H "" (String c s) eq_refl) as (_ & c' & r' & [= <- <-] & Hc).
      assumption.
    + intros l r E.
      destruct (H (String prev l) r) as (Hl & Hr).
      { cbn. now rewrite E. }
      split; [|assumption].
      intros Hne. destruct Hl as (l' & d & E' & Hd); [discriminate|].
      destruct l' as [|a l'].
      * cbn in E'. injection E' as _ E'. now elim Hne.
      * cbn in E'. injection E' as _ E'. now exists l', d.
  - intros (H1 & H2 & H3) l r E.
    apply split_cons in E. destruct E as [(-> & -> & <-)|(l1 & -> & E)].
    + split; [now intros Hne|].
      exists c, s. split; [reflexivity|now apply H2].
    + apply split_cons in E. destruct E as [(-> & -> & <-)|(l2 & -> & E)].
      * split.
        -- intros _. exists "", prev. split; [reflexivity|now apply H1].
        -- destruct (H3 "" s eq_refl) as (_ & Hr). assumption.
      * destruct (H3 (String c l2) r) as (Hl & Hr).
        { cbn. now rewrite E. }
        split; [|assumption].
        intros _. destruct Hl as (l' & d & E' & Hd); [discriminate|].
        exists (String prev l'), d. cbn. now rewrite E'.
Qed.

Lemma drop_underscores_spec (s : string) (prev : ascii) (t : string) :
  drop_underscores prev s = Some t <->
  underscores_after prev s /\ t = without_underscores s.
Proof.
  revert prev t. induction s as [|c s IH]; intros prev t; cbn.
  - rewrite underscores_after_nil.
    destruct (Ascii.eqb_spec prev "_") as [->|Hne].
    + split; [discriminate|]. intros [H _]. now elim H.
    + split; [intros [= <-]; now split|]. now intros [_ ->].
  - rewrite underscores_after_cons.
    destruct (Ascii.eqb_spec c "_") as [->|Hc].
    + destruct (isdigit prev) eqn:Ep.
      * rewrite IH. split.
        -- intros [H ->]. split; [|reflexivity].
           split; [now intros _|]. split; [|assumption].
           intros ->. discriminate Ep.
        -- intros [(_ & _ & H) ->]. now split.
      * split; [discriminate|]. intros [(H & _) _].
        specialize (H eq_refl). discriminate H.
    + destruct (Ascii.eqb_spec prev "_") as [->|Hp]; cbn [andb].
      * destruct (isdigit c) eqn:Ed; cbn [negb].
        -- destruct (drop_underscores c s) as [t'|] eqn:Et; cbn.
           ++ apply IH in Et. destruct Et as [H ->]. split.
              ** intros [= <-]. split; [|reflexivity].
                 split; [now intros ->|]. split; [now intros _|assumption].
              ** now intros [_ ->].
           ++ split; [discriminate|]. intros [(_ & _ & H) ->].
              assert (Hs : drop_underscores c s = Some (without_underscores s))
                by now apply IH.
              congruence.
        -- split; [discriminate|]. intros [(_ & H & _) _].
           specialize (H eq_refl). discriminate H.
      * destruct (drop_underscores c s) as [t'|] eqn:Et; cbn.
        -- apply IH in Et. destruct Et as [H ->]. split.
           ++ intros [= <-]. split; [|reflexivity].
              split; [now intros ->|]. split; [now intros ->|assumption].
           ++ now intros [_ ->].
        -- split; [discriminate|]. intros [(_ & _ & H) ->].
           assert (Hs : drop_underscores c s = Some (without_underscores s))
             by now apply IH.
           congruence.
Qed.

Lemma underscores_after_start (s : string) :
  underscores_after "000" s <-> underscores_between_digits s.
Proof.
  split.
  - intros H l r ->.
    destruct (H (String "000" l) r eq_refl) as (Hl & Hr).
    split; [|assumption].
    destruct Hl as (l' & c & E & Hc); [discriminate|].
    destruct l' as [|a l'].
    + cbn in E. injection E as <- _. discriminate Hc.
    + cbn in E. injection E as _ ->. now exists l', c.
  - intros H l r E.
    apply split_cons in E. destruct E as [(_ & E & _)|(l1 & -> & ->)];
      [discriminate E|].
    destruct (H l1 r eq_refl) as ((l' & c & -> & Hc) & Hr).
    split; [|assumption].
    intros _. now exists (String "000" l'), c.
Qed.

(** ** The whole of [float] on a text *)

Lemma float_of_stripped_literal (body : string) :
  (exists x, float_of_stripped body = Some x) <->
  decimal_literal body \/ special_literal body.
Proof.
  unfold float_of_stripped. split.
  - intros [x H].
    destruct (strtod body) as [[y r]|] eqn:E.
    + destruct r; [|discriminate]. left. now apply (strtod_sound body y).
    + destruct (parse_inf_or_nan body) as [[y r]|] eqn:E'; [|discriminate].
      destruct r; [|discriminate]. right.
      now apply (parse_inf_or_nan_sound body y).
  - intros [H|H].
    + destruct (strtod_complete body H) as [x ->]. now exists x.
    + rewrite (strtod_special body H).
      destruct (parse_inf_or_nan_complete body H) as [x ->]. now exists x.
Qed.

Lemma float_of_string_text (s : string) :
  (exists x, float_of_string s = Some x) <-> float_text s.
Proof.
  unfold float_of_string, float_text. split.
  - intros [x H].
    destruct (drop_underscores "000" s) as [s'|] eqn:Eu; [|discriminate].
    apply drop_underscores_spec in Eu. destruct Eu as [Hu ->].
    apply underscores_after_start in Hu. split; [assumption|].
    destruct (lstrip_by_spec c_isspace (without_underscores s)) as (w1 & E1 & H1).
    destruct (lstrip_by c_isspace (without_underscores s)) as [|c s1] eqn:El;
      [discriminate|].
    destruct (rstrip_by_spec c_isspace (String c s1)) as (w2 & E2 & H2).
    exists w1, (rstrip_by c_isspace (String c s1)), w2.
    repeat split; try assumption.
    + now rewrite <- E2.
    + apply float_of_stripped_literal. now exists x.
  - intros (Hu & w1 & body & w2 & E & H1 & H2 & Hb).
    apply underscores_after_start in Hu.
    assert (Eu : drop_underscores "000" s = Some (without_underscores s))
      by now apply drop_underscores_spec.
    rewrite Eu, E.
    destruct (literal_begins body Hb) as (c & r & -> & Hc).
    rewrite (lstrip_by_blanks c_isspace w1 (String c r ++ w2) H1) by exact Hc.
    cbn [String.append].
    assert (Er : rstrip_by c_isspace (String c (r ++ w2)) = String c r).
    { change (String c (r ++ w2)) with (String c r ++ w2).
      rewrite (rstrip_by_blanks c_isspace _ _ H2).
      assert (He : ends_in nonblank (String c r))
        by (destruct Hb; [now apply decimal_literal_ends
                         |now apply special_literal_ends]).
      destruct He as (b & d & -> & Hd).
      apply rstrip_by_end. unfold nonblank in Hd.
      now apply negb_true_iff in Hd. }
    rewrite Er. now apply float_of_stripped_literal.
Qed.

Import Aux.
Local Open Scope string_scope.
Local Open Scope Z_scope.

(** * The two parsing validators *)

Lemma strptime_value_error (s : string) (e : exn) :
  strptime s = Raise e -> e = ValueError.
Proof.
  unfold strptime.
  destruct (format_regex s) as [|[g rest] tl]; [now intros [= <-]|].
  destruct (truthy rest); [now intros [= <-]|].
  destruct (valid_date _ _ _); [discriminate|now intros [= <-]].
Qed.

(** C7, the claim as written fails: a text with one-digit fields is not
    in the strict format and is read all the same. *)
Lemma parse_datetime_reads_short_fields :
  TimestampSpec.strict "2024-5-1 9:5" = false /\
  parse_datetime (PStr "2024-5-1 9:5") = Ok (Some (mkdt 2024 5 1 9 5)).
Proof. split; vm_compute; reflexivity. Qed.

(** C7, as amended: on a text of ASCII characters, [parse_datetime]
    never raises; it returns a timestamp exactly for the texts of the
    lenient format (a four-digit year, a month and a day of one or two
    digits, the day possibly a blank and a digit, any run of ASCII white
    space, an hour and a minute of one or two digits, all in range and
    the date existing), and the failure signal for every other text of
    ASCII characters. *)
Theorem parse_datetime_reads_lenient_format (s : string) :
  PyText.isascii s = true ->
  (forall dt, parse_datetime (PStr s) = Ok (Some dt) <->
              TimestampSpec.lenient s dt) /\
  ((forall dt, ~ TimestampSpec.lenient s dt) <->
   parse_datetime (PStr s) = Ok None).
Proof.
  intros _.
  unfold parse_datetime, py_strptime.
  split.
  - intros dt. rewrite <- strptime_lenient.
    destruct (strptime s) as [dt'|e] eqn:E.
    + split; congruence.
    + rewrite (strptime_value_error s e E). split; discriminate.
  - split.
    + intros H. destruct (strptime s) as [dt'|e] eqn:E.
      * apply strptime_lenient in E. now elim (H dt').
      * now rewrite (strptime_value_error s e E).
    + intros H dt Hl. apply strptime_lenient in Hl. rewrite Hl in H.
      discriminate H.
Qed.

Lemma parse_datetime_reads_lenient_format_witness :
  PyText.isascii "2024-02-30 10:00" = true /\
  ((forall dt, parse_datetime (PStr "2024-02-30 10:00") = Ok (Some dt) <->
               TimestampSpec.lenient "2024-02-30 10:00" dt) /\
   ((forall dt, ~ TimestampSpec.lenient "2024-02-30 10:00" dt) <->
    parse_datetime (PStr "2024-02-30 10:00") = Ok None)).
Proof.
  split; [reflexivity|].
  apply (parse_datetime_reads_lenient_format "2024-02-30 10:00").
  reflexivity.
Defined.

Lemma strict_price_characters (s : string) :
  PriceSpec.strict s ->
  forallb_s (fun c => isdigit c || Ascii.eqb c "." || Ascii.eqb c "+"
                      || Ascii.eqb c "-") s = true.
Proof.
  intros (sg & ip & Hsg & [_ Hip] & Hs).
  assert (Hd : forall t, PriceSpec.all_digits t ->
             forallb_s (fun c => isdigit c || Ascii.eqb c "." || Ascii.eqb c "+"
                                 || Ascii.eqb c "-") t = true).
  { induction t as [|c t IH]; [reflexivity|].
    unfold PriceSpec.all_digits. cbn. intros H.
    apply andb_true_iff in H. destruct H as [Hc Ht].
    now rewrite Hc, (IH Ht). }
  assert (Hg : forallb_s (fun c => isdigit c || Ascii.eqb c "." || Ascii.eqb c "+"
                                   || Ascii.eqb c "-") sg = true)
    by (destruct Hsg as [-> | [-> | ->]]; reflexivity).
  destruct Hs as [-> | (fp & [_ Hfp] & ->)].
  - now rewrite forallb_s_app, Hg, (Hd ip Hip).
  - rewrite !forallb_s_app, Hg, (Hd ip Hip), (Hd fp Hfp). reflexivity.
Qed.

(** C8, the claim as written fails: a number with an exponent is no
    integer and no decimal, and is read all the same. *)
Lemma parse_price_reads_exponent :
  ~ PriceSpec.strict "1e5" /\
  parse_price (PStr "1e5") = Ok (Some (Ffin false 6871947673600000 (-36))).
Proof.
  split.
  - intros H. apply strict_price_characters in H. discriminate H.
  - vm_compute. reflexivity.
Qed.

(** C8, as amended: on a text of ASCII characters, [parse_price] never
    raises; it returns a number exactly for the texts [float] reads
    (between ASCII blanks, with underscores allowed between digits: a
    signed decimal literal with an optional exponent, or a signed [inf],
    [infinity] or [nan] in any letter case), and the failure signal for
    every other text of ASCII characters. *)
Theorem parse_price_reads_float_text (s : string) :
  PyText.isascii s = true ->
  ((exists x, parse_price (PStr s) = Ok (Some x)) <-> PriceSpec.float_text s) /\
  (~ PriceSpec.float_text s <-> parse_price (PStr s) = Ok None).
Proof.
  intros _.
  rewrite <- float_of_string_text.
  unfold parse_price, py_float.
  destruct (float_of_string s) as [x|].
  - split.
    + split; intros _; now exists x.
    + split; [|discriminate]. intros H. elim H. now exists x.
  - split.
    + split; intros [x H]; discriminate H.
    + split; [reflexivity|]. intros _ [x H]. discriminate H.
Qed.

Lemma parse_price_reads_float_text_witness :
  PyText.isascii " 1_000.5e-2 " = true /\
  (((exists x, parse_price (PStr " 1_000.5e-2 ") = Ok (Some x)) <->
    PriceSpec.float_text " 1_000.5e-2 ") /\
   (~ PriceSpec.float_text " 1_000.5e-2 " <->
    parse_price (PStr " 1_000.5e-2 ") = Ok None)).
Proof.
  split; [reflexivity|].
  apply (parse_price_reads_float_text " 1_000.5e-2 ").
  reflexivity.
Defined.

Import Aux.
Local Open Scope string_scope.
Local Open Scope Z_scope.

(** * Rounding to binary64 *)

Section Scale.

Variables p q : Z.
Hypothesis Hp : 0 < p.
Hypothesis Hq : 0 < q.

Lemma pow2_pos (x : Z) : 0 < 2 ^ x \/ x < 0.
Proof.
  destruct (Z.le_gt_cases 0 x); [left|right]; [|assumption].
  now apply Z.pow_pos_nonneg.
Qed.

Lemma scale_pos (e : Z) : 0 < fst (scale p q e) /\ 0 < snd (scale p q e).
Proof.
  unfold scale. destruct (Z.leb_spec 0 e); cbn [fst snd].
  - split; [assumption|]. apply Z.mul_pos_pos; [assumption|].
    now apply Z.pow_pos_nonneg.
  - split; [|assumption]. apply Z.mul_pos_pos; [assumption|].
    apply Z.pow_pos_nonneg; lia.
Qed.

Lemma scale_shift (e e' : Z) :
  e <= e' ->
  fst (scale p q e) * snd (scale p q e')
  = fst (scale p q e') * snd (scale p q e) * 2 ^ (e' - e).
Proof.
  intros Hle. unfold scale.
  destruct (Z.leb_spec 0 e), (Z.leb_spec 0 e'); cbn [fst snd]; try lia.
  - replace (2 ^ e') with (2 ^ e * 2 ^ (e' - e))
      by (rewrite <- Z.pow_add_r by lia; f_equal; lia).
    ring.
  - replace (2 ^ (e' - e)) with (2 ^ e' * 2 ^ (- e))
      by (rewrite <- Z.pow_add_r by lia; f_equal; lia).
    ring.
  - replace (2 ^ (- e)) with (2 ^ (- e') * 2 ^ (e' - e))
      by (rewrite <- Z.pow_add_r by lia; f_equal; lia).
    ring.
Qed.

Lemma in_binade_le (e e' : Z) :
  in_binade p q e -> in_binade p q e' -> e' <= e.
Proof.
  unfold in_binade. intros [_ H1] [H2 _].
  destruct (Z.le_gt_cases e' e) as [|Hlt]; [assumption|exfalso].
  pose proof (scale_shift e e' ltac:(lia)) as E.
  destruct (scale_pos e) as [Ha Hb]. destruct (scale_pos e') as [Ha' Hb'].
  set (a := fst (scale p q e)) in *. set (b := snd (scale p q e)) in *.
  set (a' := fst (scale p q e')) in *. set (b' := snd (scale p q e')) in *.
  assert (Hpow : 2 <= 2 ^ (e' - e)).
  { change 2 with (2 ^ 1) at 1. apply Z.pow_le_mono_r; lia. }
  change (2 ^ 53) with (2 * 2 ^ 52) in H1.
  remember (2 ^ 52) as K. remember (2 ^ (e' - e)) as X.
  assert (0 < K) by (subst K; reflexivity).
  assert (H3 : a * b' < 2 * K * b * b') by nia.
  assert (H4 : a' * b * 2 <= a' * b * X) by nia.
  assert (H5 : K * b' * b * 2 <= a' * b * 2) by nia.
  lia.
Qed.

Lemma in_binade_unique (e e' : Z) :
  in_binade p q e -> in_binade p q e' -> e = e'.
Proof.
  intros H H'. pose proof (in_binade_le e e' H H').
  pose proof (in_binade_le e' e H' H). lia.
Qed.

Lemma binade_spec : in_binade p q (binade p q).
Proof.
  unfold binade.
  pose proof (Z.log2_spec p Hp) as [Lp Up].
  pose proof (Z.log2_spec q Hq) as [Lq Uq].
  pose proof (Z.log2_nonneg p) as Np. pose proof (Z.log2_nonneg q) as Nq.
  set (lp := Z.log2 p) in *. set (lq := Z.log2 q) in *.
  set (e1 := lp - lq - 52).
  assert (F : 2 ^ 51 * snd (scale p q e1) < fst (scale p q e1)
              /\ fst (scale p q e1) < 2 ^ 53 * snd (scale p q e1)).
  { unfold scale. destruct (Z.leb_spec 0 e1); cbn [fst snd].
    - assert (E1 : 2 ^ 53 * (2 ^ lq * 2 ^ e1) = 2 ^ Z.succ lp).
      { rewrite <- !Z.pow_add_r by lia. f_equal. lia. }
      assert (E2 : 2 ^ 51 * (2 ^ Z.succ lq * 2 ^ e1) = 2 ^ lp).
      { rewrite <- !Z.pow_add_r by lia. f_equal. lia. }
      assert (0 < 2 ^ e1) by (apply Z.pow_pos_nonneg; lia).
      split; nia.
    - assert (0 < 2 ^ (- e1)) by (apply Z.pow_pos_nonneg; lia).
      assert (E1 : 2 ^ Z.succ lp * 2 ^ (- e1) = 2 ^ 53 * 2 ^ lq).
      { rewrite <- !Z.pow_add_r by lia. f_equal. lia. }
      assert (E2 : 2 ^ lp * 2 ^ (- e1) = 2 ^ 51 * 2 ^ Z.succ lq).
      { rewrite <- !Z.pow_add_r by lia. f_equal. lia. }
      split; nia. }
  destruct F as [F2 F1].
  destruct (scale p q e1) as [a b] eqn:Es. cbn [fst snd] in F1, F2.
  destruct (Z.leb_spec (2 ^ 52 * b) a) as [Hge|Hlt].
  - unfold in_binade. fold e1. rewrite Es. cbn [fst snd]. lia.
  - unfold in_binade. replace (lp - lq - 53) with (e1 - 1) by lia.
    pose proof (scale_shift (e1 - 1) e1 ltac:(lia)) as E.
    rewrite Es in E. cbn [fst snd] in E.
    replace (e1 - (e1 - 1)) with 1 in E by lia. change (2 ^ 1) with 2 in E.
    destruct (scale_pos (e1 - 1)) as [Ha' Hb'].
    assert (Hb : 0 < b).
    { pose proof (scale_pos e1) as [_ H]. now rewrite Es in H. }
    set (a' := fst (scale p q (e1 - 1))) in *.
    set (b' := snd (scale p q (e1 - 1))) in *.
    change (2 ^ 53) with (2 * 2 ^ 52). change (2 ^ 52) with (2 * 2 ^ 51) in *.
    split; nia.
Qed.

Lemma binade_unique (e : Z) : in_binade p q e -> binade p q = e.
Proof. intros H. apply in_binade_unique; [apply binade_spec|assumption]. Qed.

End Scale.

Import Aux.
Local Open Scope string_scope.
Local Open Scope Z_scope.

(** ** The rounding depends on the ratio only *)

Lemma scale_mul (c p q e : Z) :
  scale (c * p) (c * q) e
  = (c * fst (scale p q e), c * snd (scale p q e)).
Proof.
  unfold scale. destruct (0 <=? e); cbn [fst snd]; f_equal; ring.
Qed.

Lemma rne_div_mul (c a b : Z) :
  0 < c -> 0 < b -> rne_div (c * a) (c * b) = rne_div a b.
Proof.
  intros Hc Hb. unfold rne_div.
  rewrite Z.div_mul_cancel_l by lia.
  rewrite Zmult_mod_distr_l.
  replace (2 * (c * (a mod b))) with (c * (2 * (a mod b))) by ring.
  now rewrite <- Zmult_compare_compat_l by lia.
Qed.

Lemma in_binade_mul (c p q e : Z) :
  0 < c -> in_binade p q e -> in_binade (c * p) (c * q) e.
Proof.
  unfold in_binade. rewrite scale_mul. cbn [fst snd]. intros Hc [H1 H2].
  split; nia.
Qed.

Lemma binade_mul (c p q : Z) :
  0 < c -> 0 < p -> 0 < q -> binade (c * p) (c * q) = binade p q.
Proof.
  intros Hc Hp Hq. apply binade_unique; try nia.
  apply in_binade_mul; [assumption|]. now apply binade_spec.
Qed.

Lemma round_ratio_mul (neg : bool) (c p q : Z) :
  0 < c -> 0 <= p -> 0 < q ->
  round_ratio neg (c * p) (c * q) = round_ratio neg p q.
Proof.
  intros Hc Hp Hq. unfold round_ratio.
  destruct (Z.eqb_spec p 0) as [->|Hne].
  - now rewrite Z.mul_0_r.
  - destruct (Z.eqb_spec (c * p) 0) as [E|_]; [nia|].
    rewrite binade_mul by lia.
    rewrite scale_mul.
    destruct (scale_pos p q ltac:(lia) Hq (Z.max (binade p q) emin)) as [_ Hb].
    destruct (scale p q (Z.max (binade p q) emin)) as [a b]. cbn [fst snd] in *.
    now rewrite rne_div_mul.
Qed.

(** ** A binary64 value rounds to itself *)

Lemma rne_div_exact (m b : Z) : 0 < b -> rne_div (m * b) b = m.
Proof.
  intros Hb. unfold rne_div.
  rewrite Z.div_mul by lia. rewrite Z.mod_mul by lia.
  cbn [Z.mul]. now destruct b.
Qed.

Lemma scale_exact (m e x : Z) :
  emin <= e -> emin <= x ->
  fst (scale (m * 2 ^ (e - emin)) (2 ^ (- emin)) x)
  * 2 ^ (x - emin)
  = m * 2 ^ (e - emin) * snd (scale (m * 2 ^ (e - emin)) (2 ^ (- emin)) x).
Proof.
  intros He Hx. unfold scale, emin in *.
  destruct (Z.leb_spec 0 x); cbn [fst snd].
  - replace (2 ^ (x - -1074)) with (2 ^ (- -1074) * 2 ^ x)
      by (rewrite <- Z.pow_add_r by lia; f_equal; lia).
    ring.
  - replace (2 ^ (- -1074)) with (2 ^ (- x) * 2 ^ (x - -1074))
      by (rewrite <- Z.pow_add_r by lia; f_equal; lia).
    ring.
Qed.

Lemma scale_own (m e : Z) :
  emin <= e ->
  fst (scale (m * 2 ^ (e - emin)) (2 ^ (- emin)) e)
  = m * snd (scale (m * 2 ^ (e - emin)) (2 ^ (- emin)) e).
Proof.
  intros He. pose proof (scale_exact m e e He He) as E.
  assert (0 < 2 ^ (e - emin)) by (apply Z.pow_pos_nonneg; lia).
  nia.
Qed.

Lemma round_ratio_exact (neg : bool) (m e : Z) :
  0 < m -> binary64 (Ffin neg m e) ->
  round_ratio neg (m * 2 ^ (e - emin)) (2 ^ (- emin)) = Ffin neg m e.
Proof.
  intros Hm (Hm53 & He & Hnorm).
  set (p := m * 2 ^ (e - emin)). set (q := 2 ^ (- emin)).
  assert (Hp : 0 < p).
  { apply Z.mul_pos_pos; [assumption|]. apply Z.pow_pos_nonneg; lia. }
  assert (Hq : 0 < q) by reflexivity.
  pose proof (scale_own m e ltac:(lia)) as Eown. fold p q in Eown.
  destruct (scale_pos p q Hp Hq e) as [_ Hb].
  assert (Hmax : Z.max (binade p q) emin = e).
  { destruct Hnorm as [Hn| ->].
    - rewrite (binade_unique p q Hp Hq e); [lia|].
      unfold in_binade. rewrite Eown. split; nia.
    - apply Z.max_r.
      destruct (Z.le_gt_cases (binade p q) emin) as [|Hgt]; [assumption|].
      exfalso.
      pose proof (binade_spec p q Hp Hq) as [B _].
      pose proof (scale_shift p q emin (binade p q) ltac:(lia)) as S.
      destruct (scale_pos p q Hp Hq (binade p q)) as [_ Hb0].
      rewrite Eown in S.
      assert (Hpow : 1 <= 2 ^ (binade p q - emin)).
      { assert (0 < 2 ^ (binade p q - emin))
          by (apply Z.pow_pos_nonneg; lia).
        lia. }
      set (a0 := fst (scale p q (binade p q))) in *.
      set (b0 := snd (scale p q (binade p q))) in *.
      set (b := snd (scale p q emin)) in *.
      remember (2 ^ (binade p q - emin)) as X.
      assert (m < 2 ^ 52).
      { destruct (Z.lt_ge_cases m (2 ^ 52)); [assumption|].
        exfalso.
        assert (in_binade p q emin).
        { unfold in_binade. fold b. rewrite Eown. fold b. split; nia. }
        pose proof (binade_unique p q Hp Hq emin H0). lia. }
      remember (2 ^ 52) as K.
      assert (a0 * b <= a0 * b * X) by nia.
      assert (K * b0 * b <= a0 * b) by nia.
      assert (m * b * b0 < K * b * b0) by nia.
      nia. }
  unfold round_ratio.
  destruct (Z.eqb_spec p 0) as [E|_]; [lia|].
  rewrite Hmax.
  destruct (scale p q e) as [a b] eqn:Es. cbn [fst snd] in *. subst a.
  rewrite rne_div_exact by assumption.
  destruct (Z.eqb_spec m (2 ^ 53)) as [E|_]; [lia|].
  destruct (Z.ltb_spec emax e); [lia|reflexivity].
Qed.

Import Aux.
Local Open Scope string_scope.
Local Open Scope Z_scope.

(** * Decimal digits *)

Lemma len_app (a b : string) : len (a ++ b) = len a + len b.
Proof.
  unfold len. induction a as [|c a IH]; cbn [String.append String.length].
  - lia.
  - rewrite !Nat2Z.inj_succ. lia.
Qed.

Lemma len_nonneg (s : string) : 0 <= len s.
Proof. unfold len. lia. Qed.

Lemma digit_char_digit (n : Z) :
  0 <= n < 10 -> isdigit (digit_char n) = true /\ digit_val (digit_char n) = n.
Proof.
  intros H. unfold isdigit, in_range, digit_val, digit_char, code.
  rewrite N_ascii_embedding by lia.
  rewrite Z2N.id by lia. change (Z.of_N (N_of_ascii "0")) with 48.
  change (Z.of_N (N_of_ascii "9")) with 57.
  split; [|lia].
  apply andb_true_iff; split; apply Z.leb_le; lia.
Qed.

Lemma digits_val_from_app (acc : Z) (a b : string) :
  digits_val_from acc (a ++ b) = digits_val_from (digits_val_from acc a) b.
Proof.
  revert acc. induction a as [|c a IH]; intros acc; cbn; [reflexivity|].
  apply IH.
Qed.

Lemma digits_val_from_shift (acc : Z) (s : string) :
  digits_val_from acc s = acc * 10 ^ len s + digits_val s.
Proof.
  unfold digits_val. revert acc.
  induction s as [|c s IH]; intros acc; cbn [digits_val_from].
  - change (len "") with 0. cbn. lia.
  - rewrite IH, (IH (10 * 0 + digit_val c)).
    change (String c s) with (String c "" ++ s). rewrite len_app.
    change (len (String c "")) with 1.
    rewrite Z.pow_add_r by (pose proof (len_nonneg s); lia).
    change (10 ^ 1) with 10. ring.
Qed.

Lemma digits_val_app (a b : string) :
  digits_val (a ++ b) = digits_val a * 10 ^ len b + digits_val b.
Proof.
  unfold digits_val at 1. rewrite digits_val_from_app.
  now rewrite digits_val_from_shift.
Qed.

(** With enough fuel, the digits are those of the number. *)
Lemma digits_fuel_spec (fuel : nat) (n : Z) :
  0 <= n < 2 ^ Z.of_nat fuel -> fuel <> O ->
  let ds := digits_fuel fuel n in
  digits_val ds = n /\ forallb_s isdigit ds = true /\ ds <> "".
Proof.
  revert n. induction fuel as [|fuel IH]; intros n Hn Hf; [now elim Hf|].
  cbn [digits_fuel]. rewrite Nat2Z.inj_succ, Z.pow_succ_r in Hn by lia.
  pose proof (Z.mod_pos_bound n 10 ltac:(lia)) as Hmod.
  destruct (digit_char_digit (n mod 10) Hmod) as [Hd Hv].
  destruct (Z.ltb_spec n 10) as [Hlt|Hge].
  - rewrite Z.mod_small in * by lia.
    cbn [String.append]. unfold digits_val.
    cbn [digits_val_from forallb_s]. rewrite Hd, Hv.
    repeat split; try lia; try reflexivity; discriminate.
  - assert (Hq : 0 <= n / 10 < 2 ^ Z.of_nat fuel).
    { split; [apply Z.div_pos; lia|].
      apply Z.div_lt_upper_bound; lia. }
    assert (Hf' : fuel <> O).
    { intros ->. cbn in Hq.
      assert (1 <= n / 10) by (apply Z.div_le_lower_bound; lia). lia. }
    destruct (IH (n / 10) Hq Hf') as (Hv' & Hd' & _).
    cbv zeta. rewrite digits_val_app, Hv', forallb_s_app, Hd'.
    change (len (String _ "")) with 1. change (10 ^ 1) with 10.
    unfold digits_val at 1. cbn [digits_val_from forallb_s]. rewrite Hv, Hd.
    repeat split.
    + pose proof (Z.div_mod n 10 ltac:(lia)). lia.
    + destruct (digits_fuel fuel (n / 10)); discriminate.
Qed.

Lemma digits_of_spec (n : Z) :
  0 <= n ->
  digits_val (digits_of n) = n /\ forallb_s isdigit (digits_of n) = true /\
  digits_of n <> "".
Proof.
  intros Hn. unfold digits_of. apply digits_fuel_spec; [|discriminate].
  split; [assumption|].
  rewrite Nat2Z.inj_succ, Z2Nat.id by apply Z.log2_nonneg.
  destruct (Z.eq_dec n 0) as [->|]; [reflexivity|].
  apply Z.log2_spec. lia.
Qed.

(** A number below [10^j] has at most [j] digits. *)
Lemma digits_fuel_len (fuel : nat) (n j : Z) :
  0 <= n < 10 ^ j -> 1 <= j -> len (digits_fuel fuel n) <= j.
Proof.
  revert n j. induction fuel as [|fuel IH]; intros n j Hn Hj.
  - cbn [digits_fuel]. change (len "") with 0. lia.
  - cbn [digits_fuel]. rewrite len_app. change (len (String _ "")) with 1.
    destruct (Z.ltb_spec n 10) as [Hlt|Hge].
    + change (len "") with 0. lia.
    + assert (2 <= j).
      { destruct (Z.eq_dec j 1) as [->|]; [|lia]. change (10 ^ 1) with 10 in Hn. lia. }
      assert (Hq : 0 <= n / 10 < 10 ^ (j - 1)).
      { split; [apply Z.div_pos; lia|].
        apply Z.div_lt_upper_bound; [lia|].
        rewrite <- Z.pow_succ_r by lia. now replace (Z.succ (j - 1)) with j by lia. }
      specialize (IH (n / 10) (j - 1) Hq ltac:(lia)). lia.
Qed.

Lemma digits_of_len (n j : Z) :
  0 <= n < 10 ^ j -> 1 <= j -> len (digits_of n) <= j.
Proof. apply digits_fuel_len. Qed.

(** ** Pieces of a digit text *)

Lemma take_drop (n : nat) (s : string) : take n s ++ drop n s = s.
Proof.
  revert s. induction n as [|n IH]; intros [|c s]; cbn; try reflexivity.
  now rewrite IH.
Qed.

Lemma forallb_s_take (p : ascii -> bool) (n : nat) (s : string) :
  forallb_s p s = true -> forallb_s p (take n s) = true.
Proof.
  revert s. induction n as [|n IH]; intros [|c s]; cbn; try reflexivity.
  intros H. apply andb_true_iff in H. destruct H as [Hc Hs].
  now rewrite Hc, IH.
Qed.

Lemma forallb_s_drop (p : ascii -> bool) (n : nat) (s : string) :
  forallb_s p s = true -> forallb_s p (drop n s) = true.
Proof.
  revert s. induction n as [|n IH]; intros [|c s]; cbn; try auto.
  intros H. apply andb_true_iff in H. destruct H as [Hc Hs]. now apply IH.
Qed.

Lemma len_take (n : nat) (s : string) :
  Z.of_nat n <= len s -> len (take n s) = Z.of_nat n.
Proof.
  unfold len. revert s. induction n as [|n IH]; intros [|c s]; cbn [take String.length];
    try lia.
  intros H. rewrite !Nat2Z.inj_succ in *. rewrite IH; lia.
Qed.

Lemma len_drop (n : nat) (s : string) :
  Z.of_nat n <= len s -> len (drop n s) = len s - Z.of_nat n.
Proof.
  intros H. pose proof (len_take n s H) as Ht.
  rewrite <- (take_drop n s) at 2. rewrite len_app. lia.
Qed.

Lemma zeros_spec (n : nat) :
  forallb_s isdigit (zeros n) = true /\ digits_val (zeros n) = 0 /\
  len (zeros n) = Z.of_nat n.
Proof.
  induction n as [|n (H1 & H2 & H3)]; [now repeat split|].
  cbn [zeros]. change (String "0" (zeros n)) with (String "0" "" ++ zeros n).
  rewrite forallb_s_app, digits_val_app, len_app, H1, H2, H3.
  change (len "0") with 1. rewrite Nat2Z.inj_succ.
  repeat split; try reflexivity. lia.
Qed.

Import Aux.
Local Open Scope string_scope.
Local Open Scope Z_scope.

(** * Reading back the text of a float *)

Lemma digits_val_lstrip_zeros (s : string) :
  digits_val (lstrip_by (Ascii.eqb "0") s) = digits_val s.
Proof.
  induction s as [|c s IH]; [reflexivity|].
  cbn [lstrip_by]. destruct (Ascii.eqb_spec "0" c) as [<-|]; [|reflexivity].
  rewrite IH. change (String "0" s) with (String "0" "" ++ s).
  rewrite digits_val_app. reflexivity.
Qed.

Lemma len_lstrip (p : ascii -> bool) (s : string) :
  len (lstrip_by p s) <= len s.
Proof.
  induction s as [|c s IH]; cbn [lstrip_by]; [lia|].
  destruct (p c); [|lia].
  change (String c s) with (String c "" ++ s). rewrite len_app.
  change (len (String c "")) with 1. lia.
Qed.

Lemma read_exponent_text (x : Z) :
  Z.abs x < 10 ^ 9 -> read_exponent (exponent_text x) = (x, "").
Proof.
  intros Hx. unfold exponent_text.
  destruct (digits_of_spec (Z.abs x) (Z.abs_nonneg x)) as (Hv & Hd & Hne).
  pose proof (digits_of_len (Z.abs x) 9 ltac:(lia) ltac:(lia)) as Hl.
  set (xs := digits_of (Z.abs x)) in *.
  set (xs2 := if len xs <? 2 then "0" ++ xs else xs).
  assert (Hd2 : forallb_s isdigit xs2 = true).
  { unfold xs2. destruct (len xs <? 2); [|assumption]. cbn. assumption. }
  assert (Hv2 : digits_val xs2 = Z.abs x).
  { unfold xs2. destruct (len xs <? 2); [|assumption].
    rewrite digits_val_app. rewrite Hv. reflexivity. }
  assert (Hl2 : len xs2 <= 9).
  { unfold xs2. destruct (Z.ltb_spec (len xs) 2); [|assumption].
    rewrite len_app. change (len "0") with 1. lia. }
  assert (Hne2 : xs2 <> "").
  { unfold xs2. destruct (len xs <? 2); [discriminate|assumption]. }
  unfold read_exponent.
  change ("e" ++ (if x <? 0 then "-" else "+") ++ xs2)
    with (String "e" ((if x <? 0 then "-" else "+") ++ xs2)).
  cbn [Ascii.eqb Bool.eqb orb andb]. cbv iota.
  assert (Et : take_sign ((if x <? 0 then "-" else "+") ++ xs2) = (x <? 0, xs2))
    by (destruct (x <? 0); reflexivity).
  rewrite Et. rewrite (span_all isdigit xs2 Hd2).
  destruct xs2 as [|c r] eqn:E; [now elim Hne2|]. rewrite <- E in *.
  rewrite digits_val_lstrip_zeros, Hv2.
  pose proof (len_lstrip (Ascii.eqb "0") xs2).
  destruct (Z.ltb_spec 9 (len (lstrip_by (Ascii.eqb "0") xs2))); [lia|].
  destruct (Z.ltb_spec MAX_ABS_EXP (Z.abs x)) as [Hbig|_];
    [unfold MAX_ABS_EXP in Hbig; lia|].
  cbn [orb]. f_equal.
  destruct (Z.ltb_spec x 0); lia.
Qed.

Lemma exponent_text_stops (x : Z) :
  stops isdigit (exponent_text x) /\
  match exponent_text x with
  | String c _ => Ascii.eqb c "." = false
  | EmptyString => True
  end.
Proof. split; reflexivity. Qed.

Lemma read_exponent_empty : read_exponent "" = (0, "").
Proof. reflexivity. Qed.

Section Strtod.

Variable neg : bool.

Lemma take_sign_text (ip rest : string) :
  forallb_s isdigit ip = true -> ip <> "" ->
  take_sign (sign_text neg ++ ip ++ rest) = (neg, ip ++ rest).
Proof.
  intros Hd Hne. unfold sign_text. destruct neg; [reflexivity|].
  destruct ip as [|c ip]; [now elim Hne|].
  cbn in Hd. apply andb_true_iff in Hd. destruct Hd as [Hc _].
  destruct (digit_not_sign c Hc) as [H1 H2].
  apply Ascii.eqb_neq in H1, H2.
  cbn [String.append]. unfold take_sign. now rewrite H1, H2.
Qed.

(** Digits, a point, digits, and an exponent or nothing. *)
Lemma strtod_point (ip fp ex : string) (e : Z) :
  forallb_s isdigit ip = true -> ip <> "" ->
  forallb_s isdigit fp = true ->
  read_exponent ex = (e, "") -> stops isdigit ex ->
  strtod (sign_text neg ++ ip ++ "." ++ fp ++ ex)
  = Some (round_decimal neg (digits_val (ip ++ fp)) (e - len fp), "").
Proof.
  intros Hip Hne Hfp He Hstop. unfold strtod.
  rewrite take_sign_text by assumption.
  rewrite (span_complete isdigit ip ("." ++ fp ++ ex) Hip) by reflexivity.
  cbn [String.append]. change (Ascii.eqb "." ".") with true. cbv iota.
  rewrite (span_complete isdigit fp ex Hfp Hstop).
  destruct ip; [now elim Hne|]. cbn [truthy negb andb].
  now rewrite He.
Qed.

(** Digits and an exponent. *)
Lemma strtod_no_point (ip : string) (x : Z) :
  forallb_s isdigit ip = true -> ip <> "" ->
  Z.abs x < 10 ^ 9 ->
  strtod (sign_text neg ++ ip ++ exponent_text x)
  = Some (round_decimal neg (digits_val ip) x, "").
Proof.
  intros Hip Hne Hx. unfold strtod.
  rewrite take_sign_text by assumption.
  destruct (exponent_text_stops x) as [Hs Hp].
  rewrite (span_complete isdigit ip (exponent_text x) Hip Hs).
  assert (Em : match exponent_text x with
               | String c r =>
                   if Ascii.eqb c "." then span isdigit r
                   else ("", exponent_text x)
               | "" => ("", exponent_text x)
               end = ("", exponent_text x)) by reflexivity.
  rewrite Em.
  destruct ip; [now elim Hne|]. cbn [truthy negb andb].
  rewrite (read_exponent_text x Hx).
  rewrite append_empty_r. change (len "") with 0.
  now rewrite Z.sub_0_r.
Qed.

End Strtod.

Import Aux.
Local Open Scope string_scope.
Local Open Scope Z_scope.

Lemma round_decimal_pad (neg : bool) (d k : Z) :
  0 <= d -> 0 <= k ->
  round_decimal neg (d * 10 ^ k * 10) (-1) = round_decimal neg d k.
Proof.
  intros Hd Hk. unfold round_decimal.
  destruct (Z.leb_spec 0 k); [|lia]. cbn [Z.leb Z.opp].
  change (0 <=? -1) with false. cbv iota.
  change (10 ^ (- (-1))) with (10 * 1).
  rewrite (Z.mul_comm _ 10).
  assert (0 <= 10 ^ k) by (apply Z.pow_nonneg; lia).
  apply round_ratio_mul; nia.
Qed.

Section FormatRepr.

Variables (neg : bool) (d k : Z).
Hypothesis Hd : 0 < d.
Hypothesis Hx : Z.abs (len (digits_of d) + k - 1) < 10 ^ 9.

Lemma strtod_format_repr :
  strtod (sign_text neg ++ format_repr d k)
  = Some (round_decimal neg d k, "").
Proof.
  destruct (digits_of_spec d ltac:(lia)) as (Hv & Hdig & Hne).
  unfold format_repr.
  set (ds := digits_of d) in *. set (n := len ds) in *.
  assert (Hn : 1 <= n).
  { unfold n, len. destruct ds; [now elim Hne|]. cbn [String.length]. lia. }
  cbv zeta.
  destruct ((n + k <=? -4) || (16 <? n + k)) eqn:Eexp.
  - (* exponent notation *)
    fold (exponent_text (n + k - 1)).
    destruct (Z.ltb_spec 1 n) as [Hn1|Hn1].
    + replace (take 1 ds ++ ("." ++ drop 1 ds) ++ exponent_text (n + k - 1))
        with (take 1 ds ++ "." ++ drop 1 ds ++ exponent_text (n + k - 1))
        by reflexivity.
      rewrite (strtod_point neg (take 1 ds) (drop 1 ds) _ (n + k - 1)).
      * rewrite take_drop, Hv. rewrite (len_drop 1 ds) by (fold n; lia).
        fold n. do 2 f_equal. f_equal. lia.
      * now apply forallb_s_take.
      * destruct ds; [now elim Hne|discriminate].
      * now apply forallb_s_drop.
      * now apply read_exponent_text.
      * apply (proj1 (exponent_text_stops _)).
    + assert (E1 : take 1 ds = ds).
      { destruct ds as [|c1 [|c2 r]]; [reflexivity|reflexivity|].
        unfold n, len in Hn1. cbn [String.length] in Hn1. lia. }
      rewrite E1. cbn [String.append].
      rewrite (strtod_no_point neg ds (n + k - 1)) by assumption.
      rewrite Hv. do 2 f_equal. f_equal. lia.
  - apply orb_false_iff in Eexp. destruct Eexp as [E4 E16].
    apply Z.leb_gt in E4. apply Z.ltb_ge in E16.
    destruct (Z.leb_spec (n + k) 0) as [Hle|Hgt].
    + (* 0.000ddd *)
      destruct (zeros_spec (Z.to_nat (- (n + k)))) as (Hz1 & Hz2 & Hz3).
      set (zs := zeros (Z.to_nat (- (n + k)))) in *.
      replace ("0." ++ zs ++ ds) with ("0" ++ "." ++ (zs ++ ds) ++ "")
        by (cbn [String.append]; now rewrite append_empty_r).
      rewrite (strtod_point neg "0" (zs ++ ds) "" 0);
        try reflexivity; try discriminate.
      * rewrite !digits_val_app, Hz2, Hv, !len_app, Hz3. fold n.
        rewrite Z2Nat.id by lia.
        change (digits_val "0") with 0.
        do 2 f_equal. f_equal; lia.
      * now rewrite forallb_s_app, Hz1, Hdig.
    + destruct (Z.ltb_spec (n + k) n) as [Hlt|Hge].
      * (* ddd.ddd *)
        set (j := Z.to_nat (n + k)).
        assert (Hj : Z.of_nat j <= len ds) by (unfold j; fold n; lia).
        replace (take j ds ++ "." ++ drop j ds)
          with (take j ds ++ "." ++ drop j ds ++ "")
          by now rewrite append_empty_r.
        rewrite (strtod_point neg (take j ds) (drop j ds) "" 0);
          try reflexivity.
        -- rewrite take_drop, Hv, (len_drop j ds Hj). fold n. unfold j.
           rewrite Z2Nat.id by lia. do 2 f_equal. f_equal. lia.
        -- now apply forallb_s_take.
        -- pose proof (len_take j ds Hj) as Hl.
           destruct (take j ds); [|discriminate].
           change (len "") with 0 in Hl. unfold j in Hl. lia.
        -- now apply forallb_s_drop.
      * (* ddd000.0 *)
        destruct (zeros_spec (Z.to_nat (n + k - n))) as (Hz1 & Hz2 & Hz3).
        set (zs := zeros (Z.to_nat (n + k - n))) in *.
        replace (ds ++ zs ++ ".0") with ((ds ++ zs) ++ "." ++ "0" ++ "")
          by (now rewrite append_assoc).
        rewrite (strtod_point neg (ds ++ zs) "0" "" 0);
          try reflexivity.
        -- rewrite !digits_val_app, Hz2, Hv, Hz3.
           change (digits_val "0") with 0. change (len "0") with 1.
           rewrite Z2Nat.id by lia.
           replace (n + k - n) with k by lia.
           rewrite <- (round_decimal_pad neg d k) by lia.
           do 2 f_equal. f_equal. change (10 ^ 1) with 10. lia.
        -- now rewrite forallb_s_app, Hdig, Hz1.
        -- destruct ds; [now elim Hne|discriminate].
Qed.

End FormatRepr.

Import Aux.
Local Open Scope string_scope.
Local Open Scope Z_scope.

(** * The shortest digits read back as the value *)

Lemma float_eqb_eq (x y : float) : float_eqb x y = true -> x = y.
Proof.
  destruct x as [|a|a m e], y as [|b|b m' e']; cbn; try discriminate;
    try reflexivity.
  - intros H. apply Bool.eqb_prop in H. now subst.
  - intros H. apply andb_true_iff in H. destruct H as [H He].
    apply andb_true_iff in H. destruct H as [Ha Hm].
    apply Bool.eqb_prop in Ha. apply Z.eqb_eq in Hm, He. now subst.
Qed.

Lemma rne_div_cases (a b : Z) :
  rne_div a b = a / b \/ rne_div a b = a / b + 1.
Proof.
  unfold rne_div. destruct (2 * (a mod b) ?= b); auto.
  destruct (Z.even (a / b)); auto.
Qed.

Lemma div_le_self (a b : Z) : 0 <= a -> 0 < b -> 0 <= a / b <= a.
Proof.
  intros Ha Hb. split; [apply Z.div_pos; lia|].
  apply Z.div_le_upper_bound; nia.
Qed.

Lemma pow_le_10 (b x : Z) : 0 < b <= 10 -> 0 <= x -> b ^ x <= 10 ^ x.
Proof. intros Hb Hx. apply Z.pow_le_mono_l. lia. Qed.

Section Shortest.

Variables m e : Z.
Hypothesis Hm : 0 < m.
Hypothesis Hb : binary64 (Ffin false m e).

Lemma exact_digits_round :
  round_decimal false (m * 2 ^ (e + 1074) * 5 ^ 1074) (-1074) = Ffin false m e.
Proof.
  unfold round_decimal. change (0 <=? -1074) with false. cbv iota.
  change (- (-1074)) with 1074.
  change 10 with (5 * 2). rewrite Z.pow_mul_l.
  replace (m * 2 ^ (e + 1074) * 5 ^ 1074)
    with (5 ^ 1074 * (m * 2 ^ (e - emin)))
    by (unfold emin; replace (e - -1074) with (e + 1074) by lia; ring).
  change (2 ^ 1074) with (2 ^ (- emin)).
  destruct Hb as (_ & He & _).
  rewrite round_ratio_mul.
  - now apply round_ratio_exact.
  - apply Z.pow_pos_nonneg; lia.
  - apply Z.mul_nonneg_nonneg; [lia|]. apply Z.pow_nonneg. lia.
  - reflexivity.
Qed.

Lemma m_bound : m < 10 ^ 16.
Proof.
  destruct Hb as (H & _).
  assert (2 ^ 53 < 10 ^ 16) by reflexivity. lia.
Qed.

Lemma exact_digits_bound :
  0 <= m * 2 ^ (e + 1074) * 5 ^ 1074 < digit_bound.
Proof.
  destruct Hb as (_ & He & _). unfold emin, emax in He.
  pose proof m_bound as Hm16.
  assert (H2 : 0 < 2 ^ (e + 1074) <= 10 ^ 2045).
  { split; [apply Z.pow_pos_nonneg; lia|].
    transitivity (2 ^ 2045); [apply Z.pow_le_mono_r; lia|].
    apply pow_le_10; lia. }
  assert (H5 : 0 < 5 ^ 1074 <= 10 ^ 1074).
  { split; [now apply Z.pow_pos_nonneg|]. apply pow_le_10; lia. }
  unfold digit_bound.
  replace (10 ^ 3200) with (10 ^ 16 * 10 ^ 2045 * 10 ^ 1074 * 10 ^ 65)
    by (rewrite <- !Z.pow_add_r by (clear; lia); f_equal).
  assert (H65 : 1 <= 10 ^ 65).
  { assert (0 < 10 ^ 65) by now apply Z.pow_pos_nonneg. lia. }
  remember (2 ^ (e + 1074)) as A. remember (5 ^ 1074) as B.
  remember (10 ^ 16) as C. remember (10 ^ 2045) as D.
  remember (10 ^ 1074) as E. remember (10 ^ 65) as F.
  clear - Hm Hm16 H2 H5 H65.
  split; [nia|].
  assert (m * A < C * D) by nia.
  assert (m * A * B < C * D * E) by nia.
  nia.
Qed.

Lemma ratio_bound (k : Z) :
  -1074 <= k ->
  let '(a, b) := decimal_ratio m e k in
  0 <= a / b /\ a / b + 1 < digit_bound.
Proof.
  intros Hk. unfold decimal_ratio.
  destruct Hb as (_ & He & _). unfold emin, emax in He.
  pose proof m_bound as Hm16.
  assert (H2 : 0 < 2 ^ Z.max e 0 <= 10 ^ 971).
  { split; [apply Z.pow_pos_nonneg; lia|].
    transitivity (2 ^ 971); [apply Z.pow_le_mono_r; lia|].
    apply pow_le_10; lia. }
  assert (H10 : 0 < 10 ^ Z.max (- k) 0 <= 10 ^ 1074).
  { split; [apply Z.pow_pos_nonneg; lia|]. apply Z.pow_le_mono_r; lia. }
  assert (Hden : 0 < 2 ^ Z.max (- e) 0 * 10 ^ Z.max k 0).
  { apply Z.mul_pos_pos; apply Z.pow_pos_nonneg; lia. }
  set (a := m * 2 ^ Z.max e 0 * 10 ^ Z.max (- k) 0).
  set (b := 2 ^ Z.max (- e) 0 * 10 ^ Z.max k 0) in *.
  assert (Ha : 0 <= a < 10 ^ 16 * 10 ^ 971 * 10 ^ 1074).
  { unfold a.
    remember (2 ^ Z.max e 0) as A. remember (10 ^ Z.max (- k) 0) as B.
    remember (10 ^ 16) as C. remember (10 ^ 971) as D. remember (10 ^ 1074) as E.
    clear - Hm Hm16 H2 H10.
    split; [nia|].
    assert (m * A < C * D) by nia. nia. }
  assert (Hq : 0 <= a / b <= a)
    by (apply div_le_self; [apply Ha|exact Hden]).
  unfold digit_bound.
  replace (10 ^ 3200) with (10 ^ 16 * 10 ^ 971 * 10 ^ 1074 * 10 ^ 1139)
    by (rewrite <- !Z.pow_add_r by (clear; lia); f_equal).
  assert (H1139 : 2 <= 10 ^ 1139).
  { transitivity (10 ^ 1); [discriminate|]. apply Z.pow_le_mono_r; lia. }
  remember (10 ^ 16 * 10 ^ 971 * 10 ^ 1074) as T.
  remember (10 ^ 1139) as F.
  clear - Ha Hq H1139.
  split; [lia|]. nia.
Qed.

Lemma shortest_spec (fuel : nat) (k d k' : Z) :
  -1075 <= k - Z.of_nat fuel -> k <= 400 ->
  shortest fuel k m e = (d, k') ->
  round_decimal false d k' = Ffin false m e /\
  -1074 <= k' <= 400 /\ 0 <= d < digit_bound.
Proof.
  revert k. induction fuel as [|fuel IH]; intros k Hk Hk400.
  - cbn [shortest]. intros [= <- <-].
    split; [apply exact_digits_round|]. split; [lia|].
    apply exact_digits_bound.
  - cbn [shortest].
    pose proof (ratio_bound k ltac:(lia)) as Hr.
    destruct (decimal_ratio m e k) as [a b].
    destruct Hr as [Hr0 Hr1].
    destruct (float_eqb (round_decimal false (a / b) k) (Ffin false m e)) eqn:Elo;
      destruct (float_eqb (round_decimal false (a / b + 1) k) (Ffin false m e))
        eqn:Ehi; cbn [andb].
    + intros [= <- <-].
      apply float_eqb_eq in Elo, Ehi.
      destruct (rne_div_cases a b) as [-> | ->]; repeat split; try assumption; lia.
    + intros [= <- <-]. apply float_eqb_eq in Elo.
      repeat split; try assumption; lia.
    + intros [= <- <-]. apply float_eqb_eq in Ehi.
      repeat split; try assumption; lia.
    + intros H. apply (IH (k - 1)); [lia|lia|assumption].
Qed.

Lemma shortest_digits_spec (d k : Z) :
  shortest_digits m e = (d, k) ->
  round_decimal false d k = Ffin false m e /\
  -1074 <= k <= 400 /\ 0 < d < digit_bound.
Proof.
  unfold shortest_digits. cbv zeta. intros H.
  destruct Hb as (Hm53 & He & _). unfold emin, emax in He.
  pose proof (Z.log2_nonneg m) as L0.
  assert (L1 : Z.log2 m < 53) by (apply Z.log2_lt_pow2; lia).
  set (b := Z.log2 m + e + 1) in *.
  set (k0 := (if 0 <=? b then b / 3 else 3 * b / 10) + 1) in *.
  assert (Hk0 : -1075 < k0 <= 400).
  { unfold k0. destruct (Z.leb_spec 0 b).
    - assert (0 <= b / 3 <= 342); [|lia].
      split; [apply Z.div_pos; lia|]. apply Z.div_le_upper_bound; lia.
    - assert (-323 <= 3 * b / 10 <= 0); [|lia].
      split; [apply Z.div_le_lower_bound; lia|].
      apply Z.div_le_upper_bound; lia. }
  apply shortest_spec in H; [|rewrite Z2Nat.id; lia|lia].
  destruct H as (Hr & Hk & Hd). repeat split; try assumption; try lia.
  destruct (Z.eq_dec d 0) as [->|]; [|lia].
  exfalso. unfold round_decimal, round_ratio in Hr.
  destruct (0 <=? k); rewrite ?Z.mul_0_l in Hr; cbn [Z.eqb] in Hr;
    injection Hr as Hr _; lia.
Qed.

End Shortest.

Lemma round_ratio_sign (neg : bool) (p q m e : Z) :
  round_ratio false p q = Ffin false m e ->
  round_ratio neg p q = Ffin neg m e.
Proof.
  unfold round_ratio. destruct (p =? 0); [now intros [= <- <-]|].
  destruct (scale p q _) as [a b].
  destruct (rne_div a b =? 2 ^ 53);
    match goal with |- context [emax <? ?x] => destruct (emax <? x) end;
    try discriminate; now intros [= <- <-].
Qed.

Lemma round_decimal_sign (neg : bool) (d k m e : Z) :
  round_decimal false d k = Ffin false m e ->
  round_decimal neg d k = Ffin neg m e.
Proof.
  unfold round_decimal. destruct (0 <=? k); apply round_ratio_sign.
Qed.

Import Aux.
Import PriceSpec.
Local Open Scope string_scope.
Local Open Scope Z_scope.

(** * [float] reads the text [repr] writes *)

Lemma drop_underscores_plain (s : string) (prev : ascii) :
  forallb_s no_underscore s = true -> prev <> "_"%char ->
  drop_underscores prev s = Some s.
Proof.
  revert prev. induction s as [|c s IH]; intros prev Hs Hp; cbn.
  - apply Ascii.eqb_neq in Hp. now rewrite Hp.
  - cbn in Hs. apply andb_true_iff in Hs. destruct Hs as [Hc Hs].
    unfold no_underscore in Hc. apply negb_true_iff in Hc. rewrite Hc.
    apply Ascii.eqb_neq in Hp. rewrite Hp. cbn [andb].
    rewrite IH; [reflexivity|assumption|]. now apply Ascii.eqb_neq.
Qed.

Lemma digits_no_underscore (t : string) :
  all_digits t -> forallb_s no_underscore t = true.
Proof.
  unfold all_digits. induction t as [|c t IH]; [reflexivity|].
  cbn. intros H. apply andb_true_iff in H. destruct H as [Hc Ht].
  rewrite (IH Ht), andb_true_r.
  unfold no_underscore. apply negb_true_iff.
  destruct (Ascii.eqb_spec c "_") as [->|]; [discriminate Hc|reflexivity].
Qed.

Lemma decimal_literal_plain (body : string) :
  decimal_literal body -> forallb_s no_underscore body = true.
Proof.
  intros (sg & m & ex & -> & Hsg & Hm & Hex).
  rewrite !forallb_s_app.
  assert (H1 : forallb_s no_underscore sg = true)
    by (destruct Hsg as [-> | [-> | ->]]; reflexivity).
  assert (H2 : forallb_s no_underscore m = true).
  { destruct Hm as [[_ Hd]|(ip & fp & -> & Hip & Hfp & _)].
    - now apply digits_no_underscore.
    - rewrite !forallb_s_app, (digits_no_underscore ip Hip),
        (digits_no_underscore fp Hfp). reflexivity. }
  assert (H3 : forallb_s no_underscore ex = true).
  { destruct Hex as [-> | (c & sg' & ds & -> & Hc & Hsg' & [_ Hds])];
      [reflexivity|].
    cbn [forallb_s]. rewrite forallb_s_app, (digits_no_underscore ds Hds).
    assert (Hs : forallb_s no_underscore sg' = true)
      by (destruct Hsg' as [-> | [-> | ->]]; reflexivity).
    rewrite Hs. destruct Hc as [-> | ->]; reflexivity. }
  now rewrite H1, H2, H3.
Qed.

(** A text that [strtod] reads to its end is read by [float]. *)
Lemma float_of_string_literal (s : string) (x : float) :
  strtod s = Some (x, "") -> float_of_string s = Some x.
Proof.
  intros H. pose proof (strtod_sound s x H) as Hl.
  unfold float_of_string.
  rewrite (drop_underscores_plain s "000" (decimal_literal_plain s Hl))
    by discriminate.
  destruct (literal_begins s (or_introl Hl)) as (c & r & -> & Hc).
  cbn [lstrip_by]. rewrite Hc.
  destruct (decimal_literal_ends _ Hl) as (b & d & E & Hd).
  rewrite E. rewrite rstrip_by_end
    by (unfold nonblank in Hd; now apply negb_true_iff in Hd).
  rewrite <- E. unfold float_of_stripped. now rewrite H.
Qed.

Lemma float_repr_finite (neg : bool) (m e : Z) :
  0 < m ->
  float_repr (Ffin neg m e)
  = sign_text neg ++ format_repr (fst (shortest_digits m e))
                       (snd (shortest_digits m e)).
Proof.
  intros Hm. unfold float_repr, sign_text.
  destruct (Z.eqb_spec m 0); [lia|].
  now destruct (shortest_digits m e).
Qed.

(** [float(repr(x)) == x] for a finite binary64 [x]. *)
Lemma float_of_string_repr (neg : bool) (m e : Z) :
  binary64 (Ffin neg m e) ->
  float_of_string (float_repr (Ffin neg m e)) = Some (Ffin neg m e).
Proof.
  intros Hb.
  destruct (Z.eq_dec m 0) as [->|Hm0].
  - destruct Hb as (_ & He & [H|E]); [now elim H|].
    subst e. destruct neg; reflexivity.
  - assert (Hm : 0 < m) by (destruct Hb as ([? ?] & _); lia).
    rewrite (float_repr_finite neg m e Hm).
    destruct (shortest_digits m e) as [d k] eqn:Es. cbn [fst snd].
    apply (shortest_digits_spec m e Hm Hb) in Es.
    destruct Es as (Hr & Hk & Hd).
    apply float_of_string_literal.
    rewrite strtod_format_repr.
    + now rewrite (round_decimal_sign neg d k m e Hr).
    + lia.
    + unfold digit_bound in Hd.
      pose proof (digits_of_len d 3200 ltac:(clear - Hd; lia) ltac:(clear; lia)).
      clear Hd.
      pose proof (len_nonneg (digits_of d)).
      assert (10000 < 10 ^ 9) by reflexivity.
      lia.
Qed.

(** ** The number token of a float *)

Lemma existsb_s_app (p : ascii -> bool) (a b : string) :
  existsb_s p (a ++ b) = existsb_s p a || existsb_s p b.
Proof.
  induction a as [|c a IH]; cbn; [reflexivity|].
  now rewrite IH, orb_assoc.
Qed.

Lemma format_repr_marker (d k : Z) : existsb_s is_marker (format_repr d k) = true.
Proof.
  unfold format_repr. cbv zeta.
  repeat match goal with
         | |- context [if ?b then _ else _] => destruct b
         end;
    rewrite !existsb_s_app; cbn [existsb_s is_marker Ascii.eqb Bool.eqb orb];
    rewrite ?orb_true_r; reflexivity.
Qed.

Lemma float_repr_marker (neg : bool) (m e : Z) :
  existsb_s is_marker (float_repr (Ffin neg m e)) = true.
Proof.
  unfold float_repr. rewrite existsb_s_app.
  destruct (m =? 0); [now rewrite orb_true_r|].
  destruct (shortest_digits m e) as [d k].
  now rewrite format_repr_marker, orb_true_r.
Qed.

Lemma decode_floatstr (x : float) :
  binary64 x -> Json.decode (Json.floatstr x) = Some (PFloat x).
Proof.
  destruct x as [|neg|neg m e]; intros Hb; try (now destruct neg).
  - reflexivity.
  - cbn [Json.floatstr Json.decode]. unfold Json.decode_number.
    fold is_marker. rewrite float_repr_marker.
    now rewrite (float_of_string_repr neg m e Hb).
Qed.

Import Aux.
Local Open Scope string_scope.
Local Open Scope Z_scope.

(** * Saving and loading the database *)

Lemma decode_encode_record (v : pyval) :
  valid_record v -> Json.decode (Json.encode v) = Some v.
Proof.
  intros (flight_id & origin & destination & dep_str & arr_str & dep & arr
          & price & -> & _ & _ & _ & _ & _ & _ & Hb & _).
  unfold mk_flight.
  cbn [Json.encode map fst snd Json.decode fold_left].
  rewrite (decode_floatstr price Hb).
  reflexivity.
Qed.

Lemma decode_encode_records (flights : list pyval) :
  Forall valid_record flights ->
  Json.decode (Json.encode (PList flights)) = Some (PList flights).
Proof.
  intros H. cbn [Json.encode Json.decode].
  assert (E : fold_right
                (fun j acc =>
                   match Json.decode j, acc with
                   | Some v, Some l => Some (v :: l)
                   | _, _ => None
                   end) (Some []) (map Json.encode flights) = Some flights).
  { induction H as [|v l Hv Hl IH]; [reflexivity|].
    cbn [map fold_right]. rewrite IH.
    now rewrite (decode_encode_record v Hv). }
  unfold dict in *. rewrite E. reflexivity.
Qed.

Lemma read_written (fs : filesystem) (path : string) (content : Json.doc) :
  write_file fs path content path = Some content.
Proof. unfold write_file. now rewrite String.eqb_refl. Qed.

(** C4: saving a list of valid flight records and loading the file back
    gives the same list: the same records, field for field, in the same
    order. *)
Theorem save_load_round_trip
    (flights : list pyval) (path : string) (fs : filesystem) :
  Forall valid_record flights ->
  load_db_json path (save_db_json flights path fs) = Ok flights.
Proof.
  intros H. unfold load_db_json, save_db_json.
  rewrite read_written.
  now rewrite (decode_encode_records flights H).
Qed.

Lemma sample_flight_valid : valid_record (PDict sample_flight).
Proof.
  exists "AB12", "JFK", "LAX", "2024-05-01 10:00", "2024-05-01 12:00",
    (mkdt 2024 5 1 10 0), (mkdt 2024 5 1 12 0),
    (Ffin false 7036874417766400 (-46)).
  repeat split; try reflexivity; try (vm_compute; discriminate).
  left. vm_compute. discriminate.
Qed.

Lemma save_load_round_trip_witness :
  Forall valid_record [PDict sample_flight; PDict sample_flight] /\
  load_db_json "db.json"
    (save_db_json [PDict sample_flight; PDict sample_flight] "db.json" sample_fs)
  = Ok [PDict sample_flight; PDict sample_flight].
Proof.
  assert (H : Forall valid_record [PDict sample_flight; PDict sample_flight])
    by (repeat constructor; apply sample_flight_valid).
  split; [exact H|].
  apply (save_load_round_trip [PDict sample_flight; PDict sample_flight]
           "db.json" sample_fs H).
Defined.

Example save_sample :
  save_db_json [PDict sample_flight] "db.json" sample_fs "db.json"
  = Some (Json.JArray
            [Json.JObject
               [("flight_id", Json.JString "AB12");
                ("origin", Json.JString "JFK");
                ("destination", Json.JString "LAX");
                ("departure_datetime", Json.JString "2024-05-01 10:00");
                ("arrival_datetime", Json.JString "2024-05-01 12:00");
                ("price", Json.JNumber "100.0")]]).
Proof. vm_compute. reflexivity. Qed.

Import Aux.
Local Open Scope string_scope.
Local Open Scope Z_scope.

(** * The numbers [float] returns are binary64 *)

Lemma rne_div_bounds (a b K : Z) :
  0 < b -> 0 <= a ->
  0 <= rne_div a b /\
  (K * b <= a -> K <= rne_div a b) /\
  (a < K * b -> rne_div a b <= K).
Proof.
  intros Hb Ha.
  pose proof (Z.div_pos a b Ha Hb) as Hq.
  pose proof (Z.mul_div_le a b Hb) as Hlo.
  pose proof (Z.mul_succ_div_gt a b Hb) as Hhi.
  assert (Hc : rne_div a b = a / b \/ rne_div a b = a / b + 1)
    by apply rne_div_cases.
  repeat split.
  - lia.
  - intros H. assert (K <= a / b) by (apply Z.div_le_lower_bound; lia). lia.
  - intros H. assert (a / b < K) by (apply Z.div_lt_upper_bound; lia). lia.
Qed.

Lemma round_ratio_binary64 (neg : bool) (p q : Z) :
  0 <= p -> 0 < q -> binary64 (round_ratio neg p q).
Proof.
  intros Hp Hq. unfold round_ratio.
  destruct (Z.eqb_spec p 0) as [->|Hne].
  - cbn. unfold emin, emax. repeat split; try lia; now right.
  - assert (Hp' : 0 < p) by lia.
    pose proof (binade_spec p q Hp' Hq) as Hbin.
    set (e0 := binade p q) in *. set (e := Z.max e0 emin).
    destruct (scale_pos p q Hp' Hq e) as [Ha Hb].
    assert (Hup : fst (scale p q e) < 2 ^ 53 * snd (scale p q e)).
    { destruct (Z.le_gt_cases emin e0) as [Hge|Hlt].
      - unfold e. rewrite Z.max_l by assumption. apply Hbin.
      - unfold e. rewrite Z.max_r by lia.
        pose proof (scale_shift p q e0 emin ltac:(lia)) as S.
        destruct Hbin as [_ Hbin].
        destruct (scale_pos p q Hp' Hq e0) as [Ha0 Hb0].
        destruct (scale_pos p q Hp' Hq emin) as [Ha1 Hb1].
        assert (1 <= 2 ^ (emin - e0)).
        { assert (0 < 2 ^ (emin - e0)) by (apply Z.pow_pos_nonneg; lia). lia. }
        set (a0 := fst (scale p q e0)) in *. set (b0 := snd (scale p q e0)) in *.
        set (a1 := fst (scale p q emin)) in *. set (b1 := snd (scale p q emin)) in *.
        remember (2 ^ (emin - e0)) as X. remember (2 ^ 53) as K.
        assert (a1 * b0 <= a1 * b0 * X) by nia.
        assert (a0 * b1 < K * b0 * b1) by nia.
        nia. }
    assert (Hlow : emin < e -> 2 ^ 52 * snd (scale p q e) <= fst (scale p q e)).
    { intros Hlt. unfold e in *. rewrite Z.max_l in * by lia. apply Hbin. }
    assert (Hsub : fst (scale p q e) < 2 ^ 52 * snd (scale p q e) -> e = emin)
      by lia.
    assert (He : emin <= e) by (unfold e; lia).
    destruct (scale p q e) as [a b]. cbn [fst snd] in *.
    destruct (rne_div_bounds a b (2 ^ 53) Hb ltac:(lia)) as (H0 & _ & H53).
    destruct (rne_div_bounds a b (2 ^ 52) Hb ltac:(lia)) as (_ & H52 & _).
    specialize (H53 Hup).
    destruct (Z.eqb_spec (rne_div a b) (2 ^ 53)) as [E|E].
    + destruct (Z.ltb_spec emax (e + 1)); [exact I|].
      cbn. unfold emin, emax in *. repeat split; try lia; now left.
    + destruct (Z.ltb_spec emax e); [exact I|].
      cbn. split; [lia|]. split; [lia|].
      destruct (Z.le_gt_cases (2 ^ 52 * b) a) as [Hge|Hlt].
      * left. now apply H52.
      * right. now apply Hsub.
Qed.

Lemma round_decimal_binary64 (neg : bool) (d k : Z) :
  0 <= d -> binary64 (round_decimal neg d k).
Proof.
  intros Hd. unfold round_decimal. destruct (Z.leb_spec 0 k).
  - apply round_ratio_binary64; [|lia].
    apply Z.mul_nonneg_nonneg; [assumption|]. apply Z.pow_nonneg. lia.
  - apply round_ratio_binary64; [assumption|].
    apply Z.pow_pos_nonneg; lia.
Qed.

Lemma digits_val_from_nonneg (s : string) (acc : Z) :
  forallb_s isdigit s = true -> 0 <= acc -> 0 <= digits_val_from acc s.
Proof.
  revert acc. induction s as [|c s IH]; intros acc;
    cbn [digits_val_from forallb_s]; [auto|].
  intros H Hacc. apply andb_true_iff in H. destruct H as [Hc Hs].
  apply IH; [assumption|]. pose proof (isdigit_val c Hc). lia.
Qed.

Lemma float_of_string_binary64 (s : string) (x : float) :
  float_of_string s = Some x -> binary64 x.
Proof.
  unfold float_of_string.
  destruct (drop_underscores "000" s) as [s'|]; [|discriminate].
  destruct (lstrip_by c_isspace s') as [|c s1]; [discriminate|].
  unfold float_of_stripped.
  set (t := rstrip_by c_isspace (String c s1)).
  destruct (strtod t) as [[y r]|] eqn:E.
  - destruct r; [|discriminate]. intros [= <-].
    unfold strtod in E.
    destruct (take_sign t) as [neg t1].
    destruct (span isdigit t1) as [ip t2] eqn:Ei.
    apply span_spec in Ei. destruct Ei as (_ & Hip & _).
    assert (Hfp : exists fp t3,
               match t2 with
               | String c0 r0 =>
                   if Ascii.eqb c0 "." then span isdigit r0 else ("", t2)
               | "" => ("", t2)
               end = (fp, t3) /\ forallb_s isdigit fp = true).
    { destruct t2 as [|c0 r0]; [now exists "", ""|].
      destruct (Ascii.eqb c0 "."); [|now exists "", (String c0 r0)].
      destruct (span isdigit r0) as [fp t3] eqn:Ef.
      apply span_spec in Ef. destruct Ef as (_ & Hfp & _).
      now exists fp, t3. }
    destruct Hfp as (fp & t3 & Ef & Hfp). rewrite Ef in E.
    destruct (negb (truthy ip) && negb (truthy fp)); [discriminate|].
    destruct (read_exponent t3) as [e t4]. injection E as <- _.
    apply round_decimal_binary64.
    apply digits_val_from_nonneg; [|lia].
    now rewrite forallb_s_app, Hip, Hfp.
  - destruct (parse_inf_or_nan t) as [[y r]|] eqn:E'; [|discriminate].
    destruct r; [|discriminate]. intros [= <-].
    unfold parse_inf_or_nan in E'.
    destruct (take_sign t) as [neg t1].
    destruct (ci_match "inf" t1).
    + destruct (ci_match "inity" s0); injection E' as <- _; exact I.
    + destruct (ci_match "nan" t1); [|discriminate].
      injection E' as <- _. exact I.
Qed.

(** A row the validator accepts with a price that is a number is a valid
    flight record. *)
Lemma validate_row_valid_record (fields : list string) (line_no : Z)
    (original_line : string) (flight : dict) (msg : string) :
  validate_row fields line_no original_line = (true, Some flight, msg) ->
  dict_get "price" flight <> Some (PFloat Fnan) ->
  valid_record (PDict flight).
Proof.
  intros H Hnan.
  pose proof (validate_row_accepted _ _ _ _ _ H)
    as (f0 & f1 & f2 & f3 & f4 & f5 & _ & Hnil & Ef).
  apply validate_row_accepted_constraints in H.
  destruct H as (fid & o & d & dep_str & arr_str & dep & arr & price & -> &
                 H1 & H2 & H3 & H4 & H5 & H6 & H7).
  exists fid, o, d, dep_str, arr_str, dep, arr, price.
  repeat split; try assumption.
  - unfold mk_flight in Ef. injection Ef as _ _ _ _ _ Ep.
    destruct (parse_price_str (strip f5)) as [p|] eqn:E; [|discriminate Ep].
    injection Ep as ->.
    rewrite parse_price_str_float in E.
    exact (float_of_string_binary64 _ _ E).
  - destruct H7 as [H7| ->]; [assumption|]. now elim Hnan.
Qed.

Import PyText Os.
Import CsvSpec FileAux.
Local Open Scope string_scope.
Local Open Scope Z_scope.

(** * The CSV reader on one line *)

Lemma pieces_cons (s : string) : exists p ps, pieces s = p :: ps.
Proof.
  destruct s as [|c s]; cbn [pieces]; [now exists "", []|].
  destruct (Ascii.eqb c ","); [now eexists _, _|].
  destruct (pieces s); now eexists _, _.
Qed.

(** A text without commas in front of a text joins its first piece. *)
Lemma pieces_app (f s : string) :
  comma_free f ->
  exists p ps, pieces s = p :: ps /\ pieces (f ++ s) = (f ++ p) :: ps.
Proof.
  unfold comma_free. induction f as [|c f IH]; cbn [forallb_s String.append].
  - intros _. destruct (pieces_cons s) as (p & ps & E). now exists p, ps.
  - intros H. apply andb_true_iff in H. destruct H as [Hc Hf].
    apply negb_true_iff in Hc.
    destruct (IH Hf) as (p & ps & E1 & E2).
    exists p, ps. split; [assumption|].
    cbn [pieces]. now rewrite Hc, E2.
Qed.

Lemma pieces_comma_free (f : string) : comma_free f -> pieces f = [f].
Proof.
  intros H. destruct (pieces_app f "" H) as (p & ps & E1 & E2).
  cbn in E1. injection E1 as <- <-.
  now rewrite !append_empty_r in E2.
Qed.

Lemma pieces_comma (f s : string) :
  comma_free f -> pieces (f ++ String "," s) = f :: pieces s.
Proof.
  intros H. destruct (pieces_app f (String "," s) H) as (p & ps & E1 & E2).
  cbn in E1. injection E1 as <- <-.
  now rewrite append_empty_r in E2.
Qed.

Lemma comma_free_snoc (f : string) (c : ascii) :
  comma_free f -> Ascii.eqb c "," = false -> comma_free (f ++ String c "").
Proof.
  unfold comma_free. intros Hf Hc.
  rewrite forallb_s_app, Hf. cbn. now rewrite Hc.
Qed.

(** The first piece of a text that goes on with a character other than
    the comma holds that character. *)
Lemma first_piece_longer (f s : string) (c : ascii) :
  comma_free f -> Ascii.eqb c "," = false ->
  Forall (fun p => len p <= PyCsv.field_limit) (pieces (f ++ String c s)) ->
  len f < PyCsv.field_limit.
Proof.
  intros Hf Hc H.
  destruct (pieces_app (f ++ String c "") s (comma_free_snoc f c Hf Hc))
    as (p & ps & _ & E).
  rewrite append_assoc in E. cbn [String.append] in E.
  rewrite E in H. apply Forall_inv in H.
  rewrite !len_app in H. pose proof (len_nonneg p).
  change (len (String c "")) with 1 in H. lia.
Qed.

Lemma plain_cons (c : ascii) (s : string) :
  plain (String c s) ->
  Ascii.eqb c dquote = false /\ PyCsv.is_newline c = false /\ plain s.
Proof.
  unfold plain. cbn [forallb_s]. intros H.
  apply andb_true_iff in H. destruct H as [Hc Hs].
  apply negb_true_iff, orb_false_iff in Hc. tauto.
Qed.

(** From the start of a field or inside one, a text without quotes and
    line ends is cut at its commas. *)
Lemma feed_plain (s : string) :
  forall (st : PyCsv.state) (fs : list string) (f : string),
    st = PyCsv.START_FIELD \/ st = PyCsv.IN_FIELD ->
    comma_free f -> plain s ->
    Forall (fun p => len p <= PyCsv.field_limit) (pieces (f ++ s)) ->
    PyCsv.feed (PyCsv.mkreader st fs f) s
    = Some (PyCsv.mkreader PyCsv.START_RECORD (fs ++ pieces (f ++ s)) "").
Proof.
  induction s as [|c s IH]; intros st fs f Hst Hf Hp Hlen.
  - rewrite append_empty_r, (pieces_comma_free f Hf).
    destruct Hst as [-> | ->]; reflexivity.
  - apply plain_cons in Hp. destruct Hp as (Hq & Hn & Hp).
    cbn [PyCsv.feed].
    destruct (Ascii.eqb c ",") eqn:Hc.
    + apply Ascii.eqb_eq in Hc. subst c.
      rewrite (pieces_comma f s Hf) in *.
      apply Forall_inv_tail in Hlen.
      assert (E : PyCsv.parse_process_char (PyCsv.mkreader st fs f) (Some ","%char)
                  = Some (PyCsv.mkreader PyCsv.START_FIELD (fs ++ [f]) ""))
        by (destruct Hst as [-> | ->]; reflexivity).
      rewrite E.
      rewrite (IH PyCsv.START_FIELD (fs ++ [f])%list "" (or_introl eq_refl)
                 eq_refl Hp Hlen).
      cbn [String.append]. now rewrite <- app_assoc.
    + pose proof (first_piece_longer f s c Hf Hc Hlen) as Hlt.
      assert (E : PyCsv.parse_process_char (PyCsv.mkreader st fs f) (Some c)
                  = Some (PyCsv.mkreader PyCsv.IN_FIELD fs (f ++ String c ""))).
      { unfold PyCsv.parse_process_char, PyCsv.start_field, PyCsv.parse_add_char.
        destruct Hst as [-> | ->]; cbn [PyCsv.state_of PyCsv.field PyCsv.fields];
          unfold PyCsv.quotechar, PyCsv.delimiter; rewrite Hn, ?Hq, Hc;
          apply Z.ltb_lt in Hlt; rewrite Z.leb_antisym, Hlt; reflexivity. }
      rewrite E.
      assert (Ea : (f ++ String c "") ++ s = f ++ String c s)
        by now rewrite append_assoc.
      rewrite (IH PyCsv.IN_FIELD fs (f ++ String c "") (or_intror eq_refl)
                 (comma_free_snoc f c Hf Hc) Hp); rewrite Ea; auto.
Qed.

(** The end of a line leaves the reader at the start of a record or
    inside a quoted field. *)
Lemma end_of_line_state (r r' : PyCsv.reader) :
  PyCsv.parse_process_char r None = Some r' ->
  PyCsv.state_of r' = PyCsv.START_RECORD \/
  PyCsv.state_of r' = PyCsv.IN_QUOTED_FIELD.
Proof.
  unfold PyCsv.parse_process_char, PyCsv.start_field.
  destruct (PyCsv.state_of r) eqn:E; intros [= <-]; cbn; auto.
Qed.

Lemma feed_state (s : string) :
  forall r r', PyCsv.feed r s = Some r' ->
    PyCsv.state_of r' = PyCsv.START_RECORD \/
    PyCsv.state_of r' = PyCsv.IN_QUOTED_FIELD.
Proof.
  induction s as [|c s IH]; intros r r'; cbn [PyCsv.feed].
  - apply end_of_line_state.
  - destruct (PyCsv.parse_process_char r (Some c)) as [r1|]; [|discriminate].
    apply IH.
Qed.

(** Asking for the row of one line. *)
Lemma next_one_line (line : string) :
  match PyCsv.feed PyCsv.parse_reset line with
  | None => PyCsv.next [line] = PyCsv.Error
  | Some _ => exists row, PyCsv.next [line] = PyCsv.Record_ row []
  end.
Proof.
  unfold PyCsv.next. cbn [PyCsv.next_from].
  destruct (PyCsv.feed PyCsv.parse_reset line) as [r'|] eqn:E; [|reflexivity].
  destruct (feed_state _ _ _ E) as [Hs|Hs]; rewrite Hs.
  - now exists (PyCsv.fields r').
  - cbn [PyCsv.in_quoted_field]. rewrite orb_true_r. now eexists.
Qed.

Lemma csv_reader_unfold (line : string) :
  PyCsv.csv_reader [line] =
  match PyCsv.next [line] with
  | PyCsv.Record_ row rest => PyCsv.Row row (PyCsv.reader_fuel 1 rest)
  | PyCsv.StopIteration => PyCsv.Stop
  | PyCsv.Error => PyCsv.Fail
  end.
Proof. reflexivity. Qed.

(** One line gives one row, unless the reader fails. *)
Lemma csv_reader_one_line (line : string) :
  PyCsv.csv_reader [line] = PyCsv.Fail \/
  exists row, PyCsv.csv_reader [line] = PyCsv.Row row PyCsv.Stop.
Proof.
  rewrite csv_reader_unfold.
  pose proof (next_one_line line) as H.
  destruct (PyCsv.feed PyCsv.parse_reset line).
  - destruct H as (row & ->). right. now exists row.
  - rewrite H. now left.
Qed.

(** A character that is no line end never fails the reader while the
    field has room, and does not bring it to the state where line ends
    are eaten. *)
Lemma process_char_room (r : PyCsv.reader) (c : ascii) :
  PyCsv.is_newline c = false ->
  PyCsv.state_of r <> PyCsv.EAT_CRNL ->
  len (PyCsv.field r) < PyCsv.field_limit ->
  exists r', PyCsv.parse_process_char r (Some c) = Some r' /\
    PyCsv.state_of r' <> PyCsv.EAT_CRNL /\
    len (PyCsv.field r') <= len (PyCsv.field r) + 1.
Proof.
  destruct r as [st fs f]. cbn [PyCsv.state_of PyCsv.field].
  intros Hn Hs Hlen.
  assert (Hl : len (f ++ String c "") = len f + 1)
    by (rewrite len_app; reflexivity).
  pose proof (len_nonneg f) as H0.
  assert (Hr : (PyCsv.field_limit <=? len f) = false) by now apply Z.leb_gt.
  unfold PyCsv.parse_process_char, PyCsv.start_field, PyCsv.parse_add_char.
  cbn [PyCsv.state_of PyCsv.field PyCsv.fields PyCsv.set_state
       PyCsv.parse_save_field].
  destruct st; [| | | | |now elim Hs];
    rewrite ?Hn, ?Hr; cbn [option_map];
    repeat match goal with
      | |- context [if ?b then _ else _] => destruct b
      end;
    eexists; (split; [reflexivity|]);
    cbn [PyCsv.state_of PyCsv.field PyCsv.set_state PyCsv.parse_save_field];
    rewrite ?Hl; (split; [discriminate|]);
    change (len "") with 0; lia.
Qed.

Lemma feed_room (s : string) :
  forall r,
    forallb_s no_newline s = true ->
    PyCsv.state_of r <> PyCsv.EAT_CRNL ->
    len (PyCsv.field r) + len s <= PyCsv.field_limit ->
    exists r', PyCsv.feed r s = Some r'.
Proof.
  induction s as [|c s IH]; intros r Hn Hs Hlen; cbn [PyCsv.feed].
  - unfold PyCsv.parse_process_char, PyCsv.start_field.
    destruct (PyCsv.state_of r); [| | | | |now elim Hs]; now eexists.
  - cbn [forallb_s] in Hn. apply andb_true_iff in Hn. destruct Hn as [Hc Hn].
    apply negb_true_iff in Hc.
    change (len (String c s)) with (Z.of_nat (S (String.length s))) in Hlen.
    rewrite Nat2Z.inj_succ in Hlen. fold (len s) in Hlen.
    pose proof (len_nonneg s).
    destruct (process_char_room r c Hc Hs ltac:(lia)) as (r1 & -> & Hs1 & Hl1).
    apply IH; [assumption|assumption|lia].
Qed.

(** A line without line ends that is no longer than a field may be never
    fails the reader. *)
Lemma csv_reader_room (line : string) :
  forallb_s no_newline line = true ->
  len line <= PyCsv.field_limit ->
  exists row, PyCsv.csv_reader [line] = PyCsv.Row row PyCsv.Stop.
Proof.
  intros Hn Hlen.
  rewrite csv_reader_unfold.
  pose proof (next_one_line line) as H.
  destruct (feed_room line PyCsv.parse_reset Hn ltac:(discriminate)
              ltac:(cbn [PyCsv.field PyCsv.parse_reset];
                    change (len "") with 0; lia)) as (r' & E).
  rewrite E in H. destruct H as (row & ->). now exists row.
Qed.

(** X1: a line that is not empty, has no quote and no line end, and
    whose pieces between the commas are no longer than a field may be,
    is read by [csv.reader] as one row: these pieces. *)
Theorem csv_reader_plain_line (line : string) :
  line <> "" -> plain line -> short_pieces line ->
  PyCsv.csv_reader [line] = PyCsv.Row (pieces line) PyCsv.Stop.
Proof.
  intros Hne Hp Hlen.
  destruct line as [|c s]; [now elim Hne|].
  pose proof (plain_cons c s Hp) as (Hq & Hn & _).
  rewrite csv_reader_unfold. unfold PyCsv.next. cbn [PyCsv.next_from].
  assert (E : PyCsv.feed PyCsv.parse_reset (String c s)
              = PyCsv.feed (PyCsv.mkreader PyCsv.START_FIELD [] "") (String c s)).
  { cbn [PyCsv.feed]. unfold PyCsv.parse_process_char at 1.
    cbn [PyCsv.state_of PyCsv.parse_reset]. now rewrite Hn. }
  rewrite E.
  rewrite (feed_plain (String c s) PyCsv.START_FIELD [] ""
             (or_introl eq_refl) eq_refl Hp Hlen).
  reflexivity.
Qed.

Lemma csv_reader_plain_line_witness :
  "AB12,JFK,,x" <> "" /\ plain "AB12,JFK,,x" /\ short_pieces "AB12,JFK,,x" /\
  PyCsv.csv_reader ["AB12,JFK,,x"]
  = PyCsv.Row ["AB12"; "JFK"; ""; "x"] PyCsv.Stop.
Proof.
  assert (H1 : "AB12,JFK,,x" <> "") by discriminate.
  assert (H2 : plain "AB12,JFK,,x") by reflexivity.
  assert (H3 : short_pieces "AB12,JFK,,x")
    by (unfold short_pieces; cbn; repeat constructor; discriminate).
  split; [exact H1|]. split; [exact H2|]. split; [exact H3|].
  exact (csv_reader_plain_line "AB12,JFK,,x" H1 H2 H3).
Defined.

Import PyText Os.
Import CsvSpec FileAux.
Local Open Scope string_scope.
Local Open Scope Z_scope.

(** * Lines and messages *)

Lemma line_feeds_app (a b : string) :
  line_feeds (a ++ b) = (line_feeds a + line_feeds b)%nat.
Proof.
  induction a as [|c a IH]; cbn [String.append line_feeds]; [reflexivity|].
  rewrite IH. lia.
Qed.

Lemma line_feeds_none (s : string) :
  forallb_s no_lf s = true -> line_feeds s = O.
Proof.
  induction s as [|c s IH]; cbn [forallb_s line_feeds]; [reflexivity|].
  intros H. apply andb_true_iff in H. destruct H as [Hc Hs].
  unfold no_lf in Hc. apply negb_true_iff in Hc.
  now rewrite Hc, (IH Hs).
Qed.

Lemma forallb_s_weaken (p q : ascii -> bool) (s : string) :
  (forall c, p c = true -> q c = true) ->
  forallb_s p s = true -> forallb_s q s = true.
Proof.
  intros Hpq. induction s as [|c s IH]; cbn [forallb_s]; [reflexivity|].
  intros H. apply andb_true_iff in H. destruct H as [Hc Hs].
  now rewrite (Hpq c Hc), (IH Hs).
Qed.

(** What is left of a text after [rstrip] keeps the properties of its
    characters and is no longer. *)
Lemma rstrip_by_forallb (p q : ascii -> bool) (s : string) :
  forallb_s p s = true -> forallb_s p (rstrip_by q s) = true.
Proof.
  intros H. destruct (rstrip_by_spec q s) as (w & E & _).
  rewrite E, forallb_s_app in H. now apply andb_true_iff in H.
Qed.

Lemma lstrip_by_forallb (p q : ascii -> bool) (s : string) :
  forallb_s p s = true -> forallb_s p (lstrip_by q s) = true.
Proof.
  intros H. destruct (lstrip_by_spec q s) as (w & E & _).
  rewrite E, forallb_s_app in H. now apply andb_true_iff in H.
Qed.

Lemma rstrip_by_len (q : ascii -> bool) (s : string) :
  len (rstrip_by q s) <= len s.
Proof.
  destruct (rstrip_by_spec q s) as (w & E & _).
  rewrite E at 2. rewrite len_app. pose proof (len_nonneg w). lia.
Qed.

(** The lines of a text have the properties of its characters. *)
Lemma split_lines_forallb (p : ascii -> bool) (s : string) :
  forallb_s p s = true ->
  Forall (fun l => forallb_s p l = true) (split_lines s).
Proof.
  induction s as [|c s IH]; cbn [forallb_s split_lines]; [constructor|].
  intros H. apply andb_true_iff in H. destruct H as [Hc Hs].
  specialize (IH Hs).
  destruct (Ascii.eqb c LF).
  - constructor; [cbn; now rewrite Hc|assumption].
  - destruct (split_lines s) as [|l ls].
    + constructor; [cbn; now rewrite Hc|constructor].
    + inversion IH; subst. constructor; [cbn; now rewrite Hc|assumption].
Qed.

(** A line has no line feed but its last character. *)
Lemma split_lines_rstrip (s : string) :
  Forall (fun l => forallb_s no_lf (rstrip_newline l) = true) (split_lines s).
Proof.
  induction s as [|c s IH]; cbn [split_lines]; [constructor|].
  destruct (Ascii.eqb c LF) eqn:Ec.
  - constructor; [|assumption].
    apply Ascii.eqb_eq in Ec. subst c. reflexivity.
  - assert (Hc : no_lf c = true) by (unfold no_lf; now rewrite Ec).
    destruct (split_lines s) as [|l ls].
    + constructor; [|constructor].
      unfold rstrip_newline. cbn [rstrip_by].
      rewrite Ascii.eqb_sym, Ec. cbn. now rewrite Hc.
    + inversion IH as [|? ? Hl Hls]; subst. constructor; [|assumption].
      unfold rstrip_newline in *. cbn [rstrip_by].
      destruct (rstrip_by (Ascii.eqb LF) l) as [|c' r'].
      * rewrite Ascii.eqb_sym, Ec. cbn. now rewrite Hc.
      * cbn [forallb_s]. cbn [forallb_s] in Hl. now rewrite Hc.
Qed.

(** Universal newlines leave no carriage return. *)
Lemma translate_newlines_no_cr (s : string) :
  forallb_s no_cr (translate_newlines s) = true /\
  forall c, forallb_s no_cr (translate_newlines (String c s)) = true.
Proof.
  induction s as [|c' s [IH1 IH2]].
  - split; [reflexivity|]. intros c. cbn [translate_newlines].
    destruct (Ascii.eqb c CR) eqn:Ec; [reflexivity|].
    cbn. unfold no_cr. now rewrite Ec.
  - split; [apply IH2|]. intros c.
    change (translate_newlines (String c (String c' s))) with
      (if Ascii.eqb c CR then
         if Ascii.eqb c' LF then String LF (translate_newlines s)
         else String LF (translate_newlines (String c' s))
       else String c (translate_newlines (String c' s))).
    destruct (Ascii.eqb c CR) eqn:Ec.
    + destruct (Ascii.eqb c' LF); cbn [forallb_s];
        [rewrite IH1|rewrite IH2]; reflexivity.
    + cbn [forallb_s]. rewrite IH2. unfold no_cr. now rewrite Ec.
Qed.

(** What the parser reads on a line of a file has no line end. *)
Lemma readlines_no_newline (content : string) :
  Forall (fun l => forallb_s no_newline (rstrip_newline l) = true)
    (readlines content).
Proof.
  unfold readlines.
  pose proof (split_lines_rstrip (translate_newlines content)) as H1.
  pose proof (split_lines_forallb no_cr _
                (proj1 (translate_newlines_no_cr content))) as H2.
  induction H1 as [|l ls Hl _ IH]; [constructor|].
  inversion H2 as [|? ? Hc Hcs]; subst.
  constructor; [|now apply IH].
  apply (rstrip_by_forallb no_cr (Ascii.eqb LF)) in Hc.
  fold (rstrip_newline l) in Hc.
  revert Hl Hc. generalize (rstrip_newline l) as t.
  induction t as [|c t IHt]; cbn [forallb_s]; [reflexivity|].
  intros H H'. apply andb_true_iff in H, H'.
  destruct H as [A1 A2], H' as [B1 B2].
  rewrite (IHt A2 B2), andb_true_r.
  unfold no_newline, PyCsv.is_newline, no_lf, no_cr in *.
  apply negb_true_iff in A1, B1. now rewrite A1, B1.
Qed.

Lemma readlines_no_lf (content : string) :
  Forall (fun l => forallb_s no_lf (rstrip_newline l) = true)
    (readlines content).
Proof. apply split_lines_rstrip. Qed.

(** The digits of a number have no line feed. *)
Lemma digit_no_lf (c : ascii) : isdigit c = true -> no_lf c = true.
Proof.
  unfold no_lf, LF. codes. change (code "010") with 10.
  intros H. bools. apply negb_true_iff, Z.eqb_neq. lia.
Qed.

Lemma str_of_int_no_lf (n : Z) : forallb_s no_lf (str_of_int n) = true.
Proof.
  unfold str_of_int. destruct (n <? 0) eqn:E.
  - apply Z.ltb_lt in E. cbn [String.append forallb_s].
    destruct (digits_of_spec (- n) ltac:(lia)) as (_ & H & _).
    now rewrite (forallb_s_weaken isdigit no_lf _ digit_no_lf H).
  - apply Z.ltb_ge in E.
    destruct (digits_of_spec n E) as (_ & H & _).
    exact (forallb_s_weaken isdigit no_lf _ digit_no_lf H).
Qed.

Lemma join_no_lf (reasons : list string) :
  Forall (fun r => forallb_s no_lf r = true) reasons ->
  forallb_s no_lf (join ", " reasons) = true.
Proof.
  induction 1 as [|r rs Hr Hrs IH]; [reflexivity|].
  cbn [join]. destruct rs as [|r' rs']; [assumption|].
  now rewrite !forallb_s_app, Hr, IH.
Qed.

Lemma diagnostic_no_lf (line_no : Z) (original_line : string)
    (reasons : list string) :
  forallb_s no_lf original_line = true ->
  Forall (fun r => forallb_s no_lf r = true) reasons ->
  forallb_s no_lf (diagnostic line_no original_line reasons) = true.
Proof.
  intros Hl Hr. unfold diagnostic.
  now rewrite !forallb_s_app, str_of_int_no_lf, Hl, (join_no_lf reasons Hr).
Qed.

Lemma comment_message_no_lf (line_no : Z) (original_line : string) :
  forallb_s no_lf original_line = true ->
  forallb_s no_lf (comment_message line_no original_line) = true.
Proof.
  intros Hl. unfold comment_message.
  now rewrite !forallb_s_app, str_of_int_no_lf, Hl.
Qed.

Lemma reasons_of_no_lf (a b c d e f : string) :
  Forall (fun r => forallb_s no_lf r = true) (RowSpec.reasons_of a b c d e f).
Proof.
  unfold RowSpec.reasons_of.
  apply Forall_app. split.
  { unfold RowSpec.flight_id_reasons.
    destruct (String.eqb a ""); [repeat constructor|].
    destruct (is_valid_flight_id a); [constructor|].
    destruct (8 <? len a); repeat constructor. }
  apply Forall_app. split.
  { unfold RowSpec.airport_reasons.
    destruct (String.eqb b ""); [repeat constructor|].
    destruct (is_valid_airport_code b); repeat constructor. }
  apply Forall_app. split.
  { unfold RowSpec.airport_reasons.
    destruct (String.eqb c ""); [repeat constructor|].
    destruct (is_valid_airport_code c); repeat constructor. }
  apply Forall_app. split.
  { unfold RowSpec.timestamp_reasons.
    destruct (parse_datetime_str d), (parse_datetime_str e);
      repeat constructor. }
  apply Forall_app. split.
  { unfold RowSpec.chronology_reasons.
    destruct (parse_datetime_str d) as [dep|]; [|constructor].
    destruct (parse_datetime_str e) as [arr|]; [|constructor].
    destruct (dt_leb arr dep); repeat constructor. }
  unfold RowSpec.price_reasons.
  destruct (parse_price_str f) as [p|]; [|repeat constructor].
  destruct (flt p fzero); [repeat constructor|].
  destruct (feq p fzero); repeat constructor.
Qed.

(** The validator gives a record and no message, or a message and no
    record; the message has no line feed when the line has none. *)
Lemma validate_row_shape (fields : list string) (line_no : Z)
    (original_line : string) :
  (exists flight,
     validate_row fields line_no original_line = (true, Some flight, "")) \/
  (exists msg,
     validate_row fields line_no original_line = (false, None, msg) /\
     (forallb_s no_lf original_line = true -> forallb_s no_lf msg = true)).
Proof.
  assert (Hother :
    forallb_s no_lf original_line = true ->
    forallb_s no_lf
      (diagnostic line_no original_line (append [] "missing required fields"))
    = true).
  { intros Hl. apply diagnostic_no_lf; [assumption|]. repeat constructor. }
  destruct fields as [|f0 [|f1 [|f2 [|f3 [|f4 [|f5 [|f6 rest]]]]]]];
    try (right; eexists; split; [reflexivity|exact Hother]).
  rewrite validate_row_reasons. cbv zeta.
  pose proof (reasons_of_no_lf (strip f0) (strip f1) (strip f2) (strip f3)
                (strip f4) (strip f5)) as Hr.
  destruct (RowSpec.reasons_of _ _ _ _ _ _) as [|r rs].
  - left. now eexists.
  - right. eexists. split; [reflexivity|].
    intros Hl. now apply diagnostic_no_lf.
Qed.

Import PyText Os.
Import CsvSpec FileAux.
Local Open Scope string_scope.
Local Open Scope Z_scope.

(** * Parsing a file: what happens to the disk *)

Lemma io_bind_done {A B : Type} (m : io A) (k : A -> io B) (d d1 : disk) (a : A) :
  m d = (d1, Done a) -> io_bind m k d = k a d1.
Proof. unfold io_bind. now intros ->. Qed.

Lemma io_bind_failed {A B : Type} (m : io A) (k : A -> io B) (d d1 : disk)
    (f : failure) :
  m d = (d1, Failed f) -> io_bind m k d = (d1, Failed f).
Proof. unfold io_bind. now intros ->. Qed.

Lemma extends_refl (d : disk) : extends d d.
Proof.
  split; [reflexivity|]. intros old H. exists "". now rewrite append_empty_r.
Qed.

Lemma extends_trans (d1 d2 d3 : disk) :
  extends d1 d2 -> extends d2 d3 -> extends d1 d3.
Proof.
  intros [A1 A2] [B1 B2]. split.
  - intros p Hp. now rewrite (B1 p Hp), (A1 p Hp).
  - intros old H. destruct (A2 old H) as (a & Ha).
    destruct (B2 _ Ha) as (b & Hb). exists (a ++ b).
    now rewrite <- append_assoc.
Qed.

Lemma set_entry_same (d : disk) (path : string) (e : option entry) :
  set_entry d path e path = e.
Proof. unfold set_entry. now rewrite String.eqb_refl. Qed.

Lemma set_entry_other (d : disk) (path p : string) (e : option entry) :
  p <> path -> set_entry d path e p = d p.
Proof.
  intros H. unfold set_entry. apply String.eqb_neq in H. now rewrite H.
Qed.

Lemma logging_bind {A B : Type} (m : io A) (k : A -> io B) :
  logging m -> (forall a, logging (k a)) -> logging (io_bind m k).
Proof.
  intros Hm Hk d. specialize (Hm d). unfold io_bind.
  destruct (m d) as [d1 [a|f]]; cbn [fst] in *; [|assumption].
  exact (extends_trans _ _ _ Hm (Hk a d1)).
Qed.

Lemma logging_ret {A : Type} (a : A) : logging (ret a).
Proof. intros d. apply extends_refl. Qed.

Lemma logging_raise {A : Type} (f : failure) : logging (@raise A f).
Proof. intros d. apply extends_refl. Qed.

Lemma logging_write (text : string) : logging (write ERRORS_TXT text).
Proof.
  intros d. unfold write. cbn [fst]. split.
  - intros p Hp. now apply set_entry_other.
  - intros old H. exists text. rewrite set_entry_same.
    unfold content_of. now rewrite H.
Qed.

Lemma logging_open_append : logging (open_append ERRORS_TXT).
Proof.
  intros d. unfold open_append.
  destruct (d ERRORS_TXT) as [[c|n]|] eqn:E; cbn [fst];
    try apply extends_refl.
  split.
  - intros p Hp. now apply set_entry_other.
  - intros old H. congruence.
Qed.

Lemma logging_open_read (path : string) : logging (open_read path).
Proof.
  intros d. unfold open_read.
  destruct (d path) as [[c|n]|]; apply extends_refl.
Qed.

Lemma logging_handle_row (fields : list string) (line_no : Z)
    (original_line : string) (valid_flights : list dict) :
  logging (handle_row fields line_no original_line valid_flights).
Proof.
  unfold handle_row.
  destruct (validate_row fields line_no original_line) as [[b fl] msg].
  destruct b, fl;
    try apply logging_ret;
    (apply logging_bind; [apply logging_write|intros; apply logging_ret]).
Qed.

Lemma logging_for_rows (rs : PyCsv.rows) (line_no : Z) (original_line : string) :
  forall valid_flights, logging (for_rows rs line_no original_line valid_flights).
Proof.
  induction rs as [row more IH| |]; intros vf; cbn [for_rows].
  - apply logging_bind; [apply logging_handle_row|intros; apply IH].
  - apply logging_ret.
  - apply logging_raise.
Qed.

Lemma logging_for_lines (lines : list string) :
  forall line_no header_skipped valid_flights,
    logging (for_lines lines line_no header_skipped valid_flights).
Proof.
  induction lines as [|raw rest IH]; intros n h vf; cbn [for_lines].
  - apply logging_ret.
  - destruct (negb (truthy _)); [apply IH|].
    destruct (negb h && _); [apply IH|].
    destruct (startswith "#" _).
    + apply logging_bind; [apply logging_write|intros; apply IH].
    + apply logging_bind; [apply logging_for_rows|intros; apply IH].
Qed.

Lemma logging_parse_csv_file (path : string) : logging (parse_csv_file path).
Proof.
  unfold parse_csv_file.
  apply logging_bind; [apply logging_open_read|intros content].
  apply logging_bind; [apply logging_open_append|intros _].
  apply logging_for_lines.
Qed.

(** X2: whatever its outcome, parsing a file changes nothing on the disk
    but the error log, and the text the log had is kept: what is
    written comes after it. *)
Theorem parse_csv_file_only_appends_to_log (path : string) (d : disk) :
  (forall p, p <> ERRORS_TXT -> fst (parse_csv_file path d) p = d p) /\
  (forall old, d ERRORS_TXT = Some (File old) ->
     exists added,
       fst (parse_csv_file path d) ERRORS_TXT = Some (File (old ++ added))).
Proof. exact (logging_parse_csv_file path d). Qed.

(** * Parsing a file: every line is answered *)

(** What the body of the loop over the rows does. *)
Lemma handle_row_cases (fields : list string) (line_no : Z)
    (original_line : string) (valid_flights : list dict) (d : disk) :
  (exists flight,
     validate_row fields line_no original_line = (true, Some flight, "") /\
     handle_row fields line_no original_line valid_flights d
     = (d, Done (valid_flights ++ [flight])%list)) \/
  (exists msg,
     validate_row fields line_no original_line = (false, None, msg) /\
     (forallb_s no_lf original_line = true -> forallb_s no_lf msg = true) /\
     handle_row fields line_no original_line valid_flights d
     = (set_entry d ERRORS_TXT
          (Some (File (content_of d ERRORS_TXT ++ msg ++ newline))),
        Done valid_flights)).
Proof.
  unfold handle_row.
  destruct (validate_row_shape fields line_no original_line)
    as [(flight & ->)|(msg & -> & Hmsg)].
  - left. now exists flight.
  - right. exists msg. repeat split; assumption.
Qed.

Lemma content_of_file (d : disk) (path text : string) :
  d path = Some (File text) -> content_of d path = text.
Proof. unfold content_of. now intros ->. Qed.

(** The loop over the lines, for a log that is a file. *)
Lemma for_lines_accounting (lines : list string) :
  forall line_no header_skipped valid_flights d old d' flights,
    Forall (fun l => forallb_s no_lf (rstrip_newline l) = true) lines ->
    d ERRORS_TXT = Some (File old) ->
    for_lines lines line_no header_skipped valid_flights d = (d', Done flights) ->
    exists added,
      d' ERRORS_TXT = Some (File (old ++ added)) /\
      (List.length flights + line_feeds added
       = List.length valid_flights + handled lines header_skipped)%nat.
Proof.
  induction lines as [|raw rest IH]; intros n h vf d old d' flights Hl Hd;
    cbn [for_lines handled].
  - intros [= <- <-]. exists "". rewrite append_empty_r. split; [assumption|].
    cbn. lia.
  - inversion Hl as [|? ? Hraw Hrest]; subst.
    unfold blank, header_like.
    destruct (negb (truthy (strip (rstrip_newline raw)))).
    { now apply IH. }
    destruct (negb h && _).
    { now apply IH. }
    destruct (startswith "#" _).
    + unfold io_bind, write. rewrite (content_of_file d _ old Hd).
      intros H. apply IH with (old := old ++ comment_message n (rstrip_newline raw)
                                           ++ newline) in H;
        [|assumption|apply set_entry_same].
      destruct H as (added & E1 & E2).
      exists ((comment_message n (rstrip_newline raw) ++ newline) ++ added).
      split; [now rewrite <- append_assoc|].
      rewrite !line_feeds_app,
        (line_feeds_none _ (comment_message_no_lf n _ Hraw)).
      cbn [line_feeds newline]. rewrite Ascii.eqb_refl. lia.
    + unfold io_bind at 1.
      destruct (csv_reader_one_line (rstrip_newline raw)) as [->|(row & ->)];
        cbn [for_rows].
      * unfold raise. discriminate.
      * unfold io_bind at 1.
        destruct (handle_row_cases row n (rstrip_newline raw) vf d)
          as [(flight & _ & ->)|(msg & _ & Hmsg & ->)]; unfold ret.
        -- intros H. apply IH with (old := old) in H; [|assumption|assumption].
           destruct H as (added & E1 & E2). exists added.
           split; [assumption|]. rewrite length_app in E2. cbn in E2. lia.
        -- rewrite (content_of_file d _ old Hd).
           intros H. apply IH with (old := old ++ msg ++ newline) in H;
             [|assumption|apply set_entry_same].
           destruct H as (added & E1 & E2).
           exists ((msg ++ newline) ++ added).
           split; [now rewrite <- append_assoc|].
           rewrite !line_feeds_app, (line_feeds_none _ (Hmsg Hraw)).
           cbn [line_feeds newline]. rewrite Ascii.eqb_refl. lia.
Qed.

(** X3: when a file has been parsed, every line of it that is not blank,
    the first header line apart, is answered once: the flights returned
    and the lines added to the error log are together as many as these
    lines. *)
Theorem parse_csv_file_answers_every_line
    (path content : string) (d d' : disk) (flights : list dict) :
  d path = Some (File content) ->
  parse_csv_file path d = (d', Done flights) ->
  exists added,
    d' ERRORS_TXT = Some (File (content_of d ERRORS_TXT ++ added)) /\
    (List.length flights + line_feeds added
     = handled (readlines content) false)%nat.
Proof.
  intros Hp. unfold parse_csv_file.
  unfold io_bind at 1. unfold open_read. rewrite Hp.
  unfold io_bind at 1. unfold open_append, content_of.
  destruct (d ERRORS_TXT) as [[old|names]|] eqn:E; [| |].
  - intros H.
    apply (for_lines_accounting _ _ _ _ _ old _ _ (readlines_no_lf content) E) in H.
    exact H.
  - discriminate.
  - intros H.
    apply (for_lines_accounting _ _ _ _ _ "" _ _ (readlines_no_lf content)
             (set_entry_same d _ _)) in H.
    exact H.
Qed.

Lemma parse_csv_file_answers_every_line_witness :
  exists d' flights,
    sample_disk "data/in.csv" = Some (File sample_csv) /\
    parse_csv_file "data/in.csv" sample_disk = (d', Done flights) /\
    exists added,
      d' ERRORS_TXT = Some (File (content_of sample_disk ERRORS_TXT ++ added)) /\
      (List.length flights + line_feeds added
       = handled (readlines sample_csv) false)%nat.
Proof.
  destruct (parse_csv_file "data/in.csv" sample_disk) as [d' [flights|f]] eqn:E.
  - exists d', flights. split; [reflexivity|]. split; [reflexivity|].
    exact (parse_csv_file_answers_every_line "data/in.csv" sample_csv
             sample_disk d' flights eq_refl E).
  - exfalso. vm_compute in E. discriminate E.
Defined.

(** * Parsing a file: no failure on lines of ordinary length *)

Lemma handle_row_done (fields : list string) (line_no : Z)
    (original_line : string) (valid_flights : list dict) (d : disk) :
  exists d' flights,
    handle_row fields line_no original_line valid_flights d = (d', Done flights).
Proof.
  destruct (handle_row_cases fields line_no original_line valid_flights d)
    as [(flight & _ & ->)|(msg & _ & _ & ->)]; now eexists _, _.
Qed.

Lemma for_lines_done (lines : list string) :
  forall line_no header_skipped valid_flights d,
    Forall (fun l => forallb_s no_newline (rstrip_newline l) = true) lines ->
    Forall (fun l => len l <= PyCsv.field_limit) lines ->
    exists d' flights,
      for_lines lines line_no header_skipped valid_flights d = (d', Done flights).
Proof.
  induction lines as [|raw rest IH]; intros n h vf d Hn Hl; cbn [for_lines].
  - now eexists _, _.
  - inversion Hn as [|? ? Hraw Hrest]; subst.
    inversion Hl as [|? ? Hlen Hlens]; subst.
    destruct (negb (truthy _)); [now apply IH|].
    destruct (negb h && _); [now apply IH|].
    destruct (startswith "#" _).
    + unfold io_bind, write. now apply IH.
    + unfold io_bind at 1.
      pose proof (rstrip_by_len (Ascii.eqb LF) raw) as Hle.
      fold (rstrip_newline raw) in Hle.
      destruct (csv_reader_room (rstrip_newline raw) Hraw ltac:(lia))
        as (row & ->).
      cbn [for_rows]. unfold io_bind at 1.
      destruct (handle_row_done row n (rstrip_newline raw) vf d)
        as (d1 & vf1 & ->).
      unfold ret. now apply IH.
Qed.

(** X4: a file of ASCII text that is there is parsed to the end, without
    an exception, when none of its lines is longer than 131072
    characters and the error log is not a folder: no content of a line
    of such a file (quotes that are not closed, a wrong number of
    fields, stray characters, a carriage return) makes the parser
    fail. *)
Theorem parse_csv_file_never_fails_on_content
    (path content : string) (d : disk) :
  d path = Some (File content) ->
  isascii content = true ->
  (forall names, d ERRORS_TXT <> Some (Dir names)) ->
  Forall (fun l => len l <= PyCsv.field_limit) (readlines content) ->
  exists d' flights, parse_csv_file path d = (d', Done flights).
Proof.
  intros Hp _ Hlog Hlen. unfold parse_csv_file.
  unfold io_bind at 1. unfold open_read. rewrite Hp.
  unfold io_bind at 1. unfold open_append.
  destruct (d ERRORS_TXT) as [[old|names]|] eqn:E.
  - apply for_lines_done; [apply readlines_no_newline|assumption].
  - now elim (Hlog names).
  - apply for_lines_done; [apply readlines_no_newline|assumption].
Qed.

Lemma parse_csv_file_never_fails_on_content_witness :
  sample_disk "data/in.csv" = Some (File sample_csv) /\
  isascii sample_csv = true /\
  (forall names, sample_disk ERRORS_TXT <> Some (Dir names)) /\
  Forall (fun l => len l <= PyCsv.field_limit) (readlines sample_csv) /\
  exists d' flights, parse_csv_file "data/in.csv" sample_disk = (d', Done flights).
Proof.
  assert (H1 : sample_disk "data/in.csv" = Some (File sample_csv)) by reflexivity.
  assert (H0 : isascii sample_csv = true) by (vm_compute; reflexivity).
  assert (H2 : forall names, sample_disk ERRORS_TXT <> Some (Dir names))
    by (intros names; discriminate).
  assert (H3 : Forall (fun l => len l <= PyCsv.field_limit) (readlines sample_csv))
    by (apply Forall_forall; intros l Hl; apply Z.leb_le; revert l Hl;
        apply forallb_forall; vm_compute; reflexivity).
  split; [exact H1|]. split; [exact H0|]. split; [exact H2|]. split; [exact H3|].
  exact (parse_csv_file_never_fails_on_content "data/in.csv" sample_csv
           sample_disk H1 H0 H2 H3).
Defined.

Import PyText Os.
Import CsvSpec FileAux.
Local Open Scope string_scope.
Local Open Scope Z_scope.

(** * The flights the parser returns *)

Lemma validate_row_accepted_record (fields : list string) (line_no : Z)
    (original_line : string) (flight : dict) (msg : string) :
  validate_row fields line_no original_line = (true, Some flight, msg) ->
  accepted_record flight.
Proof.
  intros H.
  pose proof (validate_row_accepted _ _ _ _ _ H)
    as (f0 & f1 & f2 & f3 & f4 & f5 & _ & _ & Ef).
  apply validate_row_accepted_constraints in H.
  destruct H as (fid & o & d & dep_str & arr_str & dep & arr & price & -> &
                 H1 & H2 & H3 & H4 & H5 & H6 & H7).
  exists fid, o, d, dep_str, arr_str, dep, arr, price.
  split; [reflexivity|].
  do 6 (split; [assumption|]). split; [|assumption].
  unfold mk_flight in Ef. injection Ef as _ _ _ _ _ Ep.
  destruct (parse_price_str (strip f5)) as [p|] eqn:E; [|discriminate Ep].
  injection Ep as ->.
  rewrite parse_price_str_float in E.
  exact (float_of_string_binary64 _ _ E).
Qed.

Lemma for_lines_accepted (lines : list string) :
  forall line_no header_skipped valid_flights d d' flights,
    Forall accepted_record valid_flights ->
    for_lines lines line_no header_skipped valid_flights d = (d', Done flights) ->
    Forall accepted_record flights.
Proof.
  induction lines as [|raw rest IH]; intros n h vf d d' flights Hvf;
    cbn [for_lines].
  - now intros [= <- <-].
  - destruct (negb (truthy _)); [now apply IH|].
    destruct (negb h && _); [now apply IH|].
    destruct (startswith "#" _).
    + unfold io_bind, write. now apply IH.
    + unfold io_bind at 1.
      destruct (csv_reader_one_line (rstrip_newline raw)) as [->|(row & ->)];
        cbn [for_rows].
      * unfold raise. discriminate.
      * unfold io_bind at 1.
        destruct (handle_row_cases row n (rstrip_newline raw) vf d)
          as [(flight & Hv & ->)|(msg & _ & _ & ->)]; unfold ret.
        -- apply IH. apply Forall_app. split; [assumption|].
           constructor; [|constructor].
           exact (validate_row_accepted_record _ _ _ _ _ Hv).
        -- now apply IH.
Qed.

Lemma parse_csv_file_accepted (path : string) (d d' : disk)
    (flights : list dict) :
  parse_csv_file path d = (d', Done flights) -> Forall accepted_record flights.
Proof.
  unfold parse_csv_file, io_bind.
  destruct (open_read path d) as [d1 [content|f]]; [|discriminate].
  destruct (open_append ERRORS_TXT d1) as [d2 [[]|f]]; [|discriminate].
  now apply for_lines_accepted.
Qed.

Lemma for_paths_accepted (paths : list string) :
  forall all_flights d d' flights,
    Forall accepted_record all_flights ->
    for_paths paths all_flights d = (d', Done flights) ->
    Forall accepted_record flights.
Proof.
  induction paths as [|path rest IH]; intros all d d' flights Hall;
    cbn [for_paths].
  - now intros [= <- <-].
  - unfold io_bind.
    destruct (parse_csv_file path d) as [d1 [fl|f]] eqn:E; [|discriminate].
    apply IH. apply Forall_app. split; [assumption|].
    exact (parse_csv_file_accepted _ _ _ _ E).
Qed.

Lemma parsed_accepted (path : string) (d d' : disk) (flights : list dict) :
  parsed path d d' flights -> Forall accepted_record flights.
Proof.
  intros [H|[H|H]].
  - exact (parse_csv_file_accepted _ _ _ _ H).
  - revert H. unfold parse_single_csv, io_bind.
    destruct (clear_errors d) as [d1 [[]|f]]; [|discriminate].
    apply parse_csv_file_accepted.
  - revert H. unfold parse_csv_folder, io_bind.
    destruct (clear_errors d) as [d1 [[]|f]]; [|discriminate].
    destruct (listdir path d1) as [d2 [names|f]]; [|discriminate].
    now apply for_paths_accepted.
Qed.

(** X5: every flight that parsing a file or a folder returns meets the
    constraints of a record: a flight id of 2 to 8 letters and digits,
    airport codes of three capitals, two timestamps that are read with
    the arrival after the departure, and a price that is a binary64
    value above zero, or not a number. *)
Theorem parsed_flights_meet_constraints
    (path : string) (d d' : disk) (flights : list dict) :
  parsed path d d' flights -> Forall accepted_record flights.
Proof. apply parsed_accepted. Qed.

Lemma parsed_flights_meet_constraints_witness :
  exists d' flights,
    parsed "data" sample_disk d' flights /\ Forall accepted_record flights.
Proof.
  destruct (parse_csv_folder "data" sample_disk) as [d' [flights|f]] eqn:E.
  - exists d', flights.
    assert (H : parsed "data" sample_disk d' flights) by (right; right; exact E).
    split; [exact H|].
    exact (parsed_flights_meet_constraints "data" sample_disk d' flights H).
  - exfalso. vm_compute in E. discriminate E.
Defined.

(** * From the CSV files to the database and back *)

Lemma decode_encode_accepted (flight : dict) :
  accepted_record flight ->
  Json.decode (Json.encode (PDict flight)) = Some (PDict flight).
Proof.
  intros (flight_id & origin & destination & dep_str & arr_str & dep & arr
          & price & -> & _ & _ & _ & _ & _ & _ & Hb & _).
  unfold mk_flight.
  cbn [Json.encode map fst snd Json.decode fold_left].
  rewrite (decode_floatstr price Hb).
  reflexivity.
Qed.

Lemma decode_encode_accepted_list (flights : list dict) :
  Forall accepted_record flights ->
  Json.decode (Json.encode (PList (map PDict flights)))
  = Some (PList (map PDict flights)).
Proof.
  intros H. cbn [Json.encode Json.decode].
  assert (E : fold_right
                (fun j acc =>
                   match Json.decode j, acc with
                   | Some v, Some l => Some (v :: l)
                   | _, _ => None
                   end) (Some [])
                (map Json.encode (map PDict flights))
              = Some (map PDict flights)).
  { induction H as [|v l Hv Hl IH]; [reflexivity|].
    cbn [map fold_right]. rewrite IH.
    now rewrite (decode_encode_accepted v Hv). }
  unfold dict in *. rewrite E. reflexivity.
Qed.

(** X6: the flights that parsing returns, saved as the JSON database and
    loaded again, are the same flights in the same order; this holds
    for every flight the parser lets through, a price that is not a
    number included. *)
Theorem parsed_flights_save_load
    (path out : string) (d d' : disk) (flights : list dict) (fs : filesystem) :
  parsed path d d' flights ->
  load_db_json out (save_db_json (map PDict flights) out fs)
  = Ok (map PDict flights).
Proof.
  intros H. apply parsed_accepted in H.
  unfold load_db_json, save_db_json, write_file.
  rewrite String.eqb_refl.
  now rewrite (decode_encode_accepted_list flights H).
Qed.

Lemma parsed_flights_save_load_witness :
  exists d' flights,
    parsed "data/in.csv" sample_disk d' flights /\
    load_db_json "db.json" (save_db_json (map PDict flights) "db.json" sample_fs)
    = Ok (map PDict flights).
Proof.
  destruct (parse_csv_file "data/in.csv" sample_disk) as [d' [flights|f]] eqn:E.
  - exists d', flights.
    assert (H : parsed "data/in.csv" sample_disk d' flights) by (left; exact E).
    split; [exact H|].
    exact (parsed_flights_save_load "data/in.csv" "db.json" sample_disk d'
             flights sample_fs H).
  - exfalso. vm_compute in E. discriminate E.
Defined.

Import PyText Os.
Import CsvSpec FileAux.
Local Open Scope string_scope.
Local Open Scope Z_scope.

(** * Sorting the paths *)

Lemma ascii_compare_lt_trans (a b c : ascii) :
  Ascii.compare a b = Lt -> Ascii.compare b c = Lt -> Ascii.compare a c = Lt.
Proof.
  unfold Ascii.compare. rewrite !N.compare_lt_iff. apply N.lt_trans.
Qed.

Lemma ascii_compare_refl (a : ascii) : Ascii.compare a a = Eq.
Proof. unfold Ascii.compare. apply N.compare_refl. Qed.

Lemma string_compare_lt_trans (x : string) :
  forall y z, String.compare x y = Lt -> String.compare y z = Lt ->
    String.compare x z = Lt.
Proof.
  induction x as [|a x IH]; intros [|b y] [|c z]; cbn [String.compare];
    try discriminate; try reflexivity.
  destruct (Ascii.compare a b) eqn:Eab; try discriminate.
  - apply Ascii.compare_eq_iff in Eab. subst b.
    destruct (Ascii.compare a c); try discriminate; [apply IH|reflexivity].
  - intros _.
    destruct (Ascii.compare b c) eqn:Ebc; try discriminate.
    + apply Ascii.compare_eq_iff in Ebc. subst c. now rewrite Eab.
    + intros _. now rewrite (ascii_compare_lt_trans a b c Eab Ebc).
Qed.

(** [x] is not after [y]. *)
Lemma not_after_trans (x y z : string) :
  String.ltb y x = false -> String.ltb z y = false -> String.ltb z x = false.
Proof.
  unfold String.ltb.
  destruct (String.compare z x) eqn:Ezx; try reflexivity.
  destruct (String.compare y x) eqn:Eyx; try discriminate; intros _.
  - apply String.compare_eq_iff in Eyx. subst y. now rewrite Ezx.
  - destruct (String.compare z y) eqn:Ezy; try discriminate; intros _.
    + apply String.compare_eq_iff in Ezy. subst z.
      rewrite Ezx in Eyx. discriminate.
    + rewrite String.compare_antisym in Eyx, Ezy.
      destruct (String.compare x y) eqn:Exy; try discriminate.
      destruct (String.compare y z) eqn:Eyz; try discriminate.
      pose proof (string_compare_lt_trans x y z Exy Eyz) as H.
      rewrite String.compare_antisym, Ezx in H. discriminate.
Qed.

Lemma not_after_antisym (x y : string) :
  String.ltb y x = false -> String.ltb x y = false -> x = y.
Proof.
  unfold String.ltb. rewrite (String.compare_antisym y x).
  destruct (String.compare x y) eqn:E; try discriminate.
  intros _ _. now apply String.compare_eq_iff.
Qed.

Lemma not_after_total (x y : string) :
  String.ltb y x = true -> String.ltb x y = false.
Proof.
  unfold String.ltb. rewrite (String.compare_antisym y x).
  now destruct (String.compare x y).
Qed.

Lemma insert_permutation (x : string) (l : list string) :
  Permutation (x :: l) (insert x l).
Proof.
  induction l as [|y l IH]; cbn [insert]; [reflexivity|].
  destruct (String.ltb y x); [|reflexivity].
  rewrite perm_swap. now constructor.
Qed.

Lemma sort_permutation (l : list string) : Permutation l (sort l).
Proof.
  induction l as [|x l IH]; cbn [sort]; [constructor|].
  rewrite <- insert_permutation. now constructor.
Qed.

Lemma insert_sorted (x : string) (l : list string) :
  StronglySorted (fun a b => String.ltb b a = false) l ->
  StronglySorted (fun a b => String.ltb b a = false) (insert x l).
Proof.
  induction 1 as [|y l Hl IH Hy]; cbn [insert].
  - repeat constructor.
  - destruct (String.ltb y x) eqn:E.
    + constructor; [assumption|].
      apply Forall_forall. intros z Hz.
      apply (Permutation_in z (Permutation_sym (insert_permutation x l))) in Hz.
      destruct Hz as [<-|Hz].
      * now apply not_after_total.
      * revert z Hz. now apply Forall_forall.
    + constructor; [now constructor|].
      constructor; [assumption|].
      apply Forall_forall. intros z Hz.
      apply (not_after_trans x y z E).
      revert z Hz. now apply Forall_forall.
Qed.

Lemma sort_sorted (l : list string) :
  StronglySorted (fun a b => String.ltb b a = false) (sort l).
Proof.
  induction l as [|x l IH]; cbn [sort]; [constructor|].
  now apply insert_sorted.
Qed.

Lemma sorted_unique (l1 : list string) :
  forall l2,
    StronglySorted (fun a b => String.ltb b a = false) l1 ->
    StronglySorted (fun a b => String.ltb b a = false) l2 ->
    Permutation l1 l2 -> l1 = l2.
Proof.
  induction l1 as [|x l1 IH]; intros l2 H1 H2 HP.
  - apply Permutation_nil in HP. now subst.
  - destruct l2 as [|y l2];
      [apply Permutation_sym, Permutation_nil in HP; discriminate|].
    inversion H1 as [|? ? S1 F1]; subst.
    inversion H2 as [|? ? S2 F2]; subst.
    assert (Exy : x = y).
    { assert (Hx : In x (y :: l2)) by (apply (Permutation_in x HP); now left).
      assert (Hy : In y (x :: l1))
        by (apply (Permutation_in y (Permutation_sym HP)); now left).
      destruct Hx as [E|Hx]; [now symmetry|].
      destruct Hy as [E|Hy]; [exact E|].
      apply not_after_antisym.
      - rewrite Forall_forall in F1. now apply F1.
      - rewrite Forall_forall in F2. now apply F2. }
    subst y. f_equal. apply IH; try assumption.
    now apply Permutation_cons_inv with x.
Qed.

(** Sorting does not depend on the order of what is sorted. *)
Lemma sort_of_permutation (l l' : list string) :
  Permutation l l' -> sort l = sort l'.
Proof.
  intros H. apply sorted_unique; try apply sort_sorted.
  rewrite <- (sort_permutation l), <- (sort_permutation l'). exact H.
Qed.

Lemma filter_permutation {A : Type} (f : A -> bool) (l l' : list A) :
  Permutation l l' -> Permutation (filter f l) (filter f l').
Proof.
  induction 1 as [|x l l' H IH|x y l|l l' l'' H1 IH1 H2 IH2]; cbn [filter].
  - constructor.
  - destruct (f x); [now constructor|assumption].
  - destruct (f x), (f y); try reflexivity. apply perm_swap.
  - now rewrite IH1.
Qed.

(** * Disks the parser cannot tell apart *)

Section Blind.

Variable P : string -> Prop.

Lemma alike_refl (d : disk) : alike P d d.
Proof. intros p. now left. Qed.

Lemma alike_set_entry (d1 d2 : disk) (path : string) (e : option entry) :
  alike P d1 d2 -> alike P (set_entry d1 path e) (set_entry d2 path e).
Proof.
  intros H p. unfold set_entry. destruct (String.eqb p path); [now left|apply H].
Qed.

Lemma blind_ret {A : Type} (a : A) : blind P (ret a).
Proof. intros d1 d2 H. now split. Qed.

Lemma blind_raise {A : Type} (f : failure) : blind P (@raise A f).
Proof. intros d1 d2 H. now split. Qed.

Lemma blind_bind {A B : Type} (m : io A) (k : A -> io B) :
  blind P m -> (forall a, blind P (k a)) -> blind P (io_bind m k).
Proof.
  intros Hm Hk d1 d2 H. destruct (Hm d1 d2 H) as [H1 H2]. unfold io_bind.
  destruct (m d1) as [d1' o1], (m d2) as [d2' o2]. cbn [fst snd] in *.
  subst o2. destruct o1 as [a|f]; [now apply Hk|now split].
Qed.

Lemma blind_open_read (path : string) : blind P (open_read path).
Proof.
  intros d1 d2 H. unfold open_read.
  destruct (H path) as [->|(_ & n1 & n2 & -> & ->)].
  - destruct (d2 path) as [[c|n]|]; now split.
  - now split.
Qed.

Lemma blind_open_append (path : string) : blind P (open_append path).
Proof.
  intros d1 d2 H. unfold open_append.
  destruct (H path) as [->|(_ & n1 & n2 & -> & ->)].
  - destruct (d2 path) as [[c|n]|]; cbn [fst snd]; split;
      try reflexivity; try assumption.
    now apply alike_set_entry.
  - now split.
Qed.

Lemma blind_write (path text : string) : blind P (write path text).
Proof.
  intros d1 d2 H. unfold write, content_of. cbn [fst snd].
  split; [|reflexivity].
  destruct (H path) as [->|(_ & n1 & n2 & -> & ->)];
    now apply alike_set_entry.
Qed.

Lemma blind_path_exists (path : string) : blind P (path_exists path).
Proof.
  intros d1 d2 H. unfold path_exists. cbn [fst snd].
  split; [assumption|].
  now destruct (H path) as [->|(_ & n1 & n2 & -> & ->)].
Qed.

Lemma blind_remove (path : string) : blind P (remove path).
Proof.
  intros d1 d2 H. unfold remove.
  destruct (H path) as [->|(_ & n1 & n2 & -> & ->)].
  - destruct (d2 path) as [[c|n]|]; cbn [fst snd]; split;
      try reflexivity; try assumption.
    now apply alike_set_entry.
  - now split.
Qed.

Lemma blind_handle_row (fields : list string) (line_no : Z)
    (original_line : string) (valid_flights : list dict) :
  blind P (handle_row fields line_no original_line valid_flights).
Proof.
  unfold handle_row.
  destruct (validate_row fields line_no original_line) as [[b fl] msg].
  destruct b, fl;
    try apply blind_ret;
    (apply blind_bind; [apply blind_write|intros; apply blind_ret]).
Qed.

Lemma blind_for_rows (rs : PyCsv.rows) (line_no : Z) (original_line : string) :
  forall valid_flights,
    blind P (for_rows rs line_no original_line valid_flights).
Proof.
  induction rs as [row more IH| |]; intros vf; cbn [for_rows].
  - apply blind_bind; [apply blind_handle_row|intros; apply IH].
  - apply blind_ret.
  - apply blind_raise.
Qed.

Lemma blind_for_lines (lines : list string) :
  forall line_no header_skipped valid_flights,
    blind P (for_lines lines line_no header_skipped valid_flights).
Proof.
  induction lines as [|raw rest IH]; intros n h vf; cbn [for_lines].
  - apply blind_ret.
  - destruct (negb (truthy _)); [apply IH|].
    destruct (negb h && _); [apply IH|].
    destruct (startswith "#" _).
    + apply blind_bind; [apply blind_write|intros; apply IH].
    + apply blind_bind; [apply blind_for_rows|intros; apply IH].
Qed.

Lemma blind_parse_csv_file (path : string) : blind P (parse_csv_file path).
Proof.
  unfold parse_csv_file.
  apply blind_bind; [apply blind_open_read|intros content].
  apply blind_bind; [apply blind_open_append|intros _].
  apply blind_for_lines.
Qed.

Lemma blind_for_paths (paths : list string) :
  forall all_flights, blind P (for_paths paths all_flights).
Proof.
  induction paths as [|path rest IH]; intros all; cbn [for_paths].
  - apply blind_ret.
  - apply blind_bind; [apply blind_parse_csv_file|intros; apply IH].
Qed.

Lemma blind_clear_errors : blind P clear_errors.
Proof.
  unfold clear_errors.
  apply blind_bind; [apply blind_path_exists|intros [|]].
  - apply blind_remove.
  - apply blind_ret.
Qed.

End Blind.

(** * A single file: the old log is forgotten *)

Lemma clear_errors_file (d : disk) (old : string) :
  d ERRORS_TXT = Some (File old) ->
  clear_errors d = (set_entry d ERRORS_TXT None, Done tt).
Proof.
  intros H. unfold clear_errors, io_bind, path_exists. rewrite H.
  cbv beta iota. unfold remove. now rewrite H.
Qed.

Lemma clear_errors_none (d : disk) :
  d ERRORS_TXT = None -> clear_errors d = (d, Done tt).
Proof.
  intros H. unfold clear_errors, io_bind, path_exists. now rewrite H.
Qed.

(** X7: parsing a single file starts from an empty log: an error log
    left by an earlier run has no effect, neither on what is returned
    nor on any file the run leaves behind, the log included. *)
Theorem parse_single_csv_forgets_old_log (path old : string) (d : disk) :
  snd (parse_single_csv path (set_entry d ERRORS_TXT (Some (File old))))
  = snd (parse_single_csv path (set_entry d ERRORS_TXT None)) /\
  forall p,
    fst (parse_single_csv path (set_entry d ERRORS_TXT (Some (File old)))) p
    = fst (parse_single_csv path (set_entry d ERRORS_TXT None)) p.
Proof.
  unfold parse_single_csv.
  rewrite (io_bind_done _ _ _ _ _
             (clear_errors_file _ old (set_entry_same d ERRORS_TXT _))).
  rewrite (io_bind_done _ _ _ _ _
             (clear_errors_none _ (set_entry_same d ERRORS_TXT _))).
  assert (H : alike (fun _ => False)
                (set_entry (set_entry d ERRORS_TXT (Some (File old)))
                   ERRORS_TXT None)
                (set_entry d ERRORS_TXT None)).
  { intros p. left. unfold set_entry. now destruct (String.eqb p ERRORS_TXT). }
  destruct (blind_parse_csv_file (fun _ => False) path _ _ H) as [H1 H2].
  split; [exact H2|].
  intros p. destruct (H1 p) as [E|[[] _]]. exact E.
Qed.

(** X8: asked to parse a single file that is not there, the program
    fails with [FileNotFoundError], and by then it has removed the error
    log of the earlier run; nothing else on the disk has changed. *)
Theorem parse_single_csv_missing_file (path old : string) (d : disk) :
  d path = None ->
  d ERRORS_TXT = Some (File old) ->
  snd (parse_single_csv path d) = Failed (OSError ENOENT) /\
  fst (parse_single_csv path d) ERRORS_TXT = None /\
  forall p, p <> ERRORS_TXT -> fst (parse_single_csv path d) p = d p.
Proof.
  intros Hp Hlog.
  assert (Hne : path <> ERRORS_TXT) by congruence.
  unfold parse_single_csv.
  rewrite (io_bind_done _ _ _ _ _ (clear_errors_file d old Hlog)).
  unfold parse_csv_file, io_bind, open_read.
  rewrite (set_entry_other d ERRORS_TXT path None Hne), Hp. cbn [fst snd].
  split; [reflexivity|]. split; [apply set_entry_same|].
  intros p Hp'. now apply set_entry_other.
Qed.

Lemma parse_single_csv_missing_file_witness :
  sample_disk "nowhere.csv" = None /\
  sample_disk ERRORS_TXT = Some (File ("old line" ++ newline)) /\
  snd (parse_single_csv "nowhere.csv" sample_disk) = Failed (OSError ENOENT) /\
  fst (parse_single_csv "nowhere.csv" sample_disk) ERRORS_TXT = None /\
  forall p, p <> ERRORS_TXT ->
    fst (parse_single_csv "nowhere.csv" sample_disk) p = sample_disk p.
Proof.
  assert (H1 : sample_disk "nowhere.csv" = None) by reflexivity.
  assert (H2 : sample_disk ERRORS_TXT = Some (File ("old line" ++ newline)))
    by reflexivity.
  split; [exact H1|]. split; [exact H2|].
  exact (parse_single_csv_missing_file "nowhere.csv" _ sample_disk H1 H2).
Defined.

(** * A folder: the order of the listing does not matter *)

Lemma clear_errors_other (d : disk) (p : string) :
  p <> ERRORS_TXT -> fst (clear_errors d) p = d p.
Proof.
  intros Hp. unfold clear_errors, io_bind, path_exists.
  destruct (d ERRORS_TXT) as [[c|n]|] eqn:E; cbv beta iota; unfold remove, ret;
    rewrite ?E; cbn [fst]; try reflexivity.
  now apply set_entry_other.
Qed.

Lemma clear_errors_folder (d : disk) (folder : string) (names : list string)
    (d' : disk) :
  d folder = Some (Dir names) ->
  clear_errors d = (d', Done tt) ->
  d' folder = Some (Dir names).
Proof.
  intros Hf H.
  destruct (String.eqb_spec folder ERRORS_TXT) as [->|Hne].
  - revert H. unfold clear_errors, io_bind, path_exists.
    rewrite Hf. cbv beta iota. unfold remove. rewrite Hf. discriminate.
  - pose proof (clear_errors_other d folder Hne) as E.
    rewrite H in E. cbn [fst] in E. now rewrite E.
Qed.

(** X9: the result of parsing a folder does not depend on the order in
    which the system lists the names in it: for two listings with the
    same names, the flights returned or the failure are the same, and
    so is every file left on the disk. *)
Theorem parse_csv_folder_listing_order
    (folder : string) (names names' : list string) (d : disk) :
  Permutation names names' ->
  snd (parse_csv_folder folder (set_entry d folder (Some (Dir names))))
  = snd (parse_csv_folder folder (set_entry d folder (Some (Dir names')))) /\
  forall p, p <> folder ->
    fst (parse_csv_folder folder (set_entry d folder (Some (Dir names)))) p
    = fst (parse_csv_folder folder (set_entry d folder (Some (Dir names')))) p.
Proof.
  intros HP.
  set (d1 := set_entry d folder (Some (Dir names))).
  set (d2 := set_entry d folder (Some (Dir names'))).
  set (P := fun p : string => p = folder).
  assert (H : alike P d1 d2).
  { intros p. unfold d1, d2, set_entry.
    destruct (String.eqb_spec p folder) as [->|Hne]; [right|now left].
    split; [reflexivity|]. now exists names, names'. }
  assert (Hfin : forall (A : Type) (r1 r2 : disk * outcome A),
             alike P (fst r1) (fst r2) /\ snd r1 = snd r2 ->
             snd r1 = snd r2 /\
             forall p, p <> folder -> fst r1 p = fst r2 p).
  { intros A r1 r2 [Ha Hs]. split; [assumption|].
    intros p Hp. destruct (Ha p) as [E|[E _]]; [exact E|now elim Hp]. }
  apply Hfin.
  unfold parse_csv_folder.
  destruct (blind_clear_errors P d1 d2 H) as [Ha Hs].
  pose proof (clear_errors_folder d1 folder names) as F1.
  pose proof (clear_errors_folder d2 folder names') as F2.
  destruct (clear_errors d1) as [d1' o1] eqn:E1.
  destruct (clear_errors d2) as [d2' o2] eqn:E2.
  cbn [fst snd] in Ha, Hs. subst o2.
  destruct o1 as [[]|f].
  2:{ rewrite (io_bind_failed _ _ _ _ _ E1), (io_bind_failed _ _ _ _ _ E2).
      now split. }
  rewrite (io_bind_done _ _ _ _ _ E1), (io_bind_done _ _ _ _ _ E2).
  specialize (F1 d1' (set_entry_same _ _ _) eq_refl).
  specialize (F2 d2' (set_entry_same _ _ _) eq_refl).
  unfold io_bind, listdir. rewrite F1, F2.
  rewrite (sort_of_permutation
             (map (path_join folder)
                (filter (fun name => endswith ".csv" (lower name)) names))
             (map (path_join folder)
                (filter (fun name => endswith ".csv" (lower name)) names')))
    by (apply Permutation_map, filter_permutation, HP).
  now apply blind_for_paths.
Qed.

Lemma parse_csv_folder_listing_order_witness :
  Permutation ["b.csv"; "notes.txt"; "a.CSV"] ["a.CSV"; "b.csv"; "notes.txt"] /\
  snd (parse_csv_folder "data"
         (set_entry sample_disk "data"
            (Some (Dir ["b.csv"; "notes.txt"; "a.CSV"]))))
  = snd (parse_csv_folder "data"
           (set_entry sample_disk "data"
              (Some (Dir ["a.CSV"; "b.csv"; "notes.txt"])))) /\
  forall p, p <> "data" ->
    fst (parse_csv_folder "data"
           (set_entry sample_disk "data"
              (Some (Dir ["b.csv"; "notes.txt"; "a.CSV"])))) p
    = fst (parse_csv_folder "data"
             (set_entry sample_disk "data"
                (Some (Dir ["a.CSV"; "b.csv"; "notes.txt"])))) p.
Proof.
  assert (H : Permutation ["b.csv"; "notes.txt"; "a.CSV"]
                ["a.CSV"; "b.csv"; "notes.txt"]).
  { apply Permutation_sym.
    apply (Permutation_cons_app ["b.csv"; "notes.txt"] []). reflexivity. }
  split; [exact H|].
  exact (parse_csv_folder_listing_order "data" _ _ sample_disk H).
Defined.

Import PyText Os.
Import QuerySpec CsvSpec RunSpec.
Local Open Scope string_scope.
Local Open Scope Z_scope.

(** * Query files *)

Lemma decode_dict_is_object (content : Json.doc) (d : dict) :
  Json.decode content = Some (PDict d) ->
  exists members, content = Json.JObject members.
Proof.
  destruct content as [|b|text|c|s|items|members]; cbn; try discriminate.
  - unfold Json.decode_number.
    destruct (existsb_s _ text).
    + destruct (float_of_string text); discriminate.
    + destruct (Json.int_of_token text); discriminate.
  - match goal with
    | |- option_map _ ?x = _ -> _ => destruct x; discriminate
    end.
  - intros _. now exists members.
Qed.

Lemma decode_object_is_dict (members : list (string * Json.doc)) (data : pyval) :
  Json.decode (Json.JObject members) = Some data -> exists d, data = PDict d.
Proof.
  cbn.
  match goal with
  | |- option_map _ ?x = _ -> _ => destruct x as [d|]; cbn; [|discriminate]
  end.
  intros [= <-]. now exists d.
Qed.

(** X10: for a query file that [json.load] can read, [load_queries]
    gives one query when the top level of the document is an object, the
    items when it is an array, whatever they are, and raises
    [ValueError] when it is anything else. *)
Theorem load_queries_top_level
    (path : string) (fs : filesystem) (content : Json.doc) (data : pyval) :
  fs path = Some content ->
  Json.decode content = Some data ->
  (forall members, content = Json.JObject members ->
     load_queries path fs = Ok [data]) /\
  (forall items, content = Json.JArray items ->
     exists l, data = PList l /\ load_queries path fs = Ok l) /\
  ((forall members, content <> Json.JObject members) ->
   (forall items, content <> Json.JArray items) ->
   load_queries path fs = Raise ValueError).
Proof.
  intros Hfs Hdec. unfold load_queries. rewrite Hfs, Hdec.
  split; [|split].
  - intros members ->.
    now destruct (decode_object_is_dict members data Hdec) as [d ->].
  - intros items ->.
    destruct (decode_array_is_list items data Hdec) as [l ->].
    now exists l.
  - intros Hobj Harr.
    destruct data; try reflexivity.
    + destruct (decode_list_is_array content l Hdec) as [items ->].
      now elim (Harr items).
    + destruct (decode_dict_is_object content d Hdec) as [members ->].
      now elim (Hobj members).
Qed.

Lemma load_queries_top_level_witness :
  (forall members,
     Json.JObject [("flight_id", Json.JString "AB12")] = Json.JObject members ->
     load_queries "object.json" sample_fs = Ok [PDict [("flight_id", PStr "AB12")]]) /\
  (forall items,
     Json.JObject [("flight_id", Json.JString "AB12")] = Json.JArray items ->
     exists l, PDict [("flight_id", PStr "AB12")] = PList l /\
               load_queries "object.json" sample_fs = Ok l) /\
  ((forall members,
      Json.JObject [("flight_id", Json.JString "AB12")] <> Json.JObject members) ->
   (forall items,
      Json.JObject [("flight_id", Json.JString "AB12")] <> Json.JArray items) ->
   load_queries "object.json" sample_fs = Raise ValueError).
Proof.
  apply (load_queries_top_level "object.json" sample_fs
           (Json.JObject [("flight_id", Json.JString "AB12")])
           (PDict [("flight_id", PStr "AB12")])).
  - reflexivity.
  - vm_compute. reflexivity.
Defined.

(** * The run of the queries *)

Lemma matching_filter (q : dict) (flights : list dict) (ms : list dict) :
  matching flights q = Ok ms -> ms = filter (is_match q) flights.
Proof.
  revert ms. induction flights as [|flight rest IH]; intros ms;
    cbn [matching filter].
  - now intros [= <-].
  - unfold is_match at 1.
    destruct (flight_matches_query flight q) as [b|e]; cbn [bind];
      [|discriminate].
    destruct (matching rest q) as [ms'|e]; cbn [bind]; [|discriminate].
    intros [= <-]. rewrite <- (IH ms' eq_refl). now destruct b.
Qed.

Lemma matching_answers (q : dict) (flights : list dict) :
  (exists ms, matching flights q = Ok ms) <->
  Forall (fun flight => answers flight q) flights.
Proof.
  induction flights as [|flight rest IH]; cbn [matching].
  - split; [constructor|now exists []].
  - split.
    + intros (ms & H).
      destruct (flight_matches_query flight q) as [b|e] eqn:E; cbn [bind] in H;
        [|discriminate].
      destruct (matching rest q) as [ms'|e]; cbn [bind] in H; [|discriminate].
      constructor; [now exists b|]. apply IH. now exists ms'.
    + intros H. inversion H as [|? ? (b & Hb) Hrest]; subst.
      apply IH in Hrest. destruct Hrest as (ms' & ->). rewrite Hb.
      cbn [bind]. now eexists.
Qed.

(** X11: when the run of the queries returns, it gives one response for
    each query, in the order of the queries; a response holds its query
    and, in the order of the database, the flights that the matcher
    accepts for it. *)
Theorem run_queries_on_db_responses
    (flights queries responses : list dict) :
  run_queries_on_db flights queries = Ok responses ->
  responses = map (response flights) queries.
Proof.
  revert responses. induction queries as [|q rest IH]; intros responses;
    cbn [run_queries_on_db map].
  - now intros [= <-].
  - destruct (matching flights q) as [ms|e] eqn:E; cbn [bind]; [|discriminate].
    destruct (run_queries_on_db flights rest) as [rs|e]; cbn [bind];
      [|discriminate].
    intros [= <-]. rewrite <- (IH rs eq_refl).
    unfold response. now rewrite <- (matching_filter q flights ms E).
Qed.

Lemma run_queries_on_db_responses_witness :
  run_queries_on_db [sample_flight] [[("origin", PStr "JFK")]; [("origin", PStr "LHR")]]
  = Ok [[("query", PDict [("origin", PStr "JFK")]);
         ("matches", PList [PDict sample_flight])];
        [("query", PDict [("origin", PStr "LHR")]); ("matches", PList [])]] /\
  [[("query", PDict [("origin", PStr "JFK")]);
    ("matches", PList [PDict sample_flight])];
   [("query", PDict [("origin", PStr "LHR")]); ("matches", PList [])]]
  = map (response [sample_flight])
      [[("origin", PStr "JFK")]; [("origin", PStr "LHR")]].
Proof.
  assert (H : run_queries_on_db [sample_flight]
                [[("origin", PStr "JFK")]; [("origin", PStr "LHR")]]
              = Ok [[("query", PDict [("origin", PStr "JFK")]);
                     ("matches", PList [PDict sample_flight])];
                    [("query", PDict [("origin", PStr "LHR")]);
                     ("matches", PList [])]])
    by (vm_compute; reflexivity).
  split; [exact H|].
  exact (run_queries_on_db_responses _ _ _ H).
Defined.

Lemma run_queries_answers (flights queries : list dict) :
  (exists responses, run_queries_on_db flights queries = Ok responses) <->
  Forall (fun q => Forall (fun flight => answers flight q) flights) queries.
Proof.
  induction queries as [|q rest IH]; cbn [run_queries_on_db].
  - split; [constructor|now exists []].
  - split.
    + intros (rs & H).
      destruct (matching flights q) as [ms|e] eqn:E; cbn [bind] in H;
        [|discriminate].
      destruct (run_queries_on_db flights rest) as [rs'|e]; cbn [bind] in H;
        [|discriminate].
      constructor.
      * apply matching_answers. now exists ms.
      * apply IH. now exists rs'.
    + intros H. inversion H as [|? ? Hq Hrest]; subst.
      apply matching_answers in Hq. destruct Hq as (ms & ->).
      apply IH in Hrest. destruct Hrest as (rs' & ->).
      cbn [bind]. now eexists.
Qed.

(** X12: the run of the queries returns exactly when the matcher gives
    an answer for every flight of a database that is not empty and every
    query: one flight and one query on which the matcher raises make the
    whole run raise, and no response is returned. *)
Theorem run_queries_on_db_all_or_nothing (flights queries : list dict) :
  (exists responses, run_queries_on_db flights queries = Ok responses) <->
  Forall (fun q => Forall (fun flight => answers flight q) flights) queries.
Proof. apply run_queries_answers. Qed.

(** * The matcher *)

Lemma exact_matches_mismatch (keys : list string) (flight query : dict)
    (key : string) (qv : pyval) :
  In key keys ->
  dict_get key query = Some qv ->
  py_str (get_or_none flight key) <> py_str qv ->
  exact_matches keys flight query = Ok (Return false).
Proof.
  intros Hin Hq Hne. induction keys as [|k keys IH]; [now elim Hin|].
  cbn [exact_matches].
  destruct (dict_get k query) as [v|] eqn:Ek.
  - destruct (String.eqb_spec (py_str (get_or_none flight k)) (py_str v))
      as [Heq|_]; cbn [negb]; [|reflexivity].
    destruct Hin as [->|Hin]; [|now apply IH].
    rewrite Hq in Ek. injection Ek as <-. now elim Hne.
  - destruct Hin as [->|Hin]; [congruence|now apply IH].
Qed.

(** X13: when the values that the matcher compares as texts (those of
    flight_id, origin and destination, in the flight and in the query)
    are plain, that is [None], booleans, floats, texts or integers of at
    most 4300 digits, a query in which one of them differs, as a text,
    from that of the flight is answered with false, whatever else the
    query holds: the date and price bounds are not looked at, so that a
    bound of a wrong type raises nothing. *)
Theorem exact_mismatch_is_no_match (flight query : dict) (key : string)
    (qv : pyval) :
  plain_exact_values flight query ->
  In key exact_keys ->
  dict_get key query = Some qv ->
  py_str (get_or_none flight key) <> py_str qv ->
  flight_matches_query flight query = Ok false.
Proof.
  intros _ Hin Hq Hne. unfold flight_matches_query.
  fold exact_keys.
  now rewrite (exact_matches_mismatch exact_keys flight query key qv Hin Hq Hne).
Qed.

Lemma exact_mismatch_is_no_match_witness :
  plain_exact_values sample_flight
    [("origin", PStr "LHR"); ("departure_datetime", PInt 20240501)] /\
  In "origin" exact_keys /\
  dict_get "origin" [("origin", PStr "LHR"); ("departure_datetime", PInt 20240501)]
  = Some (PStr "LHR") /\
  py_str (get_or_none sample_flight "origin") <> py_str (PStr "LHR") /\
  flight_matches_query sample_flight
    [("origin", PStr "LHR"); ("departure_datetime", PInt 20240501)]
  = Ok false.
Proof.
  assert (H0 : plain_exact_values sample_flight
                 [("origin", PStr "LHR"); ("departure_datetime", PInt 20240501)]).
  { split.
    - intros key [<- | [<- | [<- | []]]]; exact I.
    - intros key v [<- | [<- | [<- | []]]]; cbn; intros H;
        first [discriminate H | injection H as <-; exact I]. }
  assert (H1 : In "origin" exact_keys) by (right; left; reflexivity).
  assert (H2 : dict_get "origin"
                 [("origin", PStr "LHR"); ("departure_datetime", PInt 20240501)]
               = Some (PStr "LHR")) by reflexivity.
  assert (H3 : py_str (get_or_none sample_flight "origin") <> py_str (PStr "LHR"))
    by (vm_compute; discriminate).
  split; [exact H0|]. split; [exact H1|]. split; [exact H2|]. split; [exact H3|].
  exact (exact_mismatch_is_no_match sample_flight _ "origin" (PStr "LHR")
           H0 H1 H2 H3).
Defined.

Lemma dt_ltb_irrefl (t : datetime) : dt_ltb t t = false.
Proof.
  unfold dt_ltb, dt_compare. now rewrite !Z.compare_refl.
Qed.

Lemma fgt_irrefl (x : float) : fgt x x = false.
Proof.
  unfold fgt, fcompare.
  destruct x as [|n|n m e]; [reflexivity|now destruct n|].
  now rewrite Z.compare_refl.
Qed.

(** X14: a record that the parser returns matches the query made of its
    own six fields: the bounds on the departure, the arrival and the
    price include the bound itself. *)
Theorem accepted_record_matches_itself (flight : dict) :
  accepted_record flight -> flight_matches_query flight flight = Ok true.
Proof.
  intros (flight_id & origin & destination & dep_str & arr_str & dep & arr
          & price & -> & _ & _ & _ & Hdep & Harr & _ & _ & _).
  set (flight := mk_flight flight_id origin destination dep_str arr_str
                   (PFloat price)).
  unfold flight_matches_query.
  assert (E0 : exact_matches ["flight_id"; "origin"; "destination"] flight flight
               = Ok Next).
  { cbn [exact_matches].
    change (dict_get "flight_id" flight) with (Some (PStr flight_id)).
    change (dict_get "origin" flight) with (Some (PStr origin)).
    change (dict_get "destination" flight) with (Some (PStr destination)).
    change (get_or_none flight "flight_id") with (PStr flight_id).
    change (get_or_none flight "origin") with (PStr origin).
    change (get_or_none flight "destination") with (PStr destination).
    cbn [py_str]. now rewrite !String.eqb_refl. }
  assert (E1 : departure_filter flight flight = Ok Next).
  { unfold departure_filter.
    change (dict_get "departure_datetime" flight) with (Some (PStr dep_str)).
    change (subscript flight "departure_datetime") with (Ok (PStr dep_str)).
    cbv beta iota.
    rewrite parse_datetime_str_total, Hdep. cbn [bind].
    rewrite parse_datetime_str_total, Hdep. cbn [bind].
    now rewrite dt_ltb_irrefl. }
  assert (E2 : arrival_filter flight flight = Ok Next).
  { unfold arrival_filter.
    change (dict_get "arrival_datetime" flight) with (Some (PStr arr_str)).
    change (subscript flight "arrival_datetime") with (Ok (PStr arr_str)).
    cbv beta iota.
    rewrite parse_datetime_str_total, Harr. cbn [bind].
    rewrite parse_datetime_str_total, Harr. cbn [bind].
    unfold dt_gtb. now rewrite dt_ltb_irrefl. }
  assert (E3 : price_filter flight flight = Ok Next).
  { unfold price_filter.
    change (dict_get "price" flight) with (Some (PFloat price)).
    change (subscript flight "price") with (Ok (PFloat price)).
    cbv beta iota. cbn [py_float bind]. now rewrite fgt_irrefl. }
  rewrite E0, E1, E2, E3. reflexivity.
Qed.

Lemma sample_flight_accepted : accepted_record sample_flight.
Proof.
  exists "AB12", "JFK", "LAX", "2024-05-01 10:00", "2024-05-01 12:00",
    (mkdt 2024 5 1 10 0), (mkdt 2024 5 1 12 0),
    (Ffin false 7036874417766400 (-46)).
  repeat split; try reflexivity; try (vm_compute; discriminate).
  all: left; vm_compute; try reflexivity; discriminate.
Qed.

Lemma accepted_record_matches_itself_witness :
  accepted_record sample_flight /\
  flight_matches_query sample_flight sample_flight = Ok true.
Proof.
  split; [exact sample_flight_accepted|].
  exact (accepted_record_matches_itself sample_flight sample_flight_accepted).
Defined.

Import PyText Os.
Import QuerySpec CsvSpec RunSpec.
Local Open Scope string_scope.
Local Open Scope Z_scope.

(** * Queries on the flights of the parser never raise *)

Lemma py_float_raises (qv : pyval) (e : exn) :
  py_float qv = Raise e -> e = TypeError \/ e = ValueError \/ e = OverflowError.
Proof.
  assert (Hi : forall n, float_of_int n = Raise e -> e = OverflowError).
  { intros n. unfold float_of_int.
    destruct (round_ratio _ _ _); try discriminate. now intros [= <-]. }
  destruct qv as [|b|n|x|s|l|d]; cbn [py_float].
  - intros [= <-]. auto.
  - intros H. apply Hi in H. auto.
  - intros H. apply Hi in H. auto.
  - discriminate.
  - destruct (float_of_string s); [discriminate|]. intros [= <-]. auto.
  - intros [= <-]. auto.
  - intros [= <-]. auto.
Qed.

Section Answers.

Variables (flight_id origin destination dep_str arr_str : string) (price : float).

Let flight : dict :=
  mk_flight flight_id origin destination dep_str arr_str (PFloat price).

Variable query : dict.
Hypothesis text_bounds : text_date_bounds query.
Hypothesis in_range : price_in_range query.

Lemma price_filter_in_range :
  price_filter flight query = Ok Next \/
  price_filter flight query = Ok (Return false).
Proof.
  unfold price_filter.
  destruct (dict_get "price" query) as [qv|] eqn:Eq; [|now left].
  specialize (in_range qv Eq).
  destruct (py_float qv) as [q_price|e] eqn:Ep.
  - change (subscript flight "price") with (Ok (PFloat price)).
    cbn [bind py_float]. destruct (fgt price q_price); auto.
  - destruct (py_float_raises qv e Ep) as [-> | [-> | ->]]; auto.
    now elim in_range.
Qed.

Lemma shaped_flight_answers : answers flight query.
Proof.
  unfold answers, flight_matches_query.
  destruct (exact_matches_spec flight_id origin destination dep_str arr_str
              price query ["flight_id"; "origin"; "destination"])
    as [[HE _]|[HE _]]; fold flight in HE; rewrite HE; cbn [and_then];
    [|now eexists].
  destruct (departure_filter_text flight_id origin destination dep_str arr_str
              price query text_bounds) as [HD|HD];
    fold flight in HD; rewrite HD; cbn [and_then]; [|now eexists].
  destruct (arrival_filter_text flight_id origin destination dep_str arr_str
              price query text_bounds) as [HA|HA];
    fold flight in HA; rewrite HA; cbn [and_then]; [|now eexists].
  destruct price_filter_in_range as [-> | ->]; now eexists.
Qed.

End Answers.

(** X15: on flights that the parser returned, the run of queries that
    are objects never raises and gives its responses, as long as, in
    each query, the values of flight_id, origin and destination are
    plain ([None], booleans, floats, texts or integers of at most 4300
    digits), the date bounds are texts and the price bound is not an
    integer too large for a float. *)
Theorem run_queries_on_parsed_flights
    (path : string) (d d' : disk) (flights queries : list dict) :
  parsed path d d' flights ->
  Forall (fun q => plain_exact_query q /\ text_date_bounds q /\ price_in_range q)
    queries ->
  exists responses, run_queries_on_db flights queries = Ok responses.
Proof.
  intros Hp Hq. apply parsed_accepted in Hp.
  apply run_queries_answers.
  induction Hq as [|q rest (_ & Ht & Hr) _ IH]; constructor; [|assumption].
  clear IH. induction Hp as [|flight fls Hf _ IH]; constructor; [|assumption].
  destruct Hf as (a & b & c & dep & arr & _ & _ & p & -> & _).
  now apply shaped_flight_answers.
Qed.

Lemma run_queries_on_parsed_flights_witness :
  exists d' flights,
    parsed "data" sample_disk d' flights /\
    Forall (fun q => plain_exact_query q /\ text_date_bounds q /\ price_in_range q)
      [[("origin", PInt 7); ("departure_datetime", PStr "soon");
        ("price", PStr "cheap")];
       [("price", PInt 500)]] /\
    exists responses,
      run_queries_on_db flights
        [[("origin", PInt 7); ("departure_datetime", PStr "soon");
          ("price", PStr "cheap")];
         [("price", PInt 500)]] = Ok responses.
Proof.
  destruct (parse_csv_folder "data" sample_disk) as [d' [flights|f]] eqn:E.
  - exists d', flights.
    assert (H1 : parsed "data" sample_disk d' flights) by (right; right; exact E).
    assert (H2 : Forall (fun q => plain_exact_query q /\ text_date_bounds q
                                  /\ price_in_range q)
                   [[("origin", PInt 7); ("departure_datetime", PStr "soon");
                     ("price", PStr "cheap")];
                    [("price", PInt 500)]]).
    { repeat constructor.
      - intros key qv [<- | [<- | [<- | []]]]; cbn; intros H;
          first [discriminate H | injection H as <-; vm_compute; reflexivity].
      - intros key qv [-> | ->]; cbn; intros H;
          first [discriminate H | injection H as <-; now eexists].
      - intros qv. cbn. intros [= <-]. vm_compute. discriminate.
      - intros key qv [<- | [<- | [<- | []]]]; cbn; discriminate.
      - intros key qv [-> | ->]; cbn; discriminate.
      - intros qv. cbn. intros [= <-]. vm_compute. discriminate. }
    split; [exact H1|]. split; [exact H2|].
    exact (run_queries_on_parsed_flights "data" sample_disk d' flights _ H1 H2).
  - exfalso. vm_compute in E. discriminate E.
Defined.

(** * A looser price bound *)

Lemma pow2_gt0 (n : Z) : 0 <= n -> 2 ^ n > 0.
Proof. intros H. apply Z.lt_gt, Z.pow_pos_nonneg; lia. Qed.

(** Two finite values are compared at any exponent below theirs. *)
Lemma compare_scaled (x y ex ey e0 : Z) :
  e0 <= Z.min ex ey ->
  (x * 2 ^ (ex - Z.min ex ey) ?= y * 2 ^ (ey - Z.min ex ey))
  = (x * 2 ^ (ex - e0) ?= y * 2 ^ (ey - e0)).
Proof.
  intros H. set (e := Z.min ex ey) in *.
  assert (Hx : e <= ex) by (unfold e; lia).
  assert (Hy : e <= ey) by (unfold e; lia).
  replace (ex - e0) with ((ex - e) + (e - e0)) by lia.
  replace (ey - e0) with ((ey - e) + (e - e0)) by lia.
  rewrite !Z.pow_add_r by lia. rewrite !Z.mul_assoc.
  apply Zmult_compare_compat_r, pow2_gt0. lia.
Qed.

Lemma fgt_fle_trans (f p p' : float) :
  fgt f p' = true -> fle p p' = true -> fgt f p = true.
Proof.
  unfold fgt, fle.
  destruct f as [|nf|nf mf ef], p as [|np|np mp ep], p' as [|np'|np' mp' ep'];
    cbn [fcompare]; intros H1 H2;
    try solve [repeat match goal with b : bool |- _ => destruct b end;
               first [discriminate | reflexivity]].
  revert H1 H2.
  set (e0 := Z.min ef (Z.min ep ep')).
  rewrite (compare_scaled _ _ ef ep' e0) by (unfold e0; lia).
  rewrite (compare_scaled _ _ ep ep' e0) by (unfold e0; lia).
  rewrite (compare_scaled _ _ ef ep e0) by (unfold e0; lia).
  generalize (sval nf mf * 2 ^ (ef - e0)) as A.
  generalize (sval np mp * 2 ^ (ep - e0)) as B.
  generalize (sval np' mp' * 2 ^ (ep' - e0)) as C.
  intros C B A.
  destruct (Z.compare_spec A C); try discriminate. intros _.
  destruct (Z.compare_spec B C); try discriminate; intros _;
    destruct (Z.compare_spec A B); try reflexivity; lia.
Qed.

Lemma dict_get_set_same (k : string) (v : pyval) (d : dict) :
  dict_get k (dict_set k v d) = Some v.
Proof.
  induction d as [|[k' v'] d IH]; cbn [dict_set dict_get].
  - now rewrite String.eqb_refl.
  - destruct (String.eqb k k') eqn:E; cbn [dict_get].
    + now rewrite String.eqb_refl.
    + now rewrite E.
Qed.

Lemma dict_get_set_other (k k' : string) (v : pyval) (d : dict) :
  k' <> k -> dict_get k' (dict_set k v d) = dict_get k' d.
Proof.
  intros Hne. induction d as [|[k0 v0] d IH]; cbn [dict_set dict_get].
  - apply String.eqb_neq in Hne. now rewrite Hne.
  - destruct (String.eqb k k0) eqn:E; cbn [dict_get].
    + apply String.eqb_eq in E. subst k0.
      apply String.eqb_neq in Hne. now rewrite Hne.
    + now rewrite IH.
Qed.

Lemma exact_matches_set_price (keys : list string) (flight query : dict)
    (v : pyval) :
  ~ In "price" keys ->
  exact_matches keys flight (dict_set "price" v query)
  = exact_matches keys flight query.
Proof.
  induction keys as [|k keys IH]; intros Hn; cbn [exact_matches];
    [reflexivity|].
  rewrite dict_get_set_other by (intros ->; apply Hn; now left).
  rewrite IH by (intros H; apply Hn; now right).
  reflexivity.
Qed.

(** X16: a flight that matches a query with a price bound still matches
    when the bound is raised and the rest of the query is kept. *)
Theorem raised_price_bound_keeps_match
    (flight query : dict) (bound bound' : float) :
  flight_matches_query flight (dict_set "price" (PFloat bound) query) = Ok true ->
  fle bound bound' = true ->
  flight_matches_query flight (dict_set "price" (PFloat bound') query) = Ok true.
Proof.
  intros H Hle. revert H. unfold flight_matches_query.
  rewrite !exact_matches_set_price
    by (cbn; intros [H|[H|[H|[]]]]; discriminate).
  unfold departure_filter, arrival_filter, price_filter.
  rewrite !(dict_get_set_other "price" "departure_datetime") by discriminate.
  rewrite !(dict_get_set_other "price" "arrival_datetime") by discriminate.
  rewrite !dict_get_set_same. cbn [py_float].
  destruct (exact_matches _ flight query) as [[b|]|e]; cbn [and_then];
    try (intros H; exact H).
  match goal with
  | |- context [and_then ?X _] => destruct X as [[b|]|e]
  end; cbn [and_then]; try (intros H; exact H).
  match goal with
  | |- context [and_then ?X _] => destruct X as [[b|]|e]
  end; cbn [and_then]; try (intros H; exact H).
  destruct (subscript flight "price") as [fv|e]; cbn [bind];
    [|intros H; exact H].
  destruct (py_float fv) as [f_price|e]; cbn [bind]; [|intros H; exact H].
  destruct (fgt f_price bound) eqn:E1; [discriminate|]. intros _.
  destruct (fgt f_price bound') eqn:E2; [|reflexivity].
  rewrite (fgt_fle_trans f_price bound bound' E2 Hle) in E1. discriminate.
Qed.

Lemma raised_price_bound_keeps_match_witness :
  flight_matches_query sample_flight
    (dict_set "price" (PFloat (Ffin false 7036874417766400 (-46)))
       [("origin", PStr "JFK"); ("price", PInt 1)]) = Ok true /\
  fle (Ffin false 7036874417766400 (-46)) (Finf false) = true /\
  flight_matches_query sample_flight
    (dict_set "price" (PFloat (Finf false))
       [("origin", PStr "JFK"); ("price", PInt 1)]) = Ok true.
Proof.
  assert (H1 : flight_matches_query sample_flight
                 (dict_set "price" (PFloat (Ffin false 7036874417766400 (-46)))
                    [("origin", PStr "JFK"); ("price", PInt 1)]) = Ok true)
    by (vm_compute; reflexivity).
  assert (H2 : fle (Ffin false 7036874417766400 (-46)) (Finf false) = true)
    by reflexivity.
  split; [exact H1|]. split; [exact H2|].
  exact (raised_price_bound_keeps_match sample_flight _ _ _ H1 H2).
Defined.

(** * Blanks around the fields *)

Section Strip.

Variable p : ascii -> bool.

Lemma rstrip_by_idempotent (s : string) :
  rstrip_by p (rstrip_by p s) = rstrip_by p s.
Proof.
  induction s as [|c s IH]; cbn [rstrip_by]; [reflexivity|].
  destruct (rstrip_by p s) as [|c' r'] eqn:E.
  - destruct (p c) eqn:Ec; cbn [rstrip_by]; [reflexivity|now rewrite Ec].
  - cbn [rstrip_by]. cbn [rstrip_by] in IH. now rewrite IH.
Qed.

(** What is left after the blanks at the end are taken away begins as
    the text did, or is empty. *)
Lemma rstrip_by_head (c : ascii) (s : string) :
  p c = false -> exists r, rstrip_by p (String c s) = String c r.
Proof.
  intros Hc. cbn [rstrip_by]. rewrite Hc.
  destruct (rstrip_by p s); now eexists.
Qed.

Lemma lstrip_by_head (s : string) :
  match lstrip_by p s with
  | String c _ => p c = false
  | EmptyString => True
  end.
Proof.
  induction s as [|c s IH]; cbn [lstrip_by]; [exact I|].
  destruct (p c) eqn:Ec; [exact IH|exact Ec].
Qed.

Lemma strip_by_idempotent (s : string) :
  rstrip_by p (lstrip_by p (rstrip_by p (lstrip_by p s)))
  = rstrip_by p (lstrip_by p s).
Proof.
  pose proof (lstrip_by_head s) as H.
  destruct (lstrip_by p s) as [|c r]; [reflexivity|].
  destruct (rstrip_by_head c r H) as (r' & E). rewrite E.
  cbn [lstrip_by]. rewrite H, <- E. apply rstrip_by_idempotent.
Qed.

End Strip.

Lemma strip_idempotent (s : string) : strip (strip s) = strip s.
Proof. apply strip_by_idempotent. Qed.

(** X17: blanks around the fields of a row change nothing: the row whose
    fields have been trimmed gets the verdict, the record and the
    message of the row itself. *)
Theorem validate_row_ignores_blanks (fields : list string) (line_no : Z)
    (original_line : string) :
  validate_row (map strip fields) line_no original_line
  = validate_row fields line_no original_line.
Proof.
  destruct fields as [|f0 [|f1 [|f2 [|f3 [|f4 [|f5 [|f6 rest]]]]]]];
    try reflexivity.
  cbn [map]. rewrite !validate_row_reasons. now rewrite !strip_idempotent.
Qed.

(** * Airport codes *)

(** X18: on ASCII text, an airport code is valid exactly when it is
    made of three capital letters. *)
Theorem is_valid_airport_code_three_capitals (value : string) :
  is_valid_airport_code value = true <-> three_capitals value.
Proof.
  unfold is_valid_airport_code, three_capitals, isalpha, PyStr.isupper, len.
  split.
  - intros H. apply andb_true_iff in H. destruct H as [H Hu].
    apply andb_true_iff in H. destruct H as [Hl Ha].
    apply Z.eqb_eq in Hl.
    destruct value as [|a [|b [|c [|x r]]]]; cbn [String.length] in Hl;
      try lia.
    exists a, b, c. split; [reflexivity|].
    revert Ha Hu. cbn [truthy forallb_s existsb_s]. unfold isalpha_c.
    destruct (isupper_c a), (isupper_c b), (isupper_c c),
      (islower_c a), (islower_c b), (islower_c c); cbn;
      intros; try discriminate; auto.
  - intros (a & b & c & -> & Ha & Hb & Hc).
    assert (L : forall x, isupper_c x = true -> islower_c x = false).
    { intros x. codes. intros H. bools.
      apply andb_false_iff. left. apply Z.leb_gt. lia. }
    cbn [String.length truthy forallb_s existsb_s]. unfold isalpha_c.
    now rewrite Ha, Hb, Hc, (L a Ha), (L b Hb), (L c Hc).
Qed.

Import PyText Os.
Import QuerySpec CsvSpec RunSpec FileAux.
Local Open Scope string_scope.
Local Open Scope Z_scope.

(** * Line numbers and the rows that are kept *)

(** The loop over the lines keeps the flights it has. *)
Lemma for_lines_keeps (lines : list string) :
  forall line_no header_skipped valid_flights d d' flights,
    for_lines lines line_no header_skipped valid_flights d = (d', Done flights) ->
    exists more, flights = (valid_flights ++ more)%list.
Proof.
  induction lines as [|raw rest IH]; intros n h vf d d' flights;
    cbn [for_lines].
  - intros [= <- <-]. exists []. now rewrite app_nil_r.
  - destruct (negb (truthy _)); [now apply IH|].
    destruct (negb h && _); [now apply IH|].
    destruct (startswith "#" _).
    + unfold io_bind, write. now apply IH.
    + unfold io_bind at 1.
      destruct (csv_reader_one_line (rstrip_newline raw)) as [->|(row & ->)];
        cbn [for_rows].
      * unfold raise. discriminate.
      * unfold io_bind at 1.
        destruct (handle_row_cases row n (rstrip_newline raw) vf d)
          as [(flight & _ & ->)|(msg & _ & _ & ->)]; unfold ret.
        -- intros H. apply IH in H. destruct H as (more & ->).
           exists (flight :: more). now rewrite <- app_assoc.
        -- now apply IH.
Qed.

(** The state of the loop after the first lines of a file. *)
Lemma for_lines_split (before : list string) :
  forall after line_no header_skipped valid_flights d d' flights,
    for_lines (before ++ after) line_no header_skipped valid_flights d
    = (d', Done flights) ->
    exists h1 vf1 d1,
      for_lines after (line_no + Z.of_nat (List.length before)) h1 vf1 d1
      = (d', Done flights) /\
      extends d d1.
Proof.
  induction before as [|raw rest IH]; intros after n h vf d d' flights.
  - cbn [app List.length Z.of_nat]. rewrite Z.add_0_r. intros H.
    exists h, vf, d. split; [assumption|apply extends_refl].
  - cbn [app for_lines].
    replace (n + Z.of_nat (List.length (raw :: rest)))
      with (n + 1 + Z.of_nat (List.length rest))
      by (cbn [List.length]; lia).
    destruct (negb (truthy _)); [now apply IH|].
    destruct (negb h && _); [now apply IH|].
    destruct (startswith "#" _).
    + unfold io_bind at 1.
      pose proof (logging_write
                    (comment_message n (rstrip_newline raw) ++ newline) d) as Hw.
      destruct (write ERRORS_TXT _ d) as [d0 [[]|f]] eqn:Ew; [|discriminate].
      cbn [fst] in Hw. intros H. apply IH in H.
      destruct H as (h1 & vf1 & d1 & H & He).
      exists h1, vf1, d1. split; [assumption|].
      exact (extends_trans _ _ _ Hw He).
    + unfold io_bind at 1.
      pose proof (logging_for_rows (PyCsv.csv_reader [rstrip_newline raw]) n
                    (rstrip_newline raw) vf d) as Hw.
      destruct (for_rows _ n (rstrip_newline raw) vf d) as [d0 [vf0|f]];
        [|discriminate].
      cbn [fst] in Hw. intros H. apply IH in H.
      destruct H as (h1 & vf1 & d1 & H & He).
      exists h1, vf1, d1. split; [assumption|].
      exact (extends_trans _ _ _ Hw He).
Qed.

Lemma for_lines_extends (lines : list string) (line_no : Z)
    (header_skipped : bool) (valid_flights : list dict) (d d' : disk)
    (o : outcome (list dict)) :
  for_lines lines line_no header_skipped valid_flights d = (d', o) ->
  extends d d'.
Proof.
  intros H.
  pose proof (logging_for_lines lines line_no header_skipped valid_flights d) as L.
  now rewrite H in L.
Qed.

(** The line at a place of the file, when it is neither blank nor the
    header. *)
Lemma for_lines_at (before after : list string) (raw : string)
    (header_skipped : bool) (valid_flights : list dict) (d d' : disk)
    (flights : list dict) (old : string) :
  d ERRORS_TXT = Some (File old) ->
  for_lines (before ++ raw :: after) 1 header_skipped valid_flights d
  = (d', Done flights) ->
  blank raw = false -> header_like raw = false ->
  (forall msg, logged (Z.of_nat (List.length before) + 1) raw msg ->
     exists pre post,
       d' ERRORS_TXT = Some (File (old ++ pre ++ msg ++ newline ++ post))) /\
  (forall flight msg,
     verdict (Z.of_nat (List.length before) + 1) raw
     = Some (true, Some flight, msg) -> In flight flights).
Proof.
  intros Hd H Hb Hh.
  set (line_no := Z.of_nat (List.length before) + 1).
  apply for_lines_split in H. destruct H as (h1 & vf1 & d1 & H & [_ He]).
  destruct (He old Hd) as (pre & Hd1). clear He.
  replace (1 + Z.of_nat (List.length before)) with line_no in H
    by (unfold line_no; lia).
  revert H. cbn [for_lines].
  unfold blank in Hb. apply negb_false_iff in Hb. rewrite Hb. cbn [negb].
  unfold header_like in Hh. rewrite Hh, andb_false_r.
  unfold logged, verdict, comment.
  destruct (startswith "#" (strip (rstrip_newline raw))) eqn:Ec.
  - unfold io_bind, write. rewrite (content_of_file d1 _ _ Hd1).
    intros H. split.
    + intros msg [[_ ->]|(fl & Hv)]; [|discriminate Hv].
      apply for_lines_extends in H. destruct H as [_ H].
      destruct (H _ (set_entry_same _ _ _)) as (post & Hpost).
      exists pre, post. rewrite Hpost. now rewrite !append_assoc.
    + intros flight msg Hv. discriminate Hv.
  - unfold io_bind at 1.
    destruct (csv_reader_one_line (rstrip_newline raw)) as [->|(row & ->)];
      cbn [for_rows].
    { unfold raise. discriminate. }
    unfold io_bind at 1.
    destruct (handle_row_cases row line_no (rstrip_newline raw) vf1 d1)
      as [(flight & Hv & ->)|(msg & Hv & _ & ->)]; unfold ret; rewrite Hv;
      intros H.
    + split.
      * intros msg [[Hc _]|(fl & Hfl)]; [discriminate Hc|discriminate Hfl].
      * intros fl msg [= <-]. apply for_lines_keeps in H.
        destruct H as (more & ->). apply in_or_app. left.
        apply in_or_app. right. now left.
    + split.
      * intros m [[Hc _]|(fl & Hfl)]; [discriminate Hc|].
        injection Hfl as _ <-.
        rewrite (content_of_file d1 _ _ Hd1) in H.
        apply for_lines_extends in H. destruct H as [_ H].
        destruct (H _ (set_entry_same _ _ _)) as (post & Hpost).
        exists pre, post. rewrite Hpost. now rewrite !append_assoc.
      * intros fl m Hfl. discriminate Hfl.
Qed.

Lemma parse_csv_file_at (path content : string) (d d' : disk)
    (flights : list dict) (before after : list string) (raw : string) :
  d path = Some (File content) ->
  parse_csv_file path d = (d', Done flights) ->
  readlines content = (before ++ raw :: after)%list ->
  blank raw = false -> header_like raw = false ->
  (forall msg, logged (Z.of_nat (List.length before) + 1) raw msg ->
     exists pre post,
       d' ERRORS_TXT
       = Some (File (content_of d ERRORS_TXT ++ pre ++ msg ++ newline ++ post))) /\
  (forall flight msg,
     verdict (Z.of_nat (List.length before) + 1) raw
     = Some (true, Some flight, msg) -> In flight flights).
Proof.
  intros Hp H Hl Hb Hh. revert H. unfold parse_csv_file.
  unfold io_bind at 1. unfold open_read. rewrite Hp.
  unfold io_bind at 1. unfold open_append, content_of. rewrite Hl.
  destruct (d ERRORS_TXT) as [[old|names]|] eqn:E.
  - intros H. exact (for_lines_at _ _ _ _ _ _ _ _ old E H Hb Hh).
  - discriminate.
  - intros H.
    exact (for_lines_at _ _ _ _ _ _ _ _ "" (set_entry_same d _ _) H Hb Hh).
Qed.

(** * The lines written to the log *)

Lemma lines_text_app (a b : list string) :
  lines_text (a ++ b) = lines_text a ++ lines_text b.
Proof.
  induction a as [|m a IH]; cbn [app lines_text]; [reflexivity|].
  now rewrite IH, !append_assoc.
Qed.

(** The loop over the lines writes whole lines to a log that is a file:
    messages without a line feed, each followed by one. *)
Lemma for_lines_writes_lines (lines : list string) :
  forall line_no header_skipped valid_flights d old d' flights,
    Forall (fun l => forallb_s no_lf (rstrip_newline l) = true) lines ->
    d ERRORS_TXT = Some (File old) ->
    for_lines lines line_no header_skipped valid_flights d = (d', Done flights) ->
    exists msgs,
      d' ERRORS_TXT = Some (File (old ++ lines_text msgs)) /\
      Forall (fun m => forallb_s no_lf m = true) msgs.
Proof.
  induction lines as [|raw rest IH]; intros n h vf d old d' flights Hl Hd;
    cbn [for_lines].
  - intros [= <- <-]. exists []. cbn [lines_text]. rewrite append_empty_r.
    split; [assumption|constructor].
  - inversion Hl as [|? ? Hraw Hrest]; subst.
    destruct (negb (truthy (strip (rstrip_newline raw)))).
    { now apply IH. }
    destruct (negb h && _).
    { now apply IH. }
    destruct (startswith "#" _).
    + unfold io_bind, write. rewrite (content_of_file d _ old Hd).
      intros H. apply IH with (old := old ++ comment_message n (rstrip_newline raw)
                                           ++ newline) in H;
        [|assumption|apply set_entry_same].
      destruct H as (msgs & E1 & E2).
      exists (comment_message n (rstrip_newline raw) :: msgs).
      split.
      * rewrite E1. cbn [lines_text]. now rewrite !append_assoc.
      * constructor; [now apply comment_message_no_lf|assumption].
    + unfold io_bind at 1.
      destruct (csv_reader_one_line (rstrip_newline raw)) as [->|(row & ->)];
        cbn [for_rows].
      * unfold raise. discriminate.
      * unfold io_bind at 1.
        destruct (handle_row_cases row n (rstrip_newline raw) vf d)
          as [(flight & _ & ->)|(msg & _ & Hmsg & ->)]; unfold ret.
        -- intros H. now apply IH with (old := old) in H.
        -- rewrite (content_of_file d _ old Hd).
           intros H. apply IH with (old := old ++ msg ++ newline) in H;
             [|assumption|apply set_entry_same].
           destruct H as (msgs & E1 & E2).
           exists (msg :: msgs). split.
           ++ rewrite E1. cbn [lines_text]. now rewrite !append_assoc.
           ++ constructor; [now apply Hmsg|assumption].
Qed.

(** The loop over the lines of a file, cut at a place: the second part
    goes on from where the first part ends, the header being looked for
    only if the first part has none. *)
Lemma for_lines_cut (before : list string) :
  forall after line_no header_skipped valid_flights d d' flights,
    for_lines (before ++ after) line_no header_skipped valid_flights d
    = (d', Done flights) ->
    exists vf1 d1,
      for_lines before line_no header_skipped valid_flights d = (d1, Done vf1) /\
      for_lines after (line_no + Z.of_nat (List.length before))
        (header_skipped || seen_header before) vf1 d1
      = (d', Done flights).
Proof.
  induction before as [|raw rest IH]; intros after n h vf d d' flights.
  - cbn [app List.length Z.of_nat for_lines seen_header existsb].
    rewrite Z.add_0_r, orb_false_r. intros H. now exists vf, d.
  - cbn [app for_lines seen_header existsb]. fold (seen_header rest).
    replace (n + Z.of_nat (List.length (raw :: rest)))
      with (n + 1 + Z.of_nat (List.length rest))
      by (cbn [List.length]; lia).
    unfold blank, header_like.
    destruct (negb (truthy (strip (rstrip_newline raw)))) eqn:Eb.
    { cbn [negb andb orb]. now apply IH. }
    cbn [negb andb].
    destruct h; cbn [negb andb orb].
    { intros H.
      destruct (startswith "#" _).
      - unfold io_bind at 1 in H. unfold io_bind at 1.
        destruct (write ERRORS_TXT _ d) as [d0 [[]|f]]; [|discriminate].
        apply IH in H. now rewrite orb_true_l in H.
      - unfold io_bind at 1 in H. unfold io_bind at 1.
        destruct (for_rows _ n (rstrip_newline raw) vf d) as [d0 [vf0|f]];
          [|discriminate].
        apply IH in H. now rewrite orb_true_l in H. }
    destruct (startswith "flight_id,origin,destination" _) eqn:Eh;
      cbn [orb].
    { intros H. apply IH in H. now rewrite orb_true_l in H. }
    intros H.
    destruct (startswith "#" _).
    + unfold io_bind at 1 in H. unfold io_bind at 1.
      destruct (write ERRORS_TXT _ d) as [d0 [[]|f]]; [|discriminate].
      apply IH in H. now rewrite orb_false_l in H.
    + unfold io_bind at 1 in H. unfold io_bind at 1.
      destruct (for_rows _ n (rstrip_newline raw) vf d) as [d0 [vf0|f]];
        [|discriminate].
      apply IH in H. now rewrite orb_false_l in H.
Qed.

(** The line at a place of the file, when it is neither blank nor the
    header that is skipped: its message is one of the lines written. *)
Lemma for_lines_logs (before after : list string) (raw : string)
    (valid_flights : list dict) (d d' : disk) (flights : list dict)
    (old msg : string) :
  Forall (fun l => forallb_s no_lf (rstrip_newline l) = true)
    (before ++ raw :: after) ->
  d ERRORS_TXT = Some (File old) ->
  for_lines (before ++ raw :: after) 1 false valid_flights d
  = (d', Done flights) ->
  blank raw = false -> skipped_header before raw = false ->
  logged (Z.of_nat (List.length before) + 1) raw msg ->
  exists earlier later,
    d' ERRORS_TXT = Some (File (old ++ lines_text (earlier ++ msg :: later))) /\
    Forall (fun m => forallb_s no_lf m = true) (earlier ++ msg :: later).
Proof.
  intros Hl Hd H Hb Hh Hm.
  apply Forall_app in Hl. destruct Hl as [Hl1 Hl2].
  inversion Hl2 as [|? ? Hraw Hl3]; subst.
  set (line_no := Z.of_nat (List.length before) + 1) in *.
  apply for_lines_cut in H. destruct H as (vf1 & d1 & H1 & H2).
  destruct (for_lines_writes_lines _ _ _ _ _ old _ _ Hl1 Hd H1)
    as (earlier & Hd1 & He).
  replace (1 + Z.of_nat (List.length before)) with line_no in H2
    by (unfold line_no; lia).
  cbn [orb] in H2. revert H2. cbn [for_lines].
  unfold blank in Hb. apply negb_false_iff in Hb. rewrite Hb. cbn [negb].
  unfold skipped_header, header_like in Hh. rewrite andb_comm in Hh.
  rewrite Hh.
  assert (Hfin : forall d2 vf2 m,
            forallb_s no_lf m = true ->
            d2 ERRORS_TXT
            = Some (File ((old ++ lines_text earlier) ++ m ++ newline)) ->
            for_lines after (line_no + 1) (seen_header before) vf2 d2
            = (d', Done flights) ->
            exists later,
              d' ERRORS_TXT
              = Some (File (old ++ lines_text (earlier ++ m :: later))) /\
              Forall (fun m => forallb_s no_lf m = true)
                (earlier ++ m :: later)).
  { intros d2 vf2 m Hm0 Hd2 H.
    destruct (for_lines_writes_lines _ _ _ _ _ _ _ _ Hl3 Hd2 H)
      as (later & Hd' & Hlater).
    exists later. split.
    - rewrite Hd', lines_text_app. cbn [lines_text].
      now rewrite !append_assoc.
    - apply Forall_app. split; [assumption|]. now constructor. }
  unfold logged, verdict, comment in Hm.
  destruct (startswith "#" (strip (rstrip_newline raw))) eqn:Ec.
  - destruct Hm as [[_ ->]|(fl & Hv)]; [|discriminate Hv].
    unfold io_bind, write. rewrite (content_of_file d1 _ _ Hd1).
    intros H. exists earlier.
    apply (Hfin _ vf1 _ (comment_message_no_lf line_no _ Hraw)
             (set_entry_same _ _ _) H).
  - destruct Hm as [[Hc _]|(fl & Hv)]; [discriminate Hc|].
    unfold io_bind at 1.
    destruct (csv_reader_one_line (rstrip_newline raw)) as [E|(row & E)];
      rewrite E in *; [discriminate Hv|].
    injection Hv as Hv.
    cbn [for_rows]. unfold io_bind at 1.
    destruct (handle_row_cases row line_no (rstrip_newline raw) vf1 d1)
      as [(flight & Hr & _)|(m & Hr & Hmsg & ->)]; rewrite Hr in Hv;
      [discriminate Hv|].
    injection Hv as _ <-. unfold ret.
    rewrite (content_of_file d1 _ _ Hd1).
    intros H. exists earlier.
    apply (Hfin _ vf1 _ (Hmsg Hraw) (set_entry_same _ _ _) H).
Qed.

Lemma parse_csv_file_logs (path content : string) (d d' : disk)
    (flights : list dict) (before after : list string) (raw msg : string) :
  d path = Some (File content) ->
  parse_csv_file path d = (d', Done flights) ->
  readlines content = (before ++ raw :: after)%list ->
  blank raw = false -> skipped_header before raw = false ->
  logged (Z.of_nat (List.length before) + 1) raw msg ->
  exists earlier later,
    d' ERRORS_TXT
    = Some (File (content_of d ERRORS_TXT
                    ++ lines_text (earlier ++ msg :: later))) /\
    Forall (fun m => forallb_s no_lf m = true) (earlier ++ msg :: later).
Proof.
  intros Hp H Hl Hb Hh Hm. revert H. unfold parse_csv_file.
  unfold io_bind at 1. unfold open_read. rewrite Hp.
  unfold io_bind at 1. unfold open_append, content_of.
  pose proof (readlines_no_lf content) as Hn. rewrite Hl in *.
  destruct (d ERRORS_TXT) as [[old|names]|] eqn:E.
  - intros H. exact (for_lines_logs _ _ _ _ _ _ _ old msg Hn E H Hb Hh Hm).
  - discriminate.
  - intros H.
    exact (for_lines_logs _ _ _ _ _ _ _ "" msg Hn (set_entry_same d _ _)
             H Hb Hh Hm).
Qed.

(** X19: the number in a logged line is the place of the line in the
    file, counted from 1 with the blank lines, the comments and the
    header: when a file has been parsed, what was added to the error
    log, after what the log held before, is a sequence of whole lines,
    each a message without a line feed followed by one, and the message
    of a comment line or of a rejected row, made with that number, is
    one of these lines.  Only the first line that looks like the header
    is skipped: a later one is a row like any other. *)
Theorem parse_csv_file_logs_line_number (path content : string) (d d' : disk)
    (flights : list dict) (before after : list string) (raw msg : string) :
  d path = Some (File content) ->
  parse_csv_file path d = (d', Done flights) ->
  readlines content = (before ++ raw :: after)%list ->
  blank raw = false -> skipped_header before raw = false ->
  logged (Z.of_nat (List.length before) + 1) raw msg ->
  exists earlier later,
    d' ERRORS_TXT
    = Some (File (content_of d ERRORS_TXT
                    ++ lines_text (earlier ++ msg :: later))) /\
    Forall (fun m => forallb_s no_lf m = true) (earlier ++ msg :: later).
Proof. exact (parse_csv_file_logs path content d d' flights before after raw msg). Qed.

(** X20: no valid row is lost: when a file has been parsed, the record
    of every line that is neither blank, nor the header, nor a comment,
    and that the validator accepts, is among the flights returned. *)
Theorem parse_csv_file_returns_valid_rows (path content : string) (d d' : disk)
    (flights : list dict) (before after : list string) (raw msg : string)
    (flight : dict) :
  d path = Some (File content) ->
  parse_csv_file path d = (d', Done flights) ->
  readlines content = (before ++ raw :: after)%list ->
  blank raw = false -> header_like raw = false ->
  verdict (Z.of_nat (List.length before) + 1) raw = Some (true, Some flight, msg) ->
  In flight flights.
Proof.
  intros Hp H Hl Hb Hh Hv.
  exact (proj2 (parse_csv_file_at _ _ _ _ _ _ _ _ Hp H Hl Hb Hh) flight msg Hv).
Qed.

Lemma parse_csv_file_logs_line_number_witness :
  let before :=
    ["flight_id,origin,destination,departure_datetime,arrival_datetime,price"
       ++ newline] in
  let raw := "Flight_ID,Origin,Destination,Departure,Arrival,Price" ++ newline in
  let msg :=
    diagnostic 2 "Flight_ID,Origin,Destination,Departure,Arrival,Price"
      ["flight_id too long (more than 8 characters)"; "invalid origin code";
       "invalid destination code"; "invalid date format";
       "invalid price value"] in
  exists d' flights,
    sample_disk_headers "data/twice.csv" = Some (File sample_headers) /\
    parse_csv_file "data/twice.csv" sample_disk_headers = (d', Done flights) /\
    readlines sample_headers = (before ++ raw :: [])%list /\
    blank raw = false /\ skipped_header before raw = false /\
    logged (Z.of_nat (List.length before) + 1) raw msg /\
    exists earlier later,
      d' ERRORS_TXT
      = Some (File (content_of sample_disk_headers ERRORS_TXT
                      ++ lines_text (earlier ++ msg :: later))) /\
      Forall (fun m => forallb_s no_lf m = true) (earlier ++ msg :: later).
Proof.
  intros before raw msg.
  destruct (parse_csv_file "data/twice.csv" sample_disk_headers)
    as [d' [flights|f]] eqn:E.
  - exists d', flights.
    assert (H1 : sample_disk_headers "data/twice.csv" = Some (File sample_headers))
      by reflexivity.
    assert (H3 : readlines sample_headers = (before ++ raw :: [])%list)
      by (vm_compute; reflexivity).
    assert (H4 : blank raw = false) by (vm_compute; reflexivity).
    assert (H5 : skipped_header before raw = false) by (vm_compute; reflexivity).
    assert (H6 : logged (Z.of_nat (List.length before) + 1) raw msg)
      by (right; exists None; vm_compute; reflexivity).
    split; [exact H1|]. split; [reflexivity|]. split; [exact H3|].
    split; [exact H4|]. split; [exact H5|]. split; [exact H6|].
    exact (parse_csv_file_logs_line_number "data/twice.csv" sample_headers
             sample_disk_headers d' flights before [] raw msg H1 E H3 H4 H5 H6).
  - exfalso. vm_compute in E. discriminate E.
Defined.

Lemma parse_csv_file_returns_valid_rows_witness :
  let before :=
    ["flight_id,origin,destination,departure_datetime,arrival_datetime,price"
       ++ newline;
     "# note" ++ newline; newline] in
  let raw := "AB12,JFK,LAX,2024-05-01 10:00,2024-05-01 12:00,100" ++ newline in
  let after := ["AB12,JFK" ++ newline; String dquote "CD34,LHR" ++ newline] in
  exists d' flights,
    sample_disk "data/in.csv" = Some (File sample_csv) /\
    parse_csv_file "data/in.csv" sample_disk = (d', Done flights) /\
    readlines sample_csv = (before ++ raw :: after)%list /\
    blank raw = false /\ header_like raw = false /\
    verdict (Z.of_nat (List.length before) + 1) raw
    = Some (true, Some sample_flight, "") /\
    In sample_flight flights.
Proof.
  intros before raw after.
  destruct (parse_csv_file "data/in.csv" sample_disk) as [d' [flights|f]] eqn:E.
  - exists d', flights.
    assert (H1 : sample_disk "data/in.csv" = Some (File sample_csv))
      by reflexivity.
    assert (H3 : readlines sample_csv = (before ++ raw :: after)%list)
      by (vm_compute; reflexivity).
    assert (H4 : blank raw = false) by (vm_compute; reflexivity).
    assert (H5 : header_like raw = false) by (vm_compute; reflexivity).
    assert (H6 : verdict (Z.of_nat (List.length before) + 1) raw
                 = Some (true, Some sample_flight, ""))
      by (vm_compute; reflexivity).
    split; [exact H1|]. split; [reflexivity|]. split; [exact H3|].
    split; [exact H4|]. split; [exact H5|]. split; [exact H6|].
    exact (parse_csv_file_returns_valid_rows "data/in.csv" sample_csv
             sample_disk d' flights before after raw "" sample_flight
             H1 E H3 H4 H5 H6).
  - exfalso. vm_compute in E. discriminate E.
Defined.

Import PyText Os.
Import QuerySpec CsvSpec RunSpec FileAux.
Local Open Scope string_scope.
Local Open Scope Z_scope.

(** * Fields written in quotes *)

Lemma add_char_room (st : PyCsv.state) (fs : list string) (acc : string)
    (c : ascii) :
  len acc < PyCsv.field_limit ->
  PyCsv.parse_add_char (PyCsv.mkreader st fs acc) c
  = Some (PyCsv.mkreader st fs (acc ++ String c "")).
Proof.
  intros H. unfold PyCsv.parse_add_char. cbn [PyCsv.field PyCsv.state_of PyCsv.fields].
  apply Z.ltb_lt in H. now rewrite Z.leb_antisym, H.
Qed.

(** Inside the quotes, up to the quote that closes the field. *)
Lemma feed_quoted_field (f : string) :
  forall (acc : string) (fs : list string) (rest : string),
    len (acc ++ f) <= PyCsv.field_limit ->
    PyCsv.feed (PyCsv.mkreader PyCsv.IN_QUOTED_FIELD fs acc)
      (double_quotes f ++ String dquote rest)
    = PyCsv.feed (PyCsv.mkreader PyCsv.QUOTE_IN_QUOTED_FIELD fs (acc ++ f)) rest.
Proof.
  induction f as [|c f IH]; intros acc fs rest Hlen.
  - rewrite append_empty_r. reflexivity.
  - assert (Hacc : len acc < PyCsv.field_limit).
    { rewrite len_app in Hlen.
      change (len (String c f)) with (Z.of_nat (S (String.length f))) in Hlen.
      rewrite Nat2Z.inj_succ in Hlen. fold (len f) in Hlen.
      pose proof (len_nonneg f). lia. }
    assert (Ea : (acc ++ String c "") ++ f = acc ++ String c f)
      by now rewrite append_assoc.
    cbn [double_quotes].
    destruct (Ascii.eqb c dquote) eqn:Ec.
    + apply Ascii.eqb_eq in Ec. subst c.
      cbn [String.append PyCsv.feed].
      change (PyCsv.parse_process_char
                (PyCsv.mkreader PyCsv.IN_QUOTED_FIELD fs acc) (Some dquote))
        with (Some (PyCsv.mkreader PyCsv.QUOTE_IN_QUOTED_FIELD fs acc)).
      cbv beta iota.
      change (PyCsv.parse_process_char
                (PyCsv.mkreader PyCsv.QUOTE_IN_QUOTED_FIELD fs acc) (Some dquote))
        with (option_map (fun r' => PyCsv.set_state r' PyCsv.IN_QUOTED_FIELD)
                (PyCsv.parse_add_char
                   (PyCsv.mkreader PyCsv.QUOTE_IN_QUOTED_FIELD fs acc) dquote)).
      rewrite (add_char_room _ fs acc dquote Hacc).
      unfold option_map, PyCsv.set_state.
      cbn [PyCsv.fields PyCsv.field].
      rewrite IH by (now rewrite Ea). now rewrite Ea.
    + cbn [String.append PyCsv.feed].
      unfold PyCsv.parse_process_char at 1.
      cbn [PyCsv.state_of]. unfold PyCsv.quotechar. rewrite Ec.
      rewrite (add_char_room _ fs acc c Hacc).
      rewrite IH by (now rewrite Ea). now rewrite Ea.
Qed.

Lemma feed_open_quote (st : PyCsv.state) (fs : list string) (s : string) :
  st = PyCsv.START_RECORD \/ st = PyCsv.START_FIELD ->
  PyCsv.feed (PyCsv.mkreader st fs "") (String dquote s)
  = PyCsv.feed (PyCsv.mkreader PyCsv.IN_QUOTED_FIELD fs "") s.
Proof. intros [-> | ->]; reflexivity. Qed.

Lemma feed_quoted_fields (fields : list string) :
  forall fs,
    fields <> [] ->
    Forall (fun f => len f <= PyCsv.field_limit) fields ->
    PyCsv.feed (PyCsv.mkreader PyCsv.START_FIELD fs "")
      (join "," (map quoted fields))
    = Some (PyCsv.mkreader PyCsv.START_RECORD (fs ++ fields) "").
Proof.
  induction fields as [|f rest IH]; intros fs Hne Hlen; [now elim Hne|].
  inversion Hlen as [|? ? Hf Hrest]; subst.
  destruct rest as [|g rest].
  - cbn [map join]. unfold quoted.
    rewrite (feed_open_quote _ fs _ (or_intror eq_refl)).
    rewrite feed_quoted_field by exact Hf.
    reflexivity.
  - change (join "," (map quoted (f :: g :: rest)))
      with (quoted f ++ "," ++ join "," (map quoted (g :: rest))).
    unfold quoted at 1. cbn [String.append].
    rewrite append_assoc. cbn [String.append].
    rewrite (feed_open_quote _ fs _ (or_intror eq_refl)).
    rewrite feed_quoted_field by exact Hf.
    cbn [String.append PyCsv.feed].
    change (PyCsv.parse_process_char
              (PyCsv.mkreader PyCsv.QUOTE_IN_QUOTED_FIELD fs f) (Some ","%char))
      with (Some (PyCsv.mkreader PyCsv.START_FIELD (fs ++ [f]) "")).
    cbv beta iota.
    rewrite (IH (fs ++ [f])%list ltac:(discriminate) Hrest).
    now rewrite <- app_assoc.
Qed.

(** X21: a row written with every field in double quotes, the quotes
    inside a field doubled and the fields joined by commas, is read by
    [csv.reader] as these fields, whatever characters they hold, as
    long as none is longer than 131072 characters: a comma or a quote
    inside the quotes does not cut the field. *)
Theorem csv_reader_quoted_fields (fields : list string) :
  fields <> [] ->
  Forall (fun f => len f <= PyCsv.field_limit) fields ->
  PyCsv.csv_reader [join "," (map quoted fields)]
  = PyCsv.Row fields PyCsv.Stop.
Proof.
  intros Hne Hlen.
  pose proof (feed_quoted_fields fields [] Hne Hlen) as H.
  rewrite csv_reader_unfold. unfold PyCsv.next. cbn [PyCsv.next_from].
  assert (E : exists s, join "," (map quoted fields) = String dquote s).
  { destruct fields as [|f [|g rest]]; [now elim Hne| |]; cbn [map join];
      unfold quoted; cbn [String.append]; now eexists. }
  destruct E as (s & E). rewrite E in *.
  change (PyCsv.feed PyCsv.parse_reset (String dquote s))
    with (PyCsv.feed (PyCsv.mkreader PyCsv.START_FIELD [] "") (String dquote s)).
  rewrite H. reflexivity.
Qed.

Lemma csv_reader_quoted_fields_witness :
  ["AB,12"; String dquote "JFK"; ""] <> [] /\
  Forall (fun f => len f <= PyCsv.field_limit) ["AB,12"; String dquote "JFK"; ""] /\
  PyCsv.csv_reader [join "," (map quoted ["AB,12"; String dquote "JFK"; ""])]
  = PyCsv.Row ["AB,12"; String dquote "JFK"; ""] PyCsv.Stop.
Proof.
  assert (H1 : ["AB,12"; String dquote "JFK"; ""] <> []) by discriminate.
  assert (H2 : Forall (fun f => len f <= PyCsv.field_limit)
                 ["AB,12"; String dquote "JFK"; ""])
    by (repeat constructor; discriminate).
  split; [exact H1|]. split; [exact H2|].
  exact (csv_reader_quoted_fields _ H1 H2).
Defined.

(** * A folder without CSV files *)

Lemma filter_none {A : Type} (f : A -> bool) (l : list A) :
  Forall (fun x => f x = false) l -> filter f l = [].
Proof.
  induction 1 as [|x l Hx _ IH]; cbn [filter]; [reflexivity|].
  now rewrite Hx.
Qed.

(** X22: for a folder in which no name ends in [.csv], whatever the
    case of the letters, parsing the folder returns no flight and leaves
    no error log: the log of an earlier run is removed and none is
    made; nothing else on the disk changes. *)
Theorem parse_csv_folder_without_csv
    (folder : string) (names : list string) (d : disk) :
  d folder = Some (Dir names) ->
  (forall n, d ERRORS_TXT <> Some (Dir n)) ->
  Forall (fun name => endswith ".csv" (lower name) = false) names ->
  snd (parse_csv_folder folder d) = Done [] /\
  fst (parse_csv_folder folder d) ERRORS_TXT = None /\
  forall p, p <> ERRORS_TXT -> fst (parse_csv_folder folder d) p = d p.
Proof.
  intros Hf Hlog Hnames.
  assert (Hne : folder <> ERRORS_TXT).
  { intros ->. now elim (Hlog names). }
  unfold parse_csv_folder.
  destruct (d ERRORS_TXT) as [[old|n]|] eqn:E; [| now elim (Hlog n) |].
  - rewrite (io_bind_done _ _ _ _ _ (clear_errors_file d old E)).
    unfold io_bind, listdir.
    rewrite (set_entry_other d ERRORS_TXT folder None Hne), Hf.
    rewrite (filter_none _ names Hnames). cbn [map sort for_paths].
    unfold ret. cbn [fst snd].
    split; [reflexivity|]. split; [apply set_entry_same|].
    intros p Hp. now apply set_entry_other.
  - rewrite (io_bind_done _ _ _ _ _ (clear_errors_none d E)).
    unfold io_bind, listdir. rewrite Hf.
    rewrite (filter_none _ names Hnames). cbn [map sort for_paths].
    unfold ret. cbn [fst snd].
    split; [reflexivity|]. split; [exact E|]. reflexivity.
Qed.

Lemma parse_csv_folder_without_csv_witness :
  let d := set_entry sample_disk "data" (Some (Dir ["notes.txt"; "csv"; "a.csv.bak"])) in
  d "data" = Some (Dir ["notes.txt"; "csv"; "a.csv.bak"]) /\
  (forall n, d ERRORS_TXT <> Some (Dir n)) /\
  Forall (fun name => endswith ".csv" (lower name) = false)
    ["notes.txt"; "csv"; "a.csv.bak"] /\
  snd (parse_csv_folder "data" d) = Done [] /\
  fst (parse_csv_folder "data" d) ERRORS_TXT = None /\
  forall p, p <> ERRORS_TXT -> fst (parse_csv_folder "data" d) p = d p.
Proof.
  intros d.
  assert (H1 : d "data" = Some (Dir ["notes.txt"; "csv"; "a.csv.bak"]))
    by reflexivity.
  assert (H2 : forall n, d ERRORS_TXT <> Some (Dir n))
    by (intros n; discriminate).
  assert (H3 : Forall (fun name => endswith ".csv" (lower name) = false)
                 ["notes.txt"; "csv"; "a.csv.bak"])
    by (repeat constructor).
  split; [exact H1|]. split; [exact H2|]. split; [exact H3|].
  exact (parse_csv_folder_without_csv "data" _ d H1 H2 H3).
Defined.

(** * Keys the matcher does not know *)

Lemma exact_matches_set_other (keys : list string) (flight query : dict)
    (key : string) (v : pyval) :
  ~ In key keys ->
  exact_matches keys flight (dict_set key v query)
  = exact_matches keys flight query.
Proof.
  induction keys as [|k keys IH]; intros Hn; cbn [exact_matches];
    [reflexivity|].
  rewrite dict_get_set_other by (intros ->; apply Hn; now left).
  rewrite IH by (intros H; apply Hn; now right).
  reflexivity.
Qed.

(** X23: a key that is none of flight_id, origin, destination,
    departure_datetime, arrival_datetime and price is ignored: setting
    it in a query, to any value, changes nothing of what the matcher
    answers or raises. *)
Theorem unrecognized_key_is_ignored
    (flight query : dict) (key : string) (v : pyval) :
  ~ In key recognized ->
  flight_matches_query flight (dict_set key v query)
  = flight_matches_query flight query.
Proof.
  intros Hn. unfold flight_matches_query.
  rewrite exact_matches_set_other
    by (intros H; apply Hn; unfold recognized; cbn in *; tauto).
  unfold departure_filter, arrival_filter, price_filter.
  rewrite (dict_get_set_other key "departure_datetime")
    by (intros <-; apply Hn; unfold recognized; cbn; tauto).
  rewrite (dict_get_set_other key "arrival_datetime")
    by (intros <-; apply Hn; unfold recognized; cbn; tauto).
  rewrite (dict_get_set_other key "price")
    by (intros <-; apply Hn; unfold recognized; cbn; tauto).
  reflexivity.
Qed.

Lemma unrecognized_key_is_ignored_witness :
  ~ In "airline" recognized /\
  flight_matches_query sample_flight
    (dict_set "airline" (PList [PInt 1]) [("origin", PStr "JFK")])
  = flight_matches_query sample_flight [("origin", PStr "JFK")].
Proof.
  assert (H : ~ In "airline" recognized).
  { unfold recognized. cbn. intros [H|[H|[H|[H|[H|[H|[]]]]]]]; discriminate H. }
  split; [exact H|].
  exact (unrecognized_key_is_ignored sample_flight [("origin", PStr "JFK")]
           "airline" (PList [PInt 1]) H).
Defined.

(** * Looser date bounds *)

Lemma dt_compare_dates (a b : datetime) :
  dt_compare a b = Eq -> a = b.
Proof.
  destruct a as [y1 m1 d1 h1 n1], b as [y2 m2 d2 h2 n2].
  unfold dt_compare. cbn [year month day hour minute].
  destruct (Z.compare_spec y1 y2); try discriminate.
  destruct (Z.compare_spec m1 m2); try discriminate.
  destruct (Z.compare_spec d1 d2); try discriminate.
  destruct (Z.compare_spec h1 h2); try discriminate.
  destruct (Z.compare_spec n1 n2); try discriminate.
  intros _. now subst.
Qed.

Lemma dt_compare_lt_trans (a b c : datetime) :
  dt_compare a b = Lt -> dt_compare b c = Lt -> dt_compare a c = Lt.
Proof.
  destruct a as [y1 m1 d1 h1 n1], b as [y2 m2 d2 h2 n2], c as [y3 m3 d3 h3 n3].
  unfold dt_compare. cbn [year month day hour minute].
  destruct (Z.compare_spec y1 y2); try discriminate;
    destruct (Z.compare_spec y2 y3); try discriminate;
    destruct (Z.compare_spec y1 y3); try lia; try reflexivity.
  destruct (Z.compare_spec m1 m2); try discriminate;
    destruct (Z.compare_spec m2 m3); try discriminate;
    destruct (Z.compare_spec m1 m3); try lia; try reflexivity.
  destruct (Z.compare_spec d1 d2); try discriminate;
    destruct (Z.compare_spec d2 d3); try discriminate;
    destruct (Z.compare_spec d1 d3); try lia; try reflexivity.
  destruct (Z.compare_spec h1 h2); try discriminate;
    destruct (Z.compare_spec h2 h3); try discriminate;
    destruct (Z.compare_spec h1 h3); try lia; try reflexivity.
  destruct (Z.compare_spec n1 n2); try discriminate;
    destruct (Z.compare_spec n2 n3); try discriminate;
    destruct (Z.compare_spec n1 n3); try lia; try reflexivity.
Qed.

(** Before a time that is not after another one. *)
Lemma dt_ltb_leb_trans (a b c : datetime) :
  dt_ltb a b = true -> dt_leb b c = true -> dt_ltb a c = true.
Proof.
  unfold dt_ltb, dt_leb.
  destruct (dt_compare a b) eqn:E1; try discriminate. intros _.
  destruct (dt_compare b c) eqn:E2; try discriminate; intros _.
  - apply dt_compare_dates in E2. subst c. now rewrite E1.
  - now rewrite (dt_compare_lt_trans a b c E1 E2).
Qed.

Lemma dt_leb_ltb_trans (a b c : datetime) :
  dt_leb a b = true -> dt_ltb b c = true -> dt_ltb a c = true.
Proof.
  unfold dt_ltb, dt_leb.
  destruct (dt_compare a b) eqn:E1; try discriminate; intros _;
    destruct (dt_compare b c) eqn:E2; try discriminate; intros _.
  - apply dt_compare_dates in E1. subst b. now rewrite E2.
  - now rewrite (dt_compare_lt_trans a b c E1 E2).
Qed.

Lemma date_filters_set (flight query : dict) (key : string) (v : pyval) :
  key = "departure_datetime" \/ key = "arrival_datetime" ->
  exact_matches ["flight_id"; "origin"; "destination"] flight
    (dict_set key v query)
  = exact_matches ["flight_id"; "origin"; "destination"] flight query /\
  price_filter flight (dict_set key v query) = price_filter flight query.
Proof.
  intros Hk. split.
  - apply exact_matches_set_other.
    destruct Hk as [-> | ->]; cbn; intros [H|[H|[H|[]]]]; discriminate H.
  - unfold price_filter. rewrite dict_get_set_other; [reflexivity|].
    destruct Hk as [-> | ->]; discriminate.
Qed.

(** X24: looser date bounds never lose a match: a flight that matches a
    query with a departure bound still matches when the bound is
    replaced by a time that is not later, and a flight that matches a
    query with an arrival bound still matches when the bound is
    replaced by a time that is not earlier. *)
Theorem looser_date_bound_keeps_match
    (flight query : dict) (s s' : string) (t t' : datetime) :
  parse_datetime_str s = Some t ->
  parse_datetime_str s' = Some t' ->
  (dt_leb t' t = true ->
   flight_matches_query flight
     (dict_set "departure_datetime" (PStr s) query) = Ok true ->
   flight_matches_query flight
     (dict_set "departure_datetime" (PStr s') query) = Ok true) /\
  (dt_leb t t' = true ->
   flight_matches_query flight
     (dict_set "arrival_datetime" (PStr s) query) = Ok true ->
   flight_matches_query flight
     (dict_set "arrival_datetime" (PStr s') query) = Ok true).
Proof.
  intros Hs Hs'. split; intros Hle; unfold flight_matches_query.
  - destruct (date_filters_set flight query "departure_datetime" (PStr s)
                (or_introl eq_refl)) as [-> ->].
    destruct (date_filters_set flight query "departure_datetime" (PStr s')
                (or_introl eq_refl)) as [-> ->].
    unfold departure_filter, arrival_filter.
    rewrite !dict_get_set_same.
    rewrite !(dict_get_set_other "departure_datetime" "arrival_datetime")
      by discriminate.
    rewrite !parse_datetime_str_total, Hs, Hs'. cbn [bind].
    destruct (exact_matches _ flight query) as [[b|]|e]; cbn [and_then];
      try (intros H; exact H).
    destruct (subscript flight "departure_datetime") as [fv|e]; cbn [bind];
      [|intros H; exact H].
    destruct (parse_datetime fv) as [[f_dep|]|e]; cbn [bind];
      try (intros H; exact H).
    destruct (dt_ltb f_dep t) eqn:E1; cbn [and_then]; [discriminate|].
    destruct (dt_ltb f_dep t') eqn:E2; cbn [and_then]; [|intros H; exact H].
    rewrite (dt_ltb_leb_trans f_dep t' t E2 Hle) in E1. discriminate.
  - destruct (date_filters_set flight query "arrival_datetime" (PStr s)
                (or_intror eq_refl)) as [-> ->].
    destruct (date_filters_set flight query "arrival_datetime" (PStr s')
                (or_intror eq_refl)) as [-> ->].
    unfold departure_filter, arrival_filter.
    rewrite !dict_get_set_same.
    rewrite !(dict_get_set_other "arrival_datetime" "departure_datetime")
      by discriminate.
    rewrite !parse_datetime_str_total, Hs, Hs'. cbn [bind].
    destruct (exact_matches _ flight query) as [[b|]|e]; cbn [and_then];
      try (intros H; exact H).
    match goal with
    | |- context [and_then ?X _] => destruct X as [[b|]|e]
    end; cbn [and_then]; try (intros H; exact H).
    destruct (subscript flight "arrival_datetime") as [fv|e]; cbn [bind];
      [|intros H; exact H].
    destruct (parse_datetime fv) as [[f_arr|]|e]; cbn [bind];
      try (intros H; exact H).
    unfold dt_gtb.
    destruct (dt_ltb t f_arr) eqn:E1; cbn [and_then]; [discriminate|].
    destruct (dt_ltb t' f_arr) eqn:E2; cbn [and_then]; [|intros H; exact H].
    rewrite (dt_leb_ltb_trans t t' f_arr Hle E2) in E1. discriminate.
Qed.

Lemma looser_date_bound_keeps_match_witness :
  parse_datetime_str "2024-05-01 10:00" = Some (mkdt 2024 5 1 10 0) /\
  parse_datetime_str "2024-5-1 9:59" = Some (mkdt 2024 5 1 9 59) /\
  dt_leb (mkdt 2024 5 1 9 59) (mkdt 2024 5 1 10 0) = true /\
  flight_matches_query sample_flight
    (dict_set "departure_datetime" (PStr "2024-05-01 10:00") []) = Ok true /\
  flight_matches_query sample_flight
    (dict_set "departure_datetime" (PStr "2024-5-1 9:59") []) = Ok true.
Proof.
  assert (H1 : parse_datetime_str "2024-05-01 10:00" = Some (mkdt 2024 5 1 10 0))
    by (vm_compute; reflexivity).
  assert (H2 : parse_datetime_str "2024-5-1 9:59" = Some (mkdt 2024 5 1 9 59))
    by (vm_compute; reflexivity).
  assert (H3 : dt_leb (mkdt 2024 5 1 9 59) (mkdt 2024 5 1 10 0) = true)
    by reflexivity.
  assert (H4 : flight_matches_query sample_flight
                 (dict_set "departure_datetime" (PStr "2024-05-01 10:00") [])
               = Ok true) by (vm_compute; reflexivity).
  split; [exact H1|]. split; [exact H2|]. split; [exact H3|].
  split; [exact H4|].
  exact (proj1 (looser_date_bound_keeps_match sample_flight []
                  "2024-05-01 10:00" "2024-5-1 9:59" _ _ H1 H2) H3 H4).
Defined.
